(** * EC_MS [Combining.py]: column taxonomy, windowing, time calibration,
      trigger calibration and the synchronizer, embedded in Rocq.

    Conventions of the embedding.
    - Python [str] is [string]; slices are written with [substring].
    - Numeric samples (numpy float arrays, epoch times) are exact integers
      [Z]: every claim below is about comparisons, sums and differences,
      lengths and membership, for which the exact model is the intended one.
    - A Python [dict] is an insertion-ordered association list with unique
      keys ([dict_get], [dict_set]).
    - A Python exception is the [Raise] constructor of [result]. *)

From Stdlib Require Import ZArith List String Ascii Bool Lia Arith PeanoNat.
From Stdlib Require Import DecimalString.
Import ListNotations.
Open Scope string_scope.
Open Scope Z_scope.

Set Implicit Arguments.
Set Warnings "-register-all".

(* ------------------------------------------------------------------ *)
(** ** Exceptions *)

Inductive exn : Type :=
| KeyError | IndexError | TypeError | ValueError | NameError | SystemExit
| NotModelled.  (* the embedding does not follow the code on this input *)

Inductive result (A : Type) : Type :=
| Ok (a : A)
| Raise (e : exn).

Arguments Ok {A} a.
Arguments Raise {A} e.

Definition bind {A B : Type} (r : result A) (k : A -> result B) : result B :=
  match r with
  | Ok a => k a
  | Raise e => Raise e
  end.

Notation "x <- r ;; k" := (bind r (fun x => k))
  (at level 61, r at next level, right associativity).

(* ------------------------------------------------------------------ *)
(** ** Python string slices *)

Module PyStr.

(** [s[0:n]] *)
Definition take (n : nat) (s : string) : string := substring 0 n s.

(** [s[-n:]] *)
Definition last_n (n : nat) (s : string) : string :=
  substring (String.length s - n) n s.

(** [s[:-n]] *)
Definition drop_last (n : nat) (s : string) : string :=
  substring 0 (String.length s - n) s.

(** [s[-1]], an [IndexError] on the empty string *)
Definition last_char (s : string) : result ascii :=
  match String.get (String.length s - 1) s with
  | Some c => Ok c
  | None => Raise IndexError
  end.

(** [s[0]], an [IndexError] on the empty string *)
Definition first_char (s : string) : result ascii :=
  match s with
  | String c _ => Ok c
  | EmptyString => Raise IndexError
  end.

Definition is_digit (c : ascii) : bool :=
  let n := nat_of_ascii c in ((48 <=? n) && (n <=? 57))%nat.

Fixpoint drop_digits (s : string) : string :=
  match s with
  | String c s' => if is_digit c then drop_digits s' else s
  | EmptyString => EmptyString
  end.

Fixpoint all_digits (s : string) : bool :=
  match s with
  | String c s' => is_digit c && all_digits s'
  | EmptyString => true
  end.

Fixpoint mem (s : string) (l : list string) : bool :=
  match l with
  | [] => false
  | x :: l' => String.eqb s x || mem s l'
  end.

(** [re.search(r'^M[0-9]+-[xy]', s)]: the greedy digit run is followed by
    a non-digit, so no backtracking is involved. *)
Definition match_mass_channel (s : string) : bool :=
  match s with
  | String "M" rest =>
      match rest with
      | String d _ =>
          is_digit d &&
          match drop_digits rest with
          | String "-" (String c _) => Ascii.eqb c "x" || Ascii.eqb c "y"
          | _ => false
          end
      | EmptyString => false
      end
  | _ => false
  end.

(** [re.search(r'_[0-9][0-9]*\Z', s)]: the start index of the match, that
    is the position of an underscore followed by a non-empty run of digits
    reaching the end of the string. Digits contain no underscore, so there
    is at most one such position. *)
Fixpoint search_number_suffix (s : string) : option nat :=
  match s with
  | EmptyString => None
  | String c s' =>
      if Ascii.eqb c "_" && negb (String.eqb s' "") && all_digits s'
      then Some O
      else option_map S (search_number_suffix s')
  end.

End PyStr.

(* ------------------------------------------------------------------ *)
(** ** Column taxonomy *)

Section Taxonomy.

(** [EC_cols_0] is imported from the module [EC], which fixes the
    vocabulary of electrochemistry column names. *)
Variable EC_cols_0 : list string.

Definition is_MS_data (col : string) : bool := PyStr.match_mass_channel col.

Definition is_EC_data (col : string) : result bool :=
  if PyStr.mem col EC_cols_0 then Ok true
  else
    c <- PyStr.last_char col ;;
    Ok (Ascii.eqb c "*" && PyStr.mem (PyStr.drop_last 1 col) EC_cols_0).

Definition is_Xray_data (col : string) : result bool :=
  ec <- is_EC_data col ;;
  if ec then Ok false
  else if is_MS_data col then Ok false
  else Ok true.

Definition ends_xy (col : string) : bool :=
  let e := PyStr.last_n 2 col in String.eqb e "-x" || String.eqb e "-y".

Definition get_type (col : string) : result string :=
  ec <- is_EC_data col ;;
  if ec then Ok "EC"
  else if is_MS_data col then Ok "MS"
  else if ends_xy col then Ok "cinfdata"
  else Ok "Xray".

(** [is_time]; the recursive call is on a strictly shorter name, [fuel]
    bounds the depth. *)
Fixpoint is_time_fuel (fuel : nat) (col : string) : result bool :=
  col_type <- get_type col ;;
  if String.eqb col_type "EC" then
    Ok (String.eqb (PyStr.take 4 col) "time")
  else if String.eqb col_type "MS" || String.eqb col_type "cinfdata" then
    Ok (String.eqb (PyStr.last_n 2 col) "-x")
  else if String.eqb col_type "Xray" then
    Ok (String.eqb col "t")
  else
    match PyStr.search_number_suffix col with
    | Some start =>
        match fuel with
        | O => Ok false
        | S fuel' => is_time_fuel fuel' (PyStr.take start col)
        end
    | None => Ok false
    end.

Definition is_time (col : string) : result bool :=
  is_time_fuel (String.length col) col.

(** [get_timecol(col, data_type)]; [None] stands for Python's [None] in
    both arguments and in the returned name. *)
Definition get_timecol (col : option string) (data_type : option string)
  : result (option string) :=
  data_type <-
    match data_type with
    | Some dt => Ok dt
    | None =>
        match col with
        | Some c => get_type c
        | None => Raise TypeError
        end
    end ;;
  if String.eqb data_type "EC" then Ok (Some "time/s")
  else if String.eqb data_type "MS" then
    match col with
    | None => Ok (Some "M4-x")
    | Some c => Ok (Some (PyStr.drop_last 2 c ++ "-x"))
    end
  else if String.eqb data_type "Xray" then Ok (Some "t")
  else
    match col with
    | None => Raise TypeError
    | Some c =>
        if ends_xy c then Ok (Some (PyStr.drop_last 2 c ++ "-x"))
        else Ok None
    end.

(** The time column of a named column, as every caller in this file asks
    for it: [get_timecol(col)]. *)
Definition timecol_of (col : string) : result (option string) :=
  get_timecol (Some col) None.

End Taxonomy.

(* ------------------------------------------------------------------ *)
(** ** Values and dictionaries *)

Inductive value : Type :=
| VNone
| VNum (x : Z)
| VStr (s : string)
| VArr (a : list Z)                (* numpy array of samples *)
| VNums (l : list Z)               (* Python list of numbers, e.g. tspan *)
| VNames (l : list string)         (* Python list of names, e.g. data_cols *)
| VNest (m : list (nat * value)).  (* {combining number: value} *)

Definition dict : Type := list (string * value).

Fixpoint dict_get (k : string) (d : dict) : option value :=
  match d with
  | [] => None
  | (k', v) :: d' => if String.eqb k k' then Some v else dict_get k d'
  end.

(** [d[k] = v]: an existing key keeps its place, a new key goes last. *)
Fixpoint dict_set (k : string) (v : value) (d : dict) : dict :=
  match d with
  | [] => [(k, v)]
  | (k', v') :: d' =>
      if String.eqb k k' then (k', v) :: d' else (k', v') :: dict_set k v d'
  end.

Definition dict_mem (k : string) (d : dict) : bool :=
  match dict_get k d with Some _ => true | None => false end.

(** [d[k]] *)
Definition dict_item (k : string) (d : dict) : result value :=
  match dict_get k d with
  | Some v => Ok v
  | None => Raise KeyError
  end.

Definition as_num (v : value) : result Z :=
  match v with VNum x => Ok x | _ => Raise TypeError end.

Definition as_array (v : value) : result (list Z) :=
  match v with VArr a => Ok a | _ => Raise TypeError end.

Definition as_names (v : value) : result (list string) :=
  match v with VNames l => Ok l | _ => Raise TypeError end.

(** [l[k]] for an integer [k], negative indices counting from the end *)
Definition py_index {A : Type} (l : list A) (k : Z) : result A :=
  let n := Z.of_nat (List.length l) in
  let i := if k <? 0 then k + n else k in
  if (0 <=? i) && (i <? n) then
    match nth_error l (Z.to_nat i) with
    | Some x => Ok x
    | None => Raise IndexError
    end
  else Raise IndexError.

(** [a[mask]] for a boolean numpy mask: the lengths must agree *)
Fixpoint mask_select (a : list Z) (mask : list bool) : result (list Z) :=
  match a, mask with
  | [], [] => Ok []
  | x :: a', b :: mask' =>
      r <- mask_select a' mask' ;;
      Ok (if b then x :: r else r)
  | _, _ => Raise IndexError
  end.

(** [np.logical_and(lo < t, t < hi)] *)
Definition window_mask (lo hi : Z) (t : list Z) : list bool :=
  map (fun x => (lo <? x) && (x <? hi)) t.

(* ------------------------------------------------------------------ *)
(** ** Reading integers: Python's [int(str)] *)

Module PyInt.

Definition is_space (c : ascii) : bool :=
  let n := nat_of_ascii c in
  (((9 <=? n) && (n <=? 13)) || ((28 <=? n) && (n <=? 32)))%nat.

Fixpoint lstrip (s : string) : string :=
  match s with
  | String c s' => if is_space c then lstrip s' else s
  | EmptyString => EmptyString
  end.

Fixpoint all_space (s : string) : bool :=
  match s with
  | String c s' => is_space c && all_space s'
  | EmptyString => true
  end.

Definition digit_val (c : ascii) : Z := Z.of_nat (nat_of_ascii c) - 48.

(** digits, single underscores allowed between digits, trailing blanks;
    [acc] is the value read so far, [after_digit] tells whether the
    previous character was a digit. *)
Fixpoint body (s : string) (acc : Z) (after_digit : bool) : option Z :=
  match s with
  | EmptyString => if after_digit then Some acc else None
  | String c s' =>
      if PyStr.is_digit c then body s' (10 * acc + digit_val c) true
      else if Ascii.eqb c "_" then
        if after_digit then
          match s' with
          | String d _ => if PyStr.is_digit d then body s' acc false else None
          | EmptyString => None
          end
        else None
      else if after_digit && all_space s then Some acc
      else None
  end.

Definition parse (s : string) : result Z :=
  let s := lstrip s in
  let r :=
    match s with
    | String "-" s' => option_map Z.opp (body s' 0 false)
    | String "+" s' => body s' 0 false
    | _ => body s 0 false
    end in
  match r with
  | Some z => Ok z
  | None => Raise ValueError
  end.

End PyInt.

(** [timestamp_to_seconds]: seconds since midnight of [hh:mm:ss] *)
Definition timestamp_to_seconds (timestamp : string) : result Z :=
  h <- PyInt.parse (substring 0 2 timestamp) ;;
  m <- PyInt.parse (substring 3 2 timestamp) ;;
  s <- PyInt.parse (substring 6 2 timestamp) ;;
  Ok (60 ^ 2 * h + 60 * m + s).

(* ------------------------------------------------------------------ *)
(** ** Time calibration: [time_cal] *)

(** One coordinate of a calibration point: an [int], a [float] or a [str]. *)
Inductive pval : Type :=
| PInt (k : Z)
| PFloat (x : Z)
| PStr (s : string).

Definition point : Type := (pval * pval)%type.

(** [points]: a list of pairs, or one bare pair. *)
Inductive points_arg : Type :=
| Points (l : list point)
| OnePoint (p : point).

(** [point_type]: one string, a tuple or a list of two strings. *)
Inductive point_type_arg : Type :=
| PTStr (s : string)
| PTTuple (a b : string)
| PTList (a b : string).

(** [ref_data]: a dataset, or one of ['absolute'], ['epoch'], [None]. *)
Inductive ref_arg : Type :=
| RefAbsolute
| RefData (d : dict).

Definition valid_point_type (s : string) : bool :=
  String.eqb s "time" || String.eqb s "index" || String.eqb s "timestamp".

Definition guess_point_type (p : pval) : string :=
  match p with
  | PInt _ => "index"
  | PFloat _ => "time"
  | PStr _ => "timestamp"
  end.

(** The mode used on one axis after the input check. An unknown mode is
    replaced by a guess from the first point, written back into
    [point_type]: a tuple refuses the assignment. *)
Definition axis_mode (assignable : bool) (mode : string) (first : pval)
  : result string :=
  if valid_point_type mode then Ok mode
  else if assignable then Ok (guess_point_type first)
  else Raise TypeError.

(** One entry of [t_vecs]: [Ok (Some x)] stores [x]; [Ok None] is an
    [IndexError] or [TypeError] caught by the loop, which clears the mask of
    the point; [Raise] is any other exception. Time axes are arrays or lists
    of numbers, or [None] for an absolute reference. *)
Definition resolve_point (mode : string) (t : value) (p : pval)
  : result (option Z) :=
  if String.eqb mode "index" then
    match t, p with
    | VArr a, PInt k | VNums a, PInt k =>
        match py_index a k with
        | Ok x => Ok (Some x)
        | Raise _ => Ok None
        end
    | _, _ => Ok None
    end
  else if String.eqb mode "time" then
    match p with
    | PInt x | PFloat x => Ok (Some x)
    | PStr s => x <- PyInt.parse s ;; Ok (Some x)
    end
  else if String.eqb mode "timestamp" then
    match p with
    | PStr s => x <- timestamp_to_seconds s ;; Ok (Some x)
    | _ => Ok None
    end
  else Ok (Some 0).

Fixpoint resolve_axis (mode : string) (t : value) (ps : list pval)
  : result (list (option Z)) :=
  match ps with
  | [] => Ok []
  | p :: ps' =>
      x <- resolve_point mode t p ;;
      xs <- resolve_axis mode t ps' ;;
      Ok (x :: xs)
  end.

(** [t_vecs[:, mask]]: the points whose two coordinates were both read. *)
Fixpoint good_points (xs ys : list (option Z)) : list (Z * Z) :=
  match xs, ys with
  | Some x :: xs', Some y :: ys' => (x, y) :: good_points xs' ys'
  | _ :: xs', _ :: ys' => good_points xs' ys'
  | _, _ => []
  end.

Section TimeCal.

(** [np.polyfit(t, t_ref, 1)] on a non-empty point set: the slope and the
    intercept of the least-squares line. numpy is outside the repository;
    on an empty [t] it raises [TypeError]. *)
Variable lstsq_line : list Z -> list Z -> Z * Z.

Definition polyfit1 (t t_ref : list Z) : result (Z * Z) :=
  match t with
  | [] => Raise TypeError
  | _ :: _ => Ok (lstsq_line t t_ref)
  end.

(** [ref_data] as the body uses it: an absolute reference becomes a
    dataset with no reference time and [tstamp] 0. *)
Definition ref_dataset (ref_data : ref_arg) (reftimecol : string) : dict :=
  match ref_data with
  | RefAbsolute => [(reftimecol, VNone); ("tstamp", VNum 0)]
  | RefData d => d
  end.

(** [offset_0] *)
Definition tstamp_offset (data ref_data : dict) : result Z :=
  if negb (dict_mem "tstamp" ref_data) then Ok 0
  else
    r <- dict_item "tstamp" ref_data ;;
    d <- dict_item "tstamp" data ;;
    r <- as_num r ;;
    d <- as_num d ;;
    Ok (r - d).

(** [points] as a list of pairs; [points[0]] fails on the empty list. *)
Definition points_list (points : points_arg) : result (list point) :=
  match points with
  | Points [] => Raise IndexError
  | Points l => Ok l
  | OnePoint p => Ok [p]
  end.

(** The columns of [t_vecs] left by the mask: the pairs
    (pseudotime, reference time) of the points read without a problem. *)
Definition usable_points (data ref_data : dict) (points : list point)
    (point_type : point_type_arg)
    (pseudotimecol : option string) (reftimecol : string)
  : result (list (Z * Z)) :=
  let '(assignable, mode0, mode1) :=
    match point_type with
    | PTStr s => (false, s, s)
    | PTTuple a b => (false, a, b)
    | PTList a b => (true, a, b)
    end in
  pt <- match pseudotimecol with
        | Some c => dict_item c data
        | None => Raise KeyError
        end ;;
  rt <- dict_item reftimecol ref_data ;;
  let first := hd (PInt 0, PInt 0) points in
  mode0 <- axis_mode assignable mode0 (fst first) ;;
  xs <- resolve_axis mode0 pt (map fst points) ;;
  mode1 <- axis_mode assignable mode1 (snd first) ;;
  ys <- resolve_axis mode1 rt (map snd points) ;;
  Ok (good_points xs ys).

(** Everything [time_cal] does before it writes: the calibrated column. *)
Definition time_cal_column (data : dict) (ref_data : ref_arg)
    (points : points_arg) (point_type : point_type_arg)
    (pseudotimecol : option string) (reftimecol : string)
  : result (list Z) :=
  points <- points_list points ;;
  let ref_data := ref_dataset ref_data reftimecol in
  offset_0 <- tstamp_offset data ref_data ;;
  good <- usable_points data ref_data points point_type
                        pseudotimecol reftimecol ;;
  pt <- match pseudotimecol with
        | Some c => dict_item c data
        | None => Raise KeyError
        end ;;
  match good with
  | [(t, t_ref)] =>
      let offset := t_ref - t in
      pt <- as_array pt ;;
      Ok (map (fun x => x + offset + offset_0) pt)
  | _ =>
      pf <- polyfit1 (map fst good) (map snd good) ;;
      pt <- as_array pt ;;
      Ok (map (fun x => fst pf * x + snd pf + offset_0) pt)
  end.

(** [time_cal] mutates [data] in place: the outcome is the dataset as the
    call leaves it, with the exception if one was raised. The test
    [time not in data['data_cols']] compares the module [time] with the
    names of the list, so it holds for every list of names. *)
Definition time_cal (data : dict) (ref_data : ref_arg)
    (points : points_arg) (point_type : point_type_arg)
    (timecol : string) (pseudotimecol : option string) (reftimecol : string)
  : dict * result unit :=
  match time_cal_column data ref_data points point_type
                        pseudotimecol reftimecol with
  | Raise e => (data, Raise e)
  | Ok column =>
      let data := dict_set timecol (VArr column) data in
      match dict_get "data_cols" data with
      | None => (data, Raise KeyError)
      | Some (VNames cols) =>
          (dict_set "data_cols" (VNames (cols ++ [timecol])) data, Ok tt)
      | Some _ => (data, Raise TypeError)
      end
  end.

End TimeCal.

(* ------------------------------------------------------------------ *)
(** ** Trigger calibration: the matching of triggers to selector changes *)

Module TriggerCal.

(** [triggers[np.logical_and(pt[0]-edge < triggers, triggers < pt[-1]+edge)]] *)
Definition triggers_in_range (pt triggers : list Z) (edge : Z)
  : result (list Z) :=
  first <- py_index pt 0 ;;
  last <- py_index pt (-1) ;;
  Ok (filter (fun tr => (first - edge <? tr) && (tr <? last + edge)) triggers).

(** [np.logical_not(shiftvalue == shiftvalue_down)], where
    [shiftvalue_down] is [shiftvalue] moved one sample down behind
    [shiftvalue[0] - 1]. *)
Fixpoint changes_after (prev : Z) (shiftvalue : list Z) : list bool :=
  match shiftvalue with
  | [] => []
  | x :: rest => negb (x =? prev) :: changes_after x rest
  end.

Definition shiftmask (shiftvalue : list Z) : result (list bool) :=
  first <- py_index shiftvalue 0 ;;
  Ok (changes_after (first - 1) shiftvalue).

(** [pt[shiftmask]] *)
Definition shifttimes (pt shiftvalue : list Z) : result (list Z) :=
  m <- shiftmask shiftvalue ;;
  mask_select pt m.

(** [np.argmin]: the first index of the least entry *)
Fixpoint argmin_from (best : nat) (least : Z) (i : nat) (l : list Z) : nat :=
  match l with
  | [] => best
  | x :: l' =>
      if x <? least then argmin_from i x (S i) l'
      else argmin_from best least (S i) l'
  end.

Definition argmin (l : list Z) : result nat :=
  match l with
  | [] => Raise ValueError
  | x :: l' => Ok (argmin_from O x 1%nat l')
  end.

(** The three vectors grown by the loop over the triggers. *)
Record matches : Type := mkMatches {
  pt_points : list Z;    (* pseudotimes of the matched selector changes *)
  pt_indeces : list nat; (* their indices in [shifttimes] *)
  t_points : list Z      (* trigger times *)
}.

(** [pt_points[pt_indeces == index] = pt_point] *)
Fixpoint assign_where (index : nat) (pt_point : Z)
    (indeces : list nat) (points : list Z) : list Z :=
  match indeces, points with
  | i :: indeces', p :: points' =>
      (if Nat.eqb i index then pt_point else p)
        :: assign_where index pt_point indeces' points'
  | _, _ => points
  end.

(** One pass of the body of [for trigger in triggers]. *)
Definition match_trigger (shifttimes : list Z) (m : matches) (trigger : Z)
  : result matches :=
  let err := map (fun s => Z.abs (s - trigger)) shifttimes in
  index <- argmin err ;;
  pt_point <- py_index shifttimes (Z.of_nat index) ;;
  if existsb (Nat.eqb index) (pt_indeces m) then
    Ok (mkMatches (assign_where index pt_point (pt_indeces m) (pt_points m))
                  (pt_indeces m) (t_points m))
  else
    Ok (mkMatches (pt_points m ++ [pt_point])
                  (pt_indeces m ++ [index])
                  (t_points m ++ [trigger])).

Fixpoint match_triggers (shifttimes : list Z) (m : matches)
    (triggers : list Z) : result matches :=
  match triggers with
  | [] => Ok m
  | trigger :: rest =>
      m' <- match_trigger shifttimes m trigger ;;
      match_triggers shifttimes m' rest
  end.

(** The matched (pseudotime, trigger time) pairs [trigger_cal] builds its
    time map from, for a dataset that has the selector column; [None] when
    no trigger lies in the time range and nothing is calibrated. *)
Definition matched_pairs (pt shiftvalue triggers : list Z) (edge : Z)
  : result (option (list (Z * Z))) :=
  match triggers with
  | [] => Ok None
  | _ :: _ =>
      triggers <- triggers_in_range pt triggers edge ;;
      match triggers with
      | [] => Ok None
      | _ :: _ =>
          st <- shifttimes pt shiftvalue ;;
          m <- match_triggers st (mkMatches [] [] []) triggers ;;
          Ok (Some (combine (pt_points m) (t_points m)))
      end
  end.

End TriggerCal.

(* ------------------------------------------------------------------ *)
(** ** Windowing: [timeshift] and [cut_dataset] on dataset values *)

(** [t_zero] of [timeshift] and [cut_dataset]: [None], ['start'] or a number *)
Inductive tzero_arg : Type :=
| TzNone
| TzStart
| TzNum (t : Z).

(** a list or an array of numbers *)
Definition as_seq (v : value) : result (list Z) :=
  match v with
  | VNums l | VArr l => Ok l
  | _ => Raise TypeError
  end.

(** a loop over names that threads a state and stops at the first exception *)
Fixpoint for_each {S : Type} (f : S -> string -> result S) (s : S)
    (cols : list string) : result S :=
  match cols with
  | [] => Ok s
  | c :: cols' => s' <- f s c ;; for_each f s' cols'
  end.

Section Windowing.

Variable EC_cols_0 : list string.

Definition timeshift_col (t0 : Z) (dataset : dict) (col : string)
  : result dict :=
  b <- is_time EC_cols_0 col ;;
  if b then
    v <- dict_item col dataset ;;
    a <- as_array v ;;
    Ok (dict_set col (VArr (map (fun x => x - t0) a)) dataset)
  else Ok dataset.

Definition timeshift (dataset : dict) (t_zero : tzero_arg) : result dict :=
  t0 <-
    match t_zero with
    | TzNone => Ok 0
    | TzStart =>
        v <- dict_item "tspan" dataset ;;
        l <- as_seq v ;;
        py_index l 0
    | TzNum t => Ok t
    end ;;
  v <- dict_item "data_cols" dataset ;;
  cols <- as_names v ;;
  dataset <- for_each (timeshift_col t0) dataset cols ;;
  v <- dict_item "tspan" dataset ;;
  tspan <- as_seq v ;;
  a <- py_index tspan 0 ;;
  b <- py_index tspan (-1) ;;
  Ok (dict_set "tspan" (VNums [a - t0; b - t0]) dataset).

(** [time_masks]: one mask for each time column met so far *)
Definition masks : Type := list (string * list bool).

Fixpoint masks_get (k : string) (m : masks) : option (list bool) :=
  match m with
  | [] => None
  | (k', v) :: m' => if String.eqb k k' then Some v else masks_get k m'
  end.

Definition cut_col (tspan : list Z) (st : masks * dict) (col : string)
  : result (masks * dict) :=
  let '(time_masks, dataset) := st in
  timecol <- timecol_of EC_cols_0 col ;;
  timecol <- match timecol with
             | Some c => Ok c
             | None => Raise KeyError
             end ;;
  r <- match masks_get timecol time_masks with
       | Some mask => Ok (mask, time_masks)
       | None =>
           t <- dict_item timecol dataset ;;
           lo <- py_index tspan 0 ;;
           hi <- py_index tspan (-1) ;;
           t <- as_array t ;;
           let mask := window_mask lo hi t in
           Ok (mask, (time_masks ++ [(timecol, mask)])%list)
       end ;;
  let '(mask, time_masks) := r in
  v <- dict_item col dataset ;;
  a <- as_array v ;;
  a <- mask_select a mask ;;
  Ok (time_masks, dict_set col (VArr a) dataset).

Definition cut_dataset (dataset_0 : dict) (tspan : option (list Z))
    (t_zero : tzero_arg) : result dict :=
  let dataset := dataset_0 in
  v <- dict_item "data_cols" dataset ;;
  cols <- as_names v ;;
  match tspan with
  | None => Ok dataset
  | Some tspan =>
      st <- for_each (cut_col tspan) ([], dataset) cols ;;
      let dataset := dict_set "tspan" (VNums tspan) (snd st) in
      timeshift dataset t_zero
  end.

End Windowing.

(** Maps from names, in insertion order. *)
Fixpoint assoc_get {V : Type} (k : string) (m : list (string * V)) : option V :=
  match m with
  | [] => None
  | (k', v) :: m' => if String.eqb k k' then Some v else assoc_get k m'
  end.

Fixpoint assoc_set {V : Type} (k : string) (v : V) (m : list (string * V))
  : list (string * V) :=
  match m with
  | [] => [(k, v)]
  | (k', v') :: m' =>
      if String.eqb k k' then (k', v) :: m' else (k', v') :: assoc_set k v m'
  end.

(* ------------------------------------------------------------------ *)
(** ** Windowing on the heap: who shares what with whom

    [cut_dataset] copies its argument with [dict.copy()], which is shallow:
    the copy holds the very arrays and lists of the original, and
    [timeshift] subtracts in place. Here dictionaries, lists and arrays are
    objects of a heap and dictionary entries refer to them by location. *)

Module Heap.

Definition loc : Type := nat.

(** An entry of a dictionary: a scalar, or a reference to an object. *)
Inductive hvalue : Type :=
| HNone
| HNum (x : Z)
| HStr (s : string)
| HRef (l : loc).

Inductive obj : Type :=
| OArr (a : list Z)                    (* numpy array *)
| ONums (l : list Z)                   (* list of numbers *)
| ONames (l : list string)             (* list of names *)
| ODict (d : list (string * hvalue)).  (* dict *)

(** A new object is put at the end. *)
Definition heap : Type := list obj.

(** A computation on the heap; an exception leaves the heap as it is at the
    moment it is raised. *)
Definition M (A : Type) : Type := heap -> heap * result A.

Definition ret {A : Type} (a : A) : M A := fun h => (h, Ok a).

Definition raise {A : Type} (e : exn) : M A := fun h => (h, Raise e).

Definition lift {A : Type} (r : result A) : M A := fun h => (h, r).

Definition mbind {A B : Type} (m : M A) (k : A -> M B) : M B :=
  fun h =>
    match m h with
    | (h', Ok a) => k a h'
    | (h', Raise e) => (h', Raise e)
    end.

Notation "x <~ m ;; k" := (mbind m (fun x => k))
  (at level 61, m at next level, right associativity).

Definition alloc (o : obj) : M loc :=
  fun h => ((h ++ [o])%list, Ok (List.length h)).

Definition load (l : loc) : M obj :=
  fun h =>
    match nth_error h l with
    | Some o => (h, Ok o)
    | None => (h, Raise NotModelled)
    end.

Fixpoint update (h : heap) (l : loc) (o : obj) : heap :=
  match h, l with
  | [], _ => []
  | _ :: h', O => o :: h'
  | x :: h', S l' => x :: update h' l' o
  end.

Definition store (l : loc) (o : obj) : M unit :=
  fun h => (update h l o, Ok tt).

Definition load_dict (l : loc) : M (list (string * hvalue)) :=
  o <~ load l ;;
  match o with
  | ODict d => ret d
  | _ => raise TypeError
  end.

(** [dataset[k]] *)
Definition item (dataset : loc) (k : string) : M hvalue :=
  d <~ load_dict dataset ;;
  match assoc_get k d with
  | Some v => ret v
  | None => raise KeyError
  end.

(** [dataset[k] = v] *)
Definition set_item (dataset : loc) (k : string) (v : hvalue) : M unit :=
  d <~ load_dict dataset ;;
  store dataset (ODict (assoc_set k v d)).

Definition load_array (v : hvalue) : M (list Z) :=
  match v with
  | HRef l =>
      o <~ load l ;;
      match o with
      | OArr a => ret a
      | _ => raise TypeError
      end
  | _ => raise TypeError
  end.

Definition load_seq (v : hvalue) : M (list Z) :=
  match v with
  | HRef l =>
      o <~ load l ;;
      match o with
      | OArr a | ONums a => ret a
      | _ => raise TypeError
      end
  | _ => raise TypeError
  end.

Definition load_names (v : hvalue) : M (list string) :=
  match v with
  | HRef l =>
      o <~ load l ;;
      match o with
      | ONames names => ret names
      | _ => raise NotModelled
      end
  | _ => raise NotModelled
  end.

Fixpoint for_each {S : Type} (f : S -> string -> M S) (s : S)
    (cols : list string) : M S :=
  match cols with
  | [] => ret s
  | c :: cols' => s' <~ f s c ;; for_each f s' cols'
  end.

Section Windowing.

Variable EC_cols_0 : list string.

(** [dataset[col] -= t0]: an array is changed where it is, a number is
    replaced. *)
Definition timeshift_col (dataset : loc) (t0 : Z) (_ : unit) (col : string)
  : M unit :=
  b <~ lift (is_time EC_cols_0 col) ;;
  if b then
    v <~ item dataset col ;;
    match v with
    | HRef l =>
        o <~ load l ;;
        match o with
        | OArr a => store l (OArr (map (fun x => x - t0) a))
        | _ => raise TypeError
        end
    | HNum x => set_item dataset col (HNum (x - t0))
    | _ => raise TypeError
    end
  else ret tt.

Definition timeshift (dataset : loc) (t_zero : tzero_arg) : M loc :=
  t0 <~
    match t_zero with
    | TzNone => ret 0
    | TzStart =>
        v <~ item dataset "tspan" ;;
        l <~ load_seq v ;;
        lift (py_index l 0)
    | TzNum t => ret t
    end ;;
  v <~ item dataset "data_cols" ;;
  cols <~ load_names v ;;
  _ <~ for_each (timeshift_col dataset t0) tt cols ;;
  v <~ item dataset "tspan" ;;
  tspan <~ load_seq v ;;
  a <~ lift (py_index tspan 0) ;;
  b <~ lift (py_index tspan (-1)) ;;
  new <~ alloc (ONums [a - t0; b - t0]) ;;
  _ <~ set_item dataset "tspan" (HRef new) ;;
  ret dataset.

Definition cut_col (dataset tspan : loc) (time_masks : masks) (col : string)
  : M masks :=
  timecol <~ lift (timecol_of EC_cols_0 col) ;;
  timecol <~ match timecol with
             | Some c => ret c
             | None => raise KeyError
             end ;;
  r <~ match masks_get timecol time_masks with
       | Some mask => ret (mask, time_masks)
       | None =>
           t <~ item dataset timecol ;;
           w <~ load_seq (HRef tspan) ;;
           lo <~ lift (py_index w 0) ;;
           hi <~ lift (py_index w (-1)) ;;
           t <~ load_array t ;;
           let mask := window_mask lo hi t in
           ret (mask, (time_masks ++ [(timecol, mask)])%list)
       end ;;
  let '(mask, time_masks) := r in
  v <~ item dataset col ;;
  a <~ load_array v ;;
  a <~ lift (mask_select a mask) ;;
  new <~ alloc (OArr a) ;;
  _ <~ set_item dataset col (HRef new) ;;
  ret time_masks.

Definition cut_dataset (dataset_0 : loc) (tspan : option loc)
    (t_zero : tzero_arg) : M loc :=
  d <~ load_dict dataset_0 ;;
  dataset <~ alloc (ODict d) ;;
  v <~ item dataset "data_cols" ;;
  cols <~ load_names v ;;
  l <~ alloc (ONames cols) ;;
  _ <~ set_item dataset "data_cols" (HRef l) ;;
  match tspan with
  | None => ret dataset
  | Some tspan =>
      _ <~ for_each (cut_col dataset tspan) [] cols ;;
      _ <~ set_item dataset "tspan" (HRef tspan) ;;
      timeshift dataset t_zero
  end.

End Windowing.

End Heap.

(* ------------------------------------------------------------------ *)
(** ** The synchronizer: [synchronize] *)

(** [str(n)] for a natural number *)
Definition str_of_nat (n : nat) : string :=
  NilEmpty.string_of_uint (Nat.to_uint n).

(** [t_zero]: one of the four policies, or an epoch time *)
Inductive t_zero_arg : Type :=
| TZStart
| TZFirst
| TZLast
| TZFinish
| TZEpoch (t : Z).

Record sync_options : Type := mkOptions {
  opt_t_zero : t_zero_arg;
  opt_append : option bool;
  opt_file_number_type : string;
  opt_cutit : bool;
  opt_cut_buffer : Z;
  opt_override : option bool
}.

(** What the first loop collects. *)
Record pass1 : Type := mkPass1 {
  recstarts : list Z;      (* first recorded time of each dataset *)
  t_start : Z;             (* latest start: start of the overlap *)
  t_finish : Z;            (* earliest finish: end of the overlap *)
  t_first : Z;             (* earliest tstamp *)
  t_last : Z;              (* latest tstamp *)
  hasdata : list bool;     (* by combining number *)
  title_combined : string
}.

Definition names_assoc : Type := list (string * nat).

(** [len(v)] *)
Definition py_len (v : value) : result nat :=
  match v with
  | VArr a | VNums a => Ok (List.length a)
  | VStr s => Ok (String.length s)
  | VNames l => Ok (List.length l)
  | VNest m => Ok (List.length m)
  | VNum _ | VNone => Raise TypeError
  end.

(** [(v[0], v[-1])] of a column; [None] when both raise [IndexError] *)
Definition first_last (v : value) : result (option (Z * Z)) :=
  match v with
  | VArr [] | VNums [] | VNames [] => Ok None
  | VArr a | VNums a =>
      x <- py_index a 0 ;;
      y <- py_index a (-1) ;;
      Ok (Some (x, y))
  | VStr "" => Ok None
  | VNest _ => Raise NotModelled
  | _ => Raise TypeError
  end.

(** [np.append(old, new)] of arrays or lists of numbers *)
Definition np_append (old new : value) : result value :=
  match old, new with
  | (VArr a | VNums a), (VArr b | VNums b) => Ok (VArr (a ++ b))
  | _, _ => Raise NotModelled
  end.

(** [list.remove(x)]: the first occurrence goes *)
Fixpoint remove_first (x : string) (l : list string) : list string :=
  match l with
  | [] => []
  | y :: l' => if String.eqb x y then l' else y :: remove_first x l'
  end.

(** [np.argsort]: the indices that sort the keys, equal keys in input
    order. *)
Fixpoint insert_by_key (k : Z) (i : nat) (l : list (Z * nat))
  : list (Z * nat) :=
  match l with
  | [] => [(k, i)]
  | (k', i') :: l' =>
      if k <? k' then (k, i) :: l else (k', i') :: insert_by_key k i l'
  end.

Fixpoint argsort_from (i : nat) (keys : list Z) : list (Z * nat) :=
  match keys with
  | [] => []
  | k :: keys' => argsort_from (S i) keys' ++ [(k, i)]
  end.

Definition argsort (keys : list Z) : list nat :=
  map snd (fold_left (fun acc ki => insert_by_key (fst ki) (snd ki) acc)
                     (rev (argsort_from O keys)) []).

Definition data_type_of (d : dict) : result string :=
  v <- dict_item "data_type" d ;;
  match v with
  | VStr s => Ok s
  | _ => Raise NotModelled
  end.

Fixpoint data_types (ds : list dict) : result (list string) :=
  match ds with
  | [] => Ok []
  | d :: ds' =>
      t <- data_type_of d ;;
      ts <- data_types ds' ;;
      Ok (t :: ts)
  end.

(** [len({d['data_type'] for d in datasets}) == 1] *)
Definition one_data_type (types : list string) : bool :=
  match types with
  | [] => false
  | t :: ts => forallb (String.eqb t) ts
  end.

Definition data_cols_of (d : dict) : result (list string) :=
  v <- dict_item "data_cols" d ;;
  match v with
  | VNames l => Ok l
  | _ => Raise NotModelled
  end.

Definition title_of (d : dict) : result string :=
  v <- dict_item "title" d ;;
  match v with
  | VStr s => Ok s
  | _ => Raise TypeError
  end.

Section Synchronize.

Variable EC_cols_0 : list string.

(** [time.time()] at the call *)
Variable now : Z.

(** the answer to [offerquit]: [true] to continue, [false] for ['n'] *)
Variable user_continues : bool.

(** [Data_Importing.timestamp_to_epoch_time(timestamp, date)] and
    [Data_Importing.epoch_time_to_timestamp(t)] belong to the importing
    module. *)
Variable timestamp_to_epoch_time : option value -> option value -> result Z.
Variable epoch_time_to_timestamp : Z -> result value.

Definition offerquit : result unit :=
  if user_continues then Ok tt else Raise SystemExit.

(** The body of [for col in dataset['data_cols']] of the first loop:
    [(t_s, t_f)] and whether the dataset still counts as having data. *)
Definition span_col (t_0 : Z) (dataset : dict) (st : Z * Z * bool)
    (col : string) : result (Z * Z * bool) :=
  let '(t_s, t_f, has) := st in
  b <- is_time EC_cols_0 col ;;
  if b then
    v <- dict_item col dataset ;;
    fl <- first_last v ;;
    match fl with
    | Some (x, y) => Ok (Z.min t_s (t_0 + x), Z.max t_f (t_0 + y), has)
    | None => Ok (t_s, t_f, false)
    end
  else Ok st.

(** The recording span of a dataset in epoch time, as the first loop
    computes it. *)
Definition recording_span (t_0 : Z) (dataset : dict)
  : result (Z * Z * bool) :=
  cols <- data_cols_of dataset ;;
  for_each (span_col t_0 dataset) (now, 0, true) cols.

Definition tstamp_of (dataset : dict) : result Z :=
  match dict_get "tstamp" dataset with
  | Some v => as_num v
  | None =>
      timestamp_to_epoch_time (dict_get "timestamp" dataset)
                              (dict_get "date" dataset)
  end.

(** One pass of the first loop, for the dataset with combining number
    [nd] out of [n]; the dataset is returned with its tag. *)
Definition pass1_step (n : nat) (st : pass1) (nd : nat) (dataset : dict)
  : result (pass1 * dict) :=
  let dataset := dict_set "combining_number" (VNum (Z.of_nat nd)) dataset in
  cols <- (if dict_mem "data_cols" dataset then data_cols_of dataset
           else Ok []) ;;
  match cols with
  | [] =>
      _ <- title_of dataset ;;
      Ok (mkPass1 (recstarts st ++ [now]) (t_start st) (t_finish st)
                  (t_first st) (t_last st) (hasdata st ++ [false])
                  (title_combined st),
          dataset)
  | _ :: _ =>
      title <- title_of dataset ;;
      let sep :=
        if (0 <? String.length (title_combined st))%nat then
          ", " ++ (if Nat.eqb nd (n - 1) then "and " else "")
        else "" in
      let title_combined :=
        title_combined st ++ sep ++ "(" ++ title ++ ") as " ++ str_of_nat nd in
      t_0 <- tstamp_of dataset ;;
      span <- recording_span t_0 dataset ;;
      let '(t_s, t_f, has) := span in
      if has then
        Ok (mkPass1 (recstarts st ++ [t_s])
                    (Z.max (t_start st) t_s) (Z.min (t_finish st) t_f)
                    (Z.min (t_first st) t_0) (Z.max (t_last st) t_0)
                    (hasdata st ++ [true]) title_combined,
            dataset)
      else
        Ok (mkPass1 (recstarts st) (t_start st) (t_finish st)
                    (t_first st) (t_last st) (hasdata st ++ [false])
                    title_combined,
            dataset)
  end.

Fixpoint pass1_loop (n : nat) (st : pass1) (nd : nat) (done todo : list dict)
  : result (pass1 * list dict) :=
  match todo with
  | [] => Ok (st, done)
  | dataset :: todo' =>
      r <- pass1_step n st nd dataset ;;
      pass1_loop n (fst r) (S nd) (done ++ [snd r]) todo'
  end.

Definition pass1_init : pass1 := mkPass1 [] 0 now now 0 [] "".

(** The first loop over [datasets]. *)
Definition first_loop (datasets : list dict) : result (pass1 * list dict) :=
  pass1_loop (List.length datasets) pass1_init O [] datasets.

Definition resolve_t_zero (t_zero : t_zero_arg) (p : pass1) : Z :=
  match t_zero with
  | TZStart => t_start p
  | TZFirst => t_first p
  | TZLast => t_last p
  | TZFinish => t_finish p
  | TZEpoch t => t
  end.

(** [combined_data] as it stands when the first loop has been saved. *)
Definition combined_header (p : pass1) (t_zero : Z) (timestamp : value)
  : dict :=
  [ ("data_type", VStr "combined");
    ("data_cols", VNames []);
    ("title", VStr (title_combined p));
    ("tspan_0", VNums [t_start p; t_finish p]);
    ("tspan_1", VNums [t_start p - t_first p; t_finish p - t_first p]);
    ("tspan", VNums [t_start p - t_zero; t_finish p - t_zero]);
    ("tspan_2", VNums [t_start p - t_zero; t_finish p - t_zero]);
    ("tstamp", VNum t_zero);
    ("timestamp", timestamp);
    ("first", VNum (t_first p - t_zero));
    ("last", VNum (t_last p - t_zero));
    ("start", VNum (t_start p - t_zero));
    ("finish", VNum (t_finish p - t_zero)) ].

(** [next(datasets[nd] for nd, v in hasdata.items() if v == 1)] *)
Fixpoint first_with_data (hasdata : list bool) (datasets : list dict)
  : option dict :=
  match hasdata, datasets with
  | true :: _, d :: _ => Some d
  | false :: hasdata', _ :: datasets' => first_with_data hasdata' datasets'
  | _, _ => None
  end.

(** *** The second loop *)

(** [combined_data['data_cols']] *)
Definition combined_cols (combined : dict) : result (list string) :=
  data_cols_of combined.

(** [masks]: for each time column of the dataset, the samples within the
    overlap widened by [cut_buffer], in the time of the dataset. *)
Definition cut_mask_col (p : pass1) (t_0 cut_buffer : Z) (dataset : dict)
    (masks : list (string * list bool)) (col : string)
  : result (list (string * list bool)) :=
  b <- is_time EC_cols_0 col ;;
  if b then
    v <- dict_item col dataset ;;
    t <- as_array v ;;
    Ok (assoc_set col (window_mask (t_start p - t_0 - cut_buffer)
                                   (t_finish p - t_0 + cut_buffer) t) masks)
  else Ok masks.

(** [oldcollength] from [combined_data] *)
Definition oldcollength_col (combined : dict) (m : names_assoc)
    (col : string) : result names_assoc :=
  b <- is_time EC_cols_0 col ;;
  if b then
    v <- dict_item col combined ;;
    n <- py_len v ;;
    Ok (assoc_set col n m)
  else Ok m.

(** [collength] from the dataset, which also enters the time columns new
    to [combined_data] in [oldcollength] with length 0 *)
Definition collength_col (dataset : dict) (m : names_assoc * names_assoc)
    (col : string) : result (names_assoc * names_assoc) :=
  let '(oldcollength, collength) := m in
  b <- is_time EC_cols_0 col ;;
  if b then
    v <- dict_item col dataset ;;
    n <- py_len v ;;
    Ok (match assoc_get col oldcollength with
        | Some _ => oldcollength
        | None => assoc_set col O oldcollength
        end,
        assoc_set col n collength)
  else Ok m.

(** The state of the loop over the columns of one dataset: the combined
    dataset, the names still in [dataset['data_cols']], and the local
    variable [l0], which keeps its last value. *)
Record merge_state : Type := mkMerge {
  merged : dict;
  cols_left : list string;
  last_l0 : option nat
}.

(** [data + offset] *)
Definition add_offset (data : value) (offset : Z) : result value :=
  match data with
  | VArr a => Ok (VArr (map (fun x => x + offset) a))
  | VNum x => Ok (VNum (x + offset))
  | _ => Raise TypeError
  end.

Definition zeros (n : nat) : value := VArr (repeat 0 n).

(** The body of the loop over the columns of a dataset. *)
Definition merge_col (append cutit : bool) (nd : nat) (offset : Z)
    (masks : list (string * list bool))
    (oldcollength collength : names_assoc) (dataset : dict)
    (st : merge_state) (col : string) : result merge_state :=
  data <- dict_item col dataset ;;
  data <-
    (if cutit then
       timecol <- timecol_of EC_cols_0 col ;;
       match timecol with
       | Some tc =>
           match assoc_get tc masks with
           | Some mask =>
               a <- as_array data ;;
               a <- mask_select a mask ;;
               Ok (VArr a)
           | None => Ok data
           end
       | None => Ok data
       end
     else Ok data) ;;
  b <- is_time EC_cols_0 col ;;
  data <- (if b then add_offset data offset else Ok data) ;;
  if append then
    let olddata :=
      match dict_get col (merged st) with
      | Some v => v
      | None => VArr []
      end in
    n_data <- py_len data ;;
    n_old <- py_len olddata ;;
    let l1 := (n_data + n_old)%nat in
    timecol <- timecol_of EC_cols_0 col ;;
    match timecol with
    | None => Raise TypeError
    | Some tc =>
        match assoc_get tc oldcollength, assoc_get tc collength with
        | Some n0, Some n1 =>
            let l0 := (n0 + n1)%nat in
            olddata <- (if (l1 <? l0)%nat
                        then np_append olddata (zeros (l0 - l1))
                        else Ok olddata) ;;
            data <- np_append olddata data ;;
            let combined := dict_set col data (merged st) in
            cols <- combined_cols combined ;;
            let combined :=
              if PyStr.mem col cols then combined
              else dict_set "data_cols" (VNames (cols ++ [col])) combined in
            Ok (mkMerge combined (cols_left st) (Some l0))
        | _, _ =>
            Ok (mkMerge (merged st) (remove_first col (cols_left st))
                        (last_l0 st))
        end
    end
  else
    let col :=
      if dict_mem col (merged st) then col ++ "_" ++ str_of_nat nd
      else col in
    let combined := dict_set col data (merged st) in
    cols <- combined_cols combined ;;
    let combined :=
      if PyStr.mem col cols then combined
      else dict_set "data_cols" (VNames (cols ++ [col])) combined in
    Ok (mkMerge combined (cols_left st) (last_l0 st)).

(** [for col in dataset['data_cols']], by position in the list, which the
    body may shorten; [fuel] bounds the number of passes. *)
Fixpoint merge_cols (fuel : nat) (i : nat)
    (body : merge_state -> string -> result merge_state)
    (st : merge_state) : result merge_state :=
  match fuel with
  | O => Ok st
  | S fuel' =>
      match nth_error (cols_left st) i with
      | None => Ok st
      | Some col =>
          st' <- body st col ;;
          merge_cols fuel' (S i) body st'
      end
  end.

Fixpoint nest_get (nd : nat) (m : list (nat * value)) : option value :=
  match m with
  | [] => None
  | (k, v) :: m' => if Nat.eqb nd k then Some v else nest_get nd m'
  end.

Fixpoint nest_set (nd : nat) (v : value) (m : list (nat * value))
  : list (nat * value) :=
  match m with
  | [] => [(nd, v)]
  | (k, v') :: m' =>
      if Nat.eqb nd k then (k, v) :: m' else (k, v') :: nest_set nd v m'
  end.

(** [combined_data[col][nd] = value] *)
Definition nest_assign (col : string) (nd : nat) (v : value)
    (combined : dict) : result dict :=
  match dict_get col combined with
  | Some (VNest m) => Ok (dict_set col (VNest (nest_set nd v m)) combined)
  | Some (VStr _ | VNum _ | VNone) => Raise TypeError
  | Some _ => Raise NotModelled
  | None => Raise KeyError
  end.

(** The body of [for col, value in dataset.items()]. *)
Definition merge_meta (keys_0 : list string) (nd : nat) (combined : dict)
    (item : string * value) : result dict :=
  let '(col, v) := item in
  cols <- combined_cols combined ;;
  if PyStr.mem col cols then Ok combined
  else
    c <- PyStr.first_char col ;;
    if Ascii.eqb c "_" then
      if dict_mem col combined then nest_assign col nd v combined
      else Ok (dict_set col (VNest [(nd, v)]) combined)
    else
      let combined :=
        if PyStr.mem col keys_0 then combined else dict_set col v combined in
      let col := "_" ++ col in
      match dict_get col combined with
      | Some (VNest m) =>
          match nest_get nd m with
          | Some _ => Ok combined
          | None => nest_assign col nd v combined
          end
      | Some (VStr _ | VNum _ | VNone) => Raise TypeError
      | Some _ => Raise NotModelled
      | None => Ok (dict_set col (VNest [(nd, v)]) combined)
      end.

Fixpoint merge_metas (keys_0 : list string) (nd : nat) (combined : dict)
    (items : list (string * value)) : result dict :=
  match items with
  | [] => Ok combined
  | item :: items' =>
      combined' <- merge_meta keys_0 nd combined item ;;
      merge_metas keys_0 nd combined' items'
  end.

(** One pass of the second loop, for the dataset at position [i] of the
    sorted list. [fn_timecol] is bound when the file numbers are kept. *)
Definition pass2_step (o : sync_options) (append : bool) (p : pass1)
    (t_zero : Z) (fn_timecol : option (option string))
    (keys_0 : list string) (st : dict * option nat) (i : nat)
    (dataset : dict) : result (dict * option nat) :=
  let '(combined, l0) := st in
  v <- dict_item "combining_number" dataset ;;
  nd <- as_num v ;;
  let nd := Z.to_nat nd in
  if negb (nth nd (hasdata p) false) then Ok st
  else
    v <- dict_item "tstamp" dataset ;;
    t_0 <- as_num v ;;
    let offset := t_0 - t_zero in
    cols <- data_cols_of dataset ;;
    masks <- (if opt_cutit o
              then for_each (cut_mask_col p t_0 (opt_cut_buffer o) dataset)
                            [] cols
              else Ok []) ;;
    r <- (if append then
            ccols <- combined_cols combined ;;
            old <- for_each (oldcollength_col combined) [] ccols ;;
            lens <- for_each (collength_col dataset) (old, []) cols ;;
            let '(oldcollength, collength) := lens in
            dt <- dict_item "data_type" dataset ;;
            combined <-
              (match dt with
               | VStr dt =>
                   if String.eqb dt (opt_file_number_type o) then
                     match fn_timecol with
                     | None => Raise NameError
                     | Some None => Raise KeyError
                     | Some (Some tc) =>
                         match assoc_get tc collength with
                         | None => Raise KeyError
                         | Some n =>
                             old_fn <- dict_item "file number" combined ;;
                             fn <- np_append old_fn
                                     (VArr (repeat (Z.of_nat i) n)) ;;
                             Ok (dict_set "file number" fn combined)
                         end
                     end
                   else Ok combined
               | _ => Ok combined
               end) ;;
            Ok (combined, oldcollength, collength)
          else Ok (combined, [], [])) ;;
    let '(combined, oldcollength, collength) := r in
    m <- merge_cols (List.length cols) O
           (merge_col append (opt_cutit o) nd offset masks
                      oldcollength collength dataset)
           (mkMerge combined cols l0) ;;
    let dataset := dict_set "data_cols" (VNames (cols_left m)) dataset in
    combined <- merge_metas keys_0 nd (merged m) dataset ;;
    Ok (combined, last_l0 m).

Fixpoint pass2_loop (step : dict * option nat -> nat -> dict ->
                            result (dict * option nat))
    (st : dict * option nat) (i : nat) (datasets : list dict)
  : result (dict * option nat) :=
  match datasets with
  | [] => Ok st
  | dataset :: rest =>
      st' <- step st i dataset ;;
      pass2_loop step st' (S i) rest
  end.

(** The loop after the second loop: columns shorter than their time
    column are filled with zeros. *)
Definition pad_col (st : dict * option nat) (col : string)
  : result (dict * option nat) :=
  let '(combined, l0) := st in
  v <- dict_item col combined ;;
  l1 <- py_len v ;;
  timecol <- timecol_of EC_cols_0 col ;;
  l0 <- match timecol with
        | Some tc =>
            match dict_get tc combined with
            | Some t => n <- py_len t ;; Ok (Some n)
            | None => Ok l0
            end
        | None => Ok l0
        end ;;
  match l0 with
  | None => Raise NameError
  | Some n =>
      if (l1 <? n)%nat then
        v' <- np_append v (zeros (n - l1)) ;;
        Ok (dict_set col v' combined, Some n)
      else Ok (combined, Some n)
  end.

Definition finish_combined (combined : dict) : result dict :=
  cols <- combined_cols combined ;;
  let combined :=
    if dict_mem "file number" combined && negb (PyStr.mem "file number" cols)
    then dict_set "data_cols" (VNames (cols ++ ["file number"])) combined
    else combined in
  Ok (if dict_mem "time/s" combined
      then dict_set "t_str" (VStr "time/s") combined
      else combined).

(** [append] as the body uses it: appending is the default when all
    datasets have one data type. *)
Definition effective_append (datasets : list dict) (o : sync_options)
  : result bool :=
  match opt_append o with
  | Some a => Ok a
  | None => ts <- data_types datasets ;; Ok (one_data_type ts)
  end.

(** [[datasets[I] for I in I_sort]] *)
Definition sort_datasets (p : pass1) (datasets : list dict) : list dict :=
  flat_map (fun I => match nth_error datasets I with
                     | Some d => [d]
                     | None => []
                     end)
           (argsort (recstarts p)).

(** The [file number] column and the time column it follows, when the
    datasets are appended and one of them has the type to be numbered. *)
Definition file_number_setup (o : sync_options) (append : bool)
    (datasets : list dict) (combined : dict)
  : result (dict * option (option string)) :=
  if append then
    ts <- data_types datasets ;;
    if PyStr.mem (opt_file_number_type o) ts then
      tc <- get_timecol EC_cols_0 None (Some (opt_file_number_type o)) ;;
      Ok (dict_set "file number" (VNums []) combined, Some tc)
    else Ok (combined, None)
  else Ok (combined, None).

(** Everything after the shortcuts: the second loop over the sorted
    datasets, the filling loop and the last registrations. *)
Definition merge_datasets (o : sync_options) (append : bool) (p : pass1)
    (t_zero : Z) (datasets : list dict) (combined : dict) : result dict :=
  r <- file_number_setup o append datasets combined ;;
  let '(combined, fn_timecol) := r in
  let keys_0 := map fst combined in
  st <- pass2_loop (pass2_step o append p t_zero fn_timecol keys_0)
                   (combined, None) O datasets ;;
  cols <- combined_cols (fst st) ;;
  st <- for_each pad_col st cols ;;
  finish_combined (fst st).

(** [synchronize] on a list of datasets. *)
Definition synchronize (datasets : list dict) (o : sync_options)
  : result dict :=
  append <- effective_append datasets o ;;
  let override := match opt_override o with
                  | Some b => b
                  | None => append
                  end in
  r <- first_loop datasets ;;
  let '(p, datasets) := r in
  _ <- (if (t_finish p <? t_start p) && negb override then offerquit
        else Ok tt) ;;
  let t_zero := resolve_t_zero (opt_t_zero o) p in
  timestamp <- epoch_time_to_timestamp t_zero ;;
  let combined := combined_header p t_zero timestamp in
  let N_notempty := List.length (filter (fun v => v) (hasdata p)) in
  if Nat.eqb N_notempty 1 then
    match first_with_data (hasdata p) datasets with
    | Some d => Ok d
    | None => Raise NotModelled
    end
  else
    merge_datasets o append p t_zero (sort_datasets p datasets) combined.

End Synchronize.

(* ------------------------------------------------------------------ *)
(** ** Cutting a pair of vectors: [cut] *)

(** [cut(x, y, tspan, returnindeces, override)] on two arrays. The mask is
    part of the answer when [returnindeces] is set; [user_continues] is the
    answer given to [offerquit]. The warning about an empty cut reads
    [x[0]] and [x[-1]] for its text before it offers to quit. *)
Definition cut (user_continues : bool) (x y : list Z)
    (tspan : option (list Z)) (returnindeces override : bool)
  : result (list Z * list Z * option (list bool)) :=
  match tspan with
  | None => Ok (x, y, None)
  | Some tspan =>
      _ <- (if Nat.eqb (List.length x) 0 then offerquit user_continues
            else Ok tt) ;;
      lo <- py_index tspan 0 ;;
      hi <- py_index tspan (-1) ;;
      let mask := window_mask lo hi x in
      _ <- (if negb (existsb (fun b => b) mask) && negb override then
              _ <- py_index x 0 ;;
              _ <- py_index x (-1) ;;
              offerquit user_continues
            else Ok tt) ;;
      x' <- mask_select x mask ;;
      y' <- mask_select y mask ;;
      Ok (x', y', if returnindeces then Some mask else None)
  end.

(* ------------------------------------------------------------------ *)
(** ** Timestamps: [seconds_to_timestamp] and [dayshift] *)

(** [str(n)] for an integer *)
Definition str_of_Z (z : Z) : string := NilEmpty.string_of_int (Z.to_int z).

(** ['{:2d}'.format(n)]: at least two characters, blanks on the left *)
Definition format_2d (z : Z) : string :=
  let s := str_of_Z z in
  match String.length s with
  | O => "  "
  | S O => " " ++ s
  | _ => s
  end.

(** [s.replace(a, b)] for single characters *)
Fixpoint replace_char (a b : ascii) (s : string) : string :=
  match s with
  | EmptyString => EmptyString
  | String c s' =>
      String (if Ascii.eqb c a then b else c) (replace_char a b s')
  end.

(** [seconds_to_timestamp]: [hh:mm:ss] from seconds since midnight. The
    quotients are [int(seconds/60**2)] and [int(seconds/60)], which round
    towards zero. *)
Definition seconds_to_timestamp (seconds : Z) : string :=
  let h := Z.quot seconds (60 ^ 2) in
  let seconds := seconds - 60 ^ 2 * h in
  let m := Z.quot seconds 60 in
  let seconds := seconds - 60 * m in
  let s := seconds in
  let timestamp := format_2d h ++ ":" ++ format_2d m ++ ":" ++ format_2d s in
  replace_char " " "0" timestamp.

(** [dayshift(dataset, days)] *)
Definition dayshift (dataset : dict) (days : Z) : result dict :=
  v <- dict_item "timestamp" dataset ;;
  timestamp <- match v with
               | VStr s => Ok s
               | VArr _ => Raise NotModelled
               | _ => Raise TypeError
               end ;;
  seconds <- timestamp_to_seconds timestamp ;;
  Ok (dict_set "timestamp"
               (VStr (seconds_to_timestamp (seconds + days * 24 * 60 * 60)))
               dataset).

(* ------------------------------------------------------------------ *)
(** ** Trigger times: [trigger_times] and [get_trigger_times] *)

(** [np.logical_and] and [np.logical_or] on two vectors: entry by entry
    when the lengths agree, a vector of one entry is stretched to the other
    length, anything else is a [ValueError]. *)
Definition np_logical (f : bool -> bool -> bool) (a b : list bool)
  : result (list bool) :=
  if Nat.eqb (List.length a) (List.length b) then
    Ok (map (fun p => f (fst p) (snd p)) (combine a b))
  else
    match a, b with
    | [u], _ => Ok (map (f u) b)
    | _, [v] => Ok (map (fun u => f u v) a)
    | _, _ => Raise ValueError
    end.

(** [trigger_times(x, y, threshhold, triggergap)]: the times at which the
    signal [y] rises above the threshold and, with [triggergap], the times
    followed by a gap of more than 2 in [x]. *)
Definition trigger_times (x y : list Z) (threshhold : Z) (triggergap : bool)
  : result (list Z) :=
  let trigger_on := map (fun v => threshhold <? v) y in
  let trigger_on_down := false :: removelast trigger_on in
  trigger_start <- np_logical andb trigger_on (map negb trigger_on_down) ;;
  trigger_start <-
    (if triggergap then
       last <- py_index x (-1) ;;
       let x_up := (tl x ++ [last])%list in
       let gap_start := map (fun p => fst p <? snd p - 2) (combine x x_up) in
       np_logical orb trigger_start gap_start
     else Ok trigger_start) ;;
  mask_select x trigger_start.

(** The default [threshhold] is 2.5: on whole samples, [y > 2.5] is
    [y > 2]. *)
Definition default_threshhold : Z := 2.

Section GetTriggerTimes.

(** [Data_Importing.get_xy(data, xcol, ycol, label)] belongs to the
    importing module. *)
Variable get_xy :
  dict -> option string -> option string -> string -> result (list Z * list Z).

(** [get_trigger_times]: the dataset with its [triggers], and the triggers *)
Definition get_trigger_times (data : dict) (xcol ycol : option string)
    (label : string) (threshhold : Z) : result (dict * list Z) :=
  xy <- get_xy data xcol ycol label ;;
  triggers <- trigger_times (fst xy) (snd xy) threshhold true ;;
  Ok (dict_set "triggers" (VArr triggers) data, triggers).

End GetTriggerTimes.

(* ------------------------------------------------------------------ *)
(** ** Sorting a dataset by time: [sort_time] *)

(** [data_type]: a name, ['all'] among them, or a list of names *)
Inductive data_type_arg : Type :=
| DTStr (s : string)
| DTList (l : list string).

Definition selected_types (data_type : data_type_arg) : list string :=
  match data_type with
  | DTStr s => if String.eqb s "all" then ["EC"; "MS"] else [s]
  | DTList l => l
  end.

Definition newline : string := String (ascii_of_nat 10) EmptyString.

(** [data[indeces]] for a vector of positions *)
Fixpoint take_indices (data : list Z) (indeces : list nat)
  : result (list Z) :=
  match indeces with
  | [] => Ok []
  | i :: rest =>
      match nth_error data i with
      | Some v => r <- take_indices data rest ;; Ok (v :: r)
      | None => Raise IndexError
      end
  end.

(** [dataset['data_cols'] += [col]] *)
Definition register_col (col : string) (dataset : dict) : result dict :=
  cols <- data_cols_of dataset ;;
  Ok (dict_set "data_cols" (VNames (cols ++ [col])%list) dataset).

Section SortTime.

Variable EC_cols_0 : list string.

(** [np.argsort] on a vector: numpy is outside the repository. *)
Variable np_argsort : list Z -> list nat.

(** [sort_indeces]: the sorting positions of each time column met so far *)
Definition sort_cache : Type := list (string * list nat).

(** The body of [for col in data_cols]. A column named [data_cols] would
    be the very list that is being rebuilt: the embedding stops there. *)
Definition sort_col (types : list string) (st : dict * sort_cache)
    (col : string) : result (dict * sort_cache) :=
  let '(dataset, sort_indeces) := st in
  if String.eqb col "data_cols" then Raise NotModelled
  else
    data <- dict_item col dataset ;;
    t <- get_type EC_cols_0 col ;;
    if PyStr.mem t types then
      timecol <- timecol_of EC_cols_0 col ;;
      r <- match timecol with
           | None => Raise KeyError
           | Some tc =>
               match assoc_get tc sort_indeces with
               | Some indeces => Ok (indeces, sort_indeces)
               | None =>
                   v <- dict_item tc dataset ;;
                   match v with
                   | VArr a | VNums a =>
                       let indeces := np_argsort a in
                       Ok (indeces, (sort_indeces ++ [(tc, indeces)])%list)
                   | _ => Raise NotModelled
                   end
               end
           end ;;
      let '(indeces, sort_indeces) := r in
      n <- py_len data ;;
      if negb (Nat.eqb n (List.length indeces)) then
        Ok (dataset, sort_indeces)
      else
        a <- as_array data ;;
        a <- take_indices a indeces ;;
        dataset <- register_col col (dict_set col (VArr a) dataset) ;;
        Ok (dataset, sort_indeces)
    else
      dataset <- register_col col dataset ;;
      Ok (dict_set col data dataset, sort_indeces).

(** The loop; an exception leaves the dataset as the passes before it
    made it. *)
Fixpoint sort_cols (types : list string) (st : dict * sort_cache)
    (cols : list string) : dict * result unit :=
  match cols with
  | [] => (fst st, Ok tt)
  | col :: rest =>
      match sort_col types st col with
      | Ok st' => sort_cols types st' rest
      | Raise e => (fst st, Raise e)
      end
  end.

(** [dataset['NOTES'] += '\nTime-Sorted\n'], or the first note *)
Definition add_note (dataset : dict) : result dict :=
  match dict_get "NOTES" dataset with
  | None => Ok (dict_set "NOTES" (VStr ("Time-Sorted" ++ newline)) dataset)
  | Some (VStr s) =>
      Ok (dict_set "NOTES"
                   (VStr (s ++ newline ++ "Time-Sorted" ++ newline)) dataset)
  | Some (VNames _ | VNums _) => Raise NotModelled
  | Some _ => Raise TypeError
  end.

(** [sort_time] works on the dataset it is given: the outcome is the
    dataset as the call leaves it, with the exception if one was raised. *)
Definition sort_time (dataset : dict) (data_type : data_type_arg)
  : dict * result unit :=
  match add_note dataset with
  | Raise e => (dataset, Raise e)
  | Ok dataset =>
      match data_cols_of dataset with
      | Raise e => (dataset, Raise e)
      | Ok data_cols =>
          sort_cols (selected_types data_type)
                    (dict_set "data_cols" (VNames []) dataset, [])
                    data_cols
      end
  end.

End SortTime.

(* ------------------------------------------------------------------ *)
(** ** Trigger calibration: the whole of [trigger_cal] *)

(** [triggers]: [None], a numpy array, a list or a tuple, or one number *)
Inductive triggers_arg : Type :=
| TrigNone
| TrigArray (a : list Z)
| TrigList (l : list Z)
| TrigNumber (x : Z).

(** The names [trigger_cal] settles on before it reads any data. *)
Record cal_names : Type := mkNames {
  n_pseudotimecol : string;
  n_timecol : string;
  n_t_str : option string;
  n_pt_str : option string
}.

(** A name kept in the dataset, [None] included *)
Definition stored_name (v : value) : result (option string) :=
  match v with
  | VStr s => Ok (Some s)
  | VNone => Ok None
  | _ => Raise NotModelled
  end.

Definition opt_name_eqb (a : string) (b : option string) : bool :=
  match b with
  | Some s => String.eqb a s
  | None => false
  end.

Definition resolve_names (data : dict)
    (pseudotimecol pt_str t_str timecol : option string) : result cal_names :=
  pt_str <- match pt_str, dict_get "pt_str" data with
            | None, Some v => stored_name v
            | _, _ => Ok pt_str
            end ;;
  t_str <- match t_str, dict_get "t_str" data with
           | None, Some v => stored_name v
           | _, _ => Ok t_str
           end ;;
  let pseudotimecol :=
    match pseudotimecol, pt_str, t_str with
    | Some c, _, _ => c
    | None, Some c, _ => c
    | None, None, Some c => c
    | None, None, None => "time/s"
    end in
  Ok (match timecol with
      | Some c => mkNames pseudotimecol c t_str pt_str
      | None =>
          if opt_name_eqb pseudotimecol t_str then
            mkNames pseudotimecol (pseudotimecol ++ "*")
                    (Some (pseudotimecol ++ "*")) pt_str
          else
            match t_str with
            | Some c => mkNames pseudotimecol c t_str pt_str
            | None =>
                mkNames pseudotimecol (pseudotimecol ++ "*") t_str pt_str
            end
      end).

(** [t[mask] = vals], one value for each entry the mask selects *)
Fixpoint mask_assign (t : list Z) (mask : list bool) (vals : list Z)
  : result (list Z) :=
  match t, mask with
  | [], [] =>
      match vals with
      | [] => Ok []
      | _ :: _ => Raise ValueError
      end
  | x :: t', b :: mask' =>
      if b then
        match vals with
        | v :: vals' => r <- mask_assign t' mask' vals' ;; Ok (v :: r)
        | [] => Raise ValueError
        end
      else r <- mask_assign t' mask' vals ;; Ok (x :: r)
  | _, _ => Raise IndexError
  end.

(** [l1 + [x]] unless [name] is in [l1], for a list that may hold [None] *)
Definition add_unless_listed (name : string) (x : option string)
    (cols : list (option string)) : list (option string) :=
  if existsb (opt_name_eqb name) cols then cols else (cols ++ [x])%list.

(** What a call leaves behind. [cal_cols] is [data['data_cols']] when the
    call has rewritten it, entry by entry, where [None] is Python's [None];
    [cal_data] holds every other key. *)
Record calibrated : Type := mkCalibrated {
  cal_data : dict;
  cal_cols : option (list (option string));
  cal_return : string
}.

(** A column that is a numpy array, as the datasets of this package hold
    them *)
Definition column_array (v : value) : result (list Z) :=
  match v with
  | VArr a => Ok a
  | _ => Raise NotModelled
  end.

Section TriggerCalibration.

Variable get_xy :
  dict -> option string -> option string -> string -> result (list Z * list Z).

(** [EC.make_selector(data)] adds the [selector] column to the dataset. *)
Variable make_selector : dict -> result dict.

(** [np.interp(x, xp, fp)] *)
Variable np_interp : list Z -> list Z -> list Z -> result (list Z).

(** The triggers kept in [data['triggers']] *)
Definition stored_triggers (v : value) : result triggers_arg :=
  match v with
  | VArr a => Ok (TrigArray a)
  | VNums l => Ok (TrigList l)
  | VNum x => Ok (TrigNumber x)
  | _ => Raise NotModelled
  end.

(** The new time from the matched points: a shift before the first, the
    interpolation between the first and the last, a shift after the last. *)
Definition calibrated_time (pt : list Z) (m : TriggerCal.matches)
  : result (list Z) :=
  let t := pt in
  p0 <- py_index (TriggerCal.pt_points m) 0 ;;
  let startmask := map (fun p => p <=? p0) pt in
  t <- (if existsb (fun b => b) startmask then
          t0 <- py_index (TriggerCal.t_points m) 0 ;;
          sel <- mask_select pt startmask ;;
          mask_assign t startmask (map (fun p => p + (t0 - p0)) sel)
        else Ok t) ;;
  pl <- py_index (TriggerCal.pt_points m) (-1) ;;
  let middlemask := map (fun p => (p0 <? p) && (p <? pl)) pt in
  t <- (if existsb (fun b => b) middlemask then
          sel <- mask_select pt middlemask ;;
          vals <- np_interp sel (TriggerCal.pt_points m)
                            (TriggerCal.t_points m) ;;
          mask_assign t middlemask vals
        else Ok t) ;;
  let endmask := map (fun p => pl <=? p) pt in
  if existsb (fun b => b) endmask then
    tl <- py_index (TriggerCal.t_points m) (-1) ;;
    sel <- mask_select pt endmask ;;
    mask_assign t endmask (map (fun p => p + (tl - pl)) sel)
  else Ok t.

(** [trigger_cal]. A list or a tuple of triggers is not an array, and is
    not one of the two types [list] and [tuple] either, so it is wrapped
    into an array of one row: its length is 1 whatever it holds, and the
    mask of the time range flattens it. *)
Definition trigger_cal (data : dict) (triggers : triggers_arg)
    (pseudotimecol pt_str t_str timecol : option string)
    (shiftcol : string) (edge : Z) : result calibrated :=
  names <- resolve_names data pseudotimecol pt_str t_str timecol ;;
  let pseudotimecol := n_pseudotimecol names in
  let timecol := n_timecol names in
  r <- match triggers with
       | TrigNone =>
           data <- (if dict_mem "triggers" data then Ok data
                    else
                      r <- get_trigger_times get_xy data None None
                             "Analog In" default_threshhold ;;
                      Ok (fst r)) ;;
           v <- dict_item "triggers" data ;;
           triggers <- stored_triggers v ;;
           Ok (data, triggers)
       | _ => Ok (data, triggers)
       end ;;
  let '(data, triggers) := r in
  r <- match triggers with
       | TrigArray a => Ok (a, List.length a)
       | TrigList l => Ok (l, 1%nat)
       | TrigNumber x => Ok ([x], 1%nat)
       | TrigNone => Raise NotModelled
       end ;;
  let '(triggers, len_triggers) := r in
  v <- dict_item pseudotimecol data ;;
  pt <- column_array v ;;
  data <- (if String.eqb shiftcol "selector" && negb (dict_mem "selector" data)
           then make_selector data else Ok data) ;;
  if Nat.eqb len_triggers 0 then Ok (mkCalibrated data None pseudotimecol)
  else
    triggers <- TriggerCal.triggers_in_range pt triggers edge ;;
    match triggers with
    | [] =>
        Ok (mkCalibrated (dict_set "t_str" (VStr pseudotimecol) data) None
                         pseudotimecol)
    | first_trigger :: _ =>
        if negb (dict_mem shiftcol data) then
          pt0 <- py_index pt 0 ;;
          let offset := first_trigger - pt0 in
          let data := dict_set timecol (VArr (map (fun p => p + offset) pt))
                               data in
          let data := dict_set "pt_str" (VStr pseudotimecol) data in
          let data := dict_set "t_str" (VStr timecol) data in
          Ok (mkCalibrated data None timecol)
        else
          v <- dict_item shiftcol data ;;
          shiftvalue <- column_array v ;;
          shifttimes <- TriggerCal.shifttimes pt shiftvalue ;;
          m <- TriggerCal.match_triggers shifttimes
                 (TriggerCal.mkMatches [] [] []) triggers ;;
          t <- calibrated_time pt m ;;
          let data := dict_set timecol (VArr t) data in
          let data := dict_set "t_str" (VStr timecol) data in
          let data := dict_set "pt_str" (VStr pseudotimecol) data in
          cols <- data_cols_of data ;;
          let cols := add_unless_listed timecol (n_t_str names)
                                        (map Some cols) in
          let cols := add_unless_listed pseudotimecol (n_pt_str names) cols in
          Ok (mkCalibrated data (Some cols) timecol)
    end.

End TriggerCalibration.

(* ================================================================== *)
(** * Properties *)

Unset Implicit Arguments.
Open Scope list_scope.

(** A vocabulary in the style of the EC module, used where a statement is
    evaluated on concrete datasets. *)
Definition EC_cols_sample : list string :=
  ["mode"; "time/s"; "Ewe/V"; "I/mA"; "<I>/mA"; "Ns"; "cycle number";
   "loop number"; "file number"].

(* ------------------------------------------------------------------ *)
(** ** Strings *)

Lemma bind_ok {A B : Type} (r : result A) (k : A -> result B) (b : B) :
  bind r k = Ok b -> exists a, r = Ok a /\ k a = Ok b.
Proof.
  destruct r as [a|e]; simpl; intro H; [eauto | discriminate].
Qed.

Ltac inv_bind H :=
  let x := fresh "x" in
  let Hx := fresh "Hx" in
  apply bind_ok in H; destruct H as (x & Hx & H).

Tactic Notation "bind_inv" hyp(H) "as" ident(x) ident(Hx) :=
  apply bind_ok in H; destruct H as (x & Hx & H).

Module StrFacts.

Lemma length_app (p q : string) :
  String.length (p ++ q)%string = (String.length p + String.length q)%nat.
Proof. induction p; simpl; congruence. Qed.

Lemma get_app_r (p q : string) (k : nat) :
  String.get (String.length p + k) (p ++ q)%string = String.get k q.
Proof. induction p; simpl; auto. Qed.

Lemma substring_0_ge (s : string) (m : nat) :
  (String.length s <= m)%nat -> substring 0 m s = s.
Proof.
  revert m; induction s as [|c s IH]; intros [|m] H; simpl in *;
    try reflexivity; try lia.
  rewrite IH by lia; reflexivity.
Qed.

Lemma substring_ge (n m : nat) (s : string) :
  (String.length s - n <= m)%nat ->
  substring n m s = substring n (String.length s - n) s.
Proof.
  revert s m; induction n as [|n IH]; intros s m H.
  - rewrite Nat.sub_0_r in *.
    rewrite !substring_0_ge by lia; reflexivity.
  - destruct s as [|c s]; simpl in *.
    + destruct m; reflexivity.
    + apply IH; assumption.
Qed.

Lemma substring_split (n : nat) (s : string) :
  s = (substring 0 n s ++ substring n (String.length s - n) s)%string.
Proof.
  revert s; induction n as [|n IH]; intros s.
  - rewrite Nat.sub_0_r, (substring_0_ge s (String.length s)) by lia.
    destruct s; reflexivity.
  - destruct s as [|c s]; simpl; [reflexivity|].
    f_equal; apply IH.
Qed.

(** [s[-k:]] is a suffix of [s]. *)
Lemma last_n_suffix (k : nat) (s : string) :
  exists p, s = (p ++ PyStr.last_n k s)%string.
Proof.
  unfold PyStr.last_n.
  exists (substring 0 (String.length s - k) s).
  rewrite (substring_ge (String.length s - k) k s) by lia.
  apply substring_split.
Qed.

Lemma last_char_app (p q : string) :
  q <> "" -> PyStr.last_char (p ++ q)%string = PyStr.last_char q.
Proof.
  intro Hq. unfold PyStr.last_char.
  rewrite length_app.
  destruct q as [|c q]; [congruence|]. simpl String.length.
  replace (String.length p + S (String.length q) - 1)%nat
    with (String.length p + String.length q)%nat by lia.
  rewrite get_app_r.
  replace (S (String.length q) - 1)%nat with (String.length q) by lia.
  reflexivity.
Qed.

Lemma all_digits_get (s : string) (k : nat) (d : ascii) :
  PyStr.all_digits s = true -> String.get k s = Some d ->
  PyStr.is_digit d = true.
Proof.
  revert k; induction s as [|c s IH]; intros k Hs Hg; simpl in *;
    [discriminate|].
  apply andb_prop in Hs. destruct Hs as [Hc Hs].
  destruct k; [inversion Hg; subst; assumption | eauto].
Qed.

Lemma get_last_some (s : string) :
  s <> "" -> exists d, String.get (String.length s - 1) s = Some d.
Proof.
  induction s as [|c s IH]; [congruence|]. intros _.
  destruct s as [|c' s]; [exists c; reflexivity|].
  destruct IH as [d Hd]; [discriminate|].
  exists d. simpl in *. rewrite Nat.sub_0_r in Hd. exact Hd.
Qed.

(** A name that carries a number suffix ends with a digit. *)
Lemma last_char_number_suffix (c ds : string) :
  ds <> "" -> PyStr.all_digits ds = true ->
  exists d, PyStr.last_char (c ++ "_" ++ ds)%string = Ok d /\
            PyStr.is_digit d = true.
Proof.
  intros Hne Hds.
  change (c ++ "_" ++ ds)%string with (c ++ String "_" ds)%string.
  rewrite last_char_app by discriminate.
  change (String "_" ds) with ("_" ++ ds)%string.
  rewrite last_char_app by assumption.
  destruct (get_last_some ds Hne) as [d Hd].
  exists d. unfold PyStr.last_char. rewrite Hd. split; [reflexivity|].
  eapply all_digits_get; eauto.
Qed.

Lemma last_n_2_last_char (s : string) (a b : ascii) :
  PyStr.last_n 2 s = String a (String b "") -> PyStr.last_char s = Ok b.
Proof.
  intro H. destruct (last_n_suffix 2 s) as [p Hp].
  rewrite H in Hp. rewrite Hp.
  rewrite last_char_app by discriminate. reflexivity.
Qed.

End StrFacts.

(* ------------------------------------------------------------------ *)
(** ** Column taxonomy *)

Section TaxonomyFacts.

Variable EC_cols_0 : list string.

Lemma is_time_fuel_eq (fuel : nat) (col : string) :
  is_time_fuel EC_cols_0 fuel col =
  (col_type <- get_type EC_cols_0 col ;;
   if String.eqb col_type "EC" then
     Ok (String.eqb (PyStr.take 4 col) "time")
   else if String.eqb col_type "MS" || String.eqb col_type "cinfdata" then
     Ok (String.eqb (PyStr.last_n 2 col) "-x")
   else if String.eqb col_type "Xray" then
     Ok (String.eqb col "t")
   else
     match PyStr.search_number_suffix col with
     | Some start =>
         match fuel with
         | O => Ok false
         | S fuel' => is_time_fuel EC_cols_0 fuel' (PyStr.take start col)
         end
     | None => Ok false
     end).
Proof. destruct fuel; reflexivity. Qed.

Lemma get_type_cases (col t : string) :
  get_type EC_cols_0 col = Ok t ->
  t = "EC" \/ t = "MS" \/ t = "cinfdata" \/ t = "Xray".
Proof.
  unfold get_type. intro H. inv_bind H.
  destruct x; [|destruct (is_MS_data col); [|destruct (ends_xy col)]];
    inversion H; auto.
Qed.

(** The number-suffix rule of [is_time] is never reached: every name is
    settled by the rule of its type. *)
Lemma is_time_by_type (col : string) :
  is_time EC_cols_0 col =
  (col_type <- get_type EC_cols_0 col ;;
   if String.eqb col_type "EC" then
     Ok (String.eqb (PyStr.take 4 col) "time")
   else if String.eqb col_type "MS" || String.eqb col_type "cinfdata" then
     Ok (String.eqb (PyStr.last_n 2 col) "-x")
   else Ok (String.eqb col "t")).
Proof.
  unfold is_time. rewrite is_time_fuel_eq.
  destruct (get_type EC_cols_0 col) as [t|e] eqn:Ht; [|reflexivity].
  simpl. destruct (get_type_cases _ _ Ht) as [ -> | [ -> | [ -> | -> ] ] ]; reflexivity.
Qed.

(** C7. A name that carries the deduplication suffix [_<n>] is not
    recognized as a time column, whatever it was built from, unless the
    suffixed name itself belongs to the EC vocabulary: the rule that
    strips the suffix is never applied. *)
Theorem is_time_number_suffix (c ds : string) :
  ds <> "" -> PyStr.all_digits ds = true ->
  PyStr.mem (c ++ "_" ++ ds)%string EC_cols_0 = false ->
  is_time EC_cols_0 (c ++ "_" ++ ds)%string = Ok false.
Proof.
  intros Hne Hds Hmem.
  destruct (StrFacts.last_char_number_suffix c ds Hne Hds) as (d & Hd & Hdig).
  set (name := (c ++ "_" ++ ds)%string) in *.
  assert (Hx : String.eqb (PyStr.last_n 2 name) "-x" = false).
  { apply String.eqb_neq. intro H.
    apply StrFacts.last_n_2_last_char in H. rewrite Hd in H.
    inversion H; subst. discriminate. }
  assert (Ht : String.eqb name "t" = false).
  { apply String.eqb_neq. intro H.
    apply (f_equal String.length) in H. unfold name in H.
    rewrite !StrFacts.length_app in H. simpl in H.
    destruct ds; [congruence | simpl in H; lia]. }
  assert (Hec : is_EC_data EC_cols_0 name = Ok false).
  { unfold is_EC_data. rewrite Hmem, Hd. simpl.
    replace (Ascii.eqb d "*") with false; [reflexivity|].
    symmetry. apply Ascii.eqb_neq. intros ->. discriminate. }
  rewrite is_time_by_type. unfold get_type. rewrite Hec. simpl.
  destruct (is_MS_data name); simpl; [rewrite Hx; reflexivity|].
  destruct (ends_xy name); simpl; [rewrite Hx | rewrite Ht]; reflexivity.
Qed.

(** The names ["t"] and ["t_2"]: the first is the Xray time column, the
    second is not a time column. *)
Lemma is_time_t_suffix :
  PyStr.mem "t" EC_cols_0 = false ->
  is_time EC_cols_0 "t" = Ok true /\ is_time EC_cols_0 "t_2" = Ok false.
Proof.
  intro H. split.
  - rewrite is_time_by_type. unfold get_type, is_EC_data. rewrite H.
    reflexivity.
  - rewrite is_time_by_type. unfold get_type, is_EC_data.
    destruct (PyStr.mem "t_2" EC_cols_0); reflexivity.
Qed.

End TaxonomyFacts.

(* ------------------------------------------------------------------ *)
(** ** Dictionaries *)

Lemma dict_get_set_same (k : string) (v : value) (d : dict) :
  dict_get k (dict_set k v d) = Some v.
Proof.
  induction d as [|[k' v'] d IH]; simpl.
  - rewrite String.eqb_refl; reflexivity.
  - destruct (String.eqb k k') eqn:E; simpl; rewrite E; auto.
Qed.

Lemma dict_get_set_other (k k' : string) (v : value) (d : dict) :
  k <> k' -> dict_get k (dict_set k' v d) = dict_get k d.
Proof.
  intro Hne. induction d as [|[k0 v0] d IH]; simpl.
  - apply String.eqb_neq in Hne. rewrite Hne; reflexivity.
  - destruct (String.eqb k' k0) eqn:E; simpl.
    + apply String.eqb_eq in E; subst k0.
      apply String.eqb_neq in Hne. rewrite Hne; reflexivity.
    + destruct (String.eqb k k0); auto.
Qed.

(* ------------------------------------------------------------------ *)
(** ** Time calibration *)

Section TimeCalFacts.

Variable lstsq_line : list Z -> list Z -> Z * Z.

Lemma tstamp_offset_no_tstamp (data ref_data : dict) :
  dict_mem "tstamp" ref_data = false -> tstamp_offset data ref_data = Ok 0.
Proof. unfold tstamp_offset. intros ->. reflexivity. Qed.

Lemma tstamp_offset_difference (data ref_data : dict) (r d : Z) :
  dict_get "tstamp" ref_data = Some (VNum r) ->
  dict_get "tstamp" data = Some (VNum d) ->
  tstamp_offset data ref_data = Ok (r - d).
Proof.
  unfold tstamp_offset, dict_mem, dict_item. intros -> ->. reflexivity.
Qed.


(** C5. With no usable calibration point left, [time_cal] does not
    return: the fit over the empty point set raises [TypeError]. The
    dataset is as it was before the call. *)
Theorem time_cal_no_point
    (data : dict) (ref_data : ref_arg) (points : points_arg)
    (point_type : point_type_arg) (timecol : string)
    (pseudotimecol : option string) (reftimecol : string)
    (ps : list point) (offset_0 : Z) :
  points_list points = Ok ps ->
  usable_points data (ref_dataset ref_data reftimecol) ps point_type
                pseudotimecol reftimecol = Ok [] ->
  tstamp_offset data (ref_dataset ref_data reftimecol) = Ok offset_0 ->
  time_cal lstsq_line data ref_data points point_type timecol
           pseudotimecol reftimecol
  = (data, Raise TypeError).
Proof.
  intros Hps Hgood Hoff.
  unfold time_cal, time_cal_column.
  rewrite Hps. simpl bind. rewrite Hoff. simpl bind.
  rewrite Hgood. simpl bind.
  unfold usable_points in Hgood.
  destruct point_type; simpl in Hgood;
    (destruct pseudotimecol as [c|]; [|discriminate]);
    destruct (dict_item c data); try discriminate; reflexivity.
Qed.

(** C9. A call of [time_cal] that returns has put [timecol] at the end
    of [data_cols], whether or not the name was there already. *)
Theorem time_cal_registers_always
    (data data' : dict) (ref_data : ref_arg) (points : points_arg)
    (point_type : point_type_arg) (timecol : string)
    (pseudotimecol : option string) (reftimecol : string)
    (cols : list string) :
  dict_get "data_cols" data = Some (VNames cols) ->
  time_cal lstsq_line data ref_data points point_type timecol
           pseudotimecol reftimecol = (data', Ok tt) ->
  dict_get "data_cols" data' = Some (VNames (cols ++ [timecol])).
Proof.
  intros Hcols. unfold time_cal.
  destruct (time_cal_column _ _ _ _ _ _ _) as [column|e]; [|discriminate].
  destruct (String.eqb timecol "data_cols") eqn:E.
  - apply String.eqb_eq in E. subst timecol.
    rewrite dict_get_set_same. discriminate.
  - apply String.eqb_neq in E.
    rewrite dict_get_set_other, Hcols by congruence.
    intro H. inversion H. apply dict_get_set_same.
Qed.

End TimeCalFacts.

(** Two calls with the same target column leave its name twice in
    [data_cols]. *)
Definition time_cal_demo : dict :=
  [("tstamp", VNum 100); ("data_cols", VNames ["t"; "y"]);
   ("t", VArr [0; 1; 2; 3]); ("y", VArr [5; 6; 7; 8])].

Lemma time_cal_twice_duplicates :
  let call d := time_cal (fun _ _ => (1, 0)) d RefAbsolute
                         (Points [(PFloat 0, PFloat 0)]) (PTList "time" "time")
                         "t" (Some "t") "time/s" in
  snd (call time_cal_demo) = Ok tt /\
  snd (call (fst (call time_cal_demo))) = Ok tt /\
  dict_get "data_cols" (fst (call (fst (call time_cal_demo))))
  = Some (VNames ["t"; "y"; "t"; "t"]).
Proof. vm_compute. auto. Qed.

(* ------------------------------------------------------------------ *)
(** ** Trigger calibration *)

Module TriggerFacts.
Import TriggerCal.

(** A trigger whose nearest selector change is already matched changes
    neither the matched indices nor the trigger times: the trigger time
    kept for that change is the one of the trigger that claimed it
    first. *)
Lemma match_trigger_claimed
    (shifttimes : list Z) (m m' : matches) (trigger : Z) (index : nat) :
  argmin (map (fun s => Z.abs (s - trigger)) shifttimes) = Ok index ->
  existsb (Nat.eqb index) (pt_indeces m) = true ->
  match_trigger shifttimes m trigger = Ok m' ->
  t_points m' = t_points m /\ pt_indeces m' = pt_indeces m.
Proof.
  intros Hi Hin. unfold match_trigger. rewrite Hi. simpl bind.
  destruct (py_index shifttimes (Z.of_nat index)) as [pt_point|e];
    [|discriminate].
  simpl bind. rewrite Hin. intro H. inversion H. simpl. auto.
Qed.

Lemma assign_where_same (index : nat) (x : Z) (indeces : list nat)
    (points : list Z) :
  (forall i p, In (i, p) (combine indeces points) -> i = index -> p = x) ->
  assign_where index x indeces points = points.
Proof.
  revert points; induction indeces as [|i indeces IH]; intros [|p points] H;
    simpl; try reflexivity.
  rewrite IH by (intros; eapply H; simpl; eauto).
  destruct (Nat.eqb i index) eqn:E; [|reflexivity].
  apply Nat.eqb_eq in E. f_equal. symmetry. eapply H; simpl; eauto.
Qed.

(** C6. Pseudotime 0..12 with a selector that changes at 0 and at 10,
    triggers at 1, 2 and 11: the change at 0 is the nearest match of the
    triggers 1 and 2. The pair kept for it carries the time of the first
    of them, 1, and the time of the latest, 2, is the one that is lost. *)
Theorem matched_pairs_keep_first_claim :
  matched_pairs [0; 1; 2; 3; 4; 5; 6; 7; 8; 9; 10; 11; 12]
                [0; 0; 0; 0; 0; 0; 0; 0; 0; 0; 1; 1; 1]
                [1; 2; 11] 2
  = Ok (Some [(0, 1); (10, 11)]).
Proof. reflexivity. Qed.

End TriggerFacts.

(* ------------------------------------------------------------------ *)
(** ** The synchronizer: the first loop *)

(** The dataset with its combining number, as the first loop leaves it. *)
Definition tagged (nd : nat) (dataset : dict) : dict :=
  dict_set "combining_number" (VNum (Z.of_nat nd)) dataset.

Section FirstLoopFacts.

Variable EC_cols_0 : list string.
Variable now : Z.
Variable user_continues : bool.
Variable timestamp_to_epoch_time : option value -> option value -> result Z.
Variable epoch_time_to_timestamp : Z -> result value.

Local Abbreviation span_in := (recording_span EC_cols_0 now).
Local Abbreviation tstamp_in := (tstamp_of timestamp_to_epoch_time).
Local Abbreviation step1 :=
  (pass1_step EC_cols_0 now timestamp_to_epoch_time).
Local Abbreviation loop1 :=
  (first_loop EC_cols_0 now timestamp_to_epoch_time).
Local Abbreviation sync :=
  (synchronize EC_cols_0 now user_continues timestamp_to_epoch_time
               epoch_time_to_timestamp).

(** What one pass of the first loop does to its state. *)
Lemma pass1_step_spec (n : nat) (st st' : pass1) (nd : nat)
    (dataset dataset' : dict) :
  step1 n st nd dataset = Ok (st', dataset') ->
  dataset' = tagged nd dataset /\
  ((hasdata st' = hasdata st ++ [false] /\
    t_start st' = t_start st /\ t_finish st' = t_finish st /\
    t_first st' = t_first st /\ t_last st' = t_last st)
   \/
   (exists t_0 t_s t_f,
      hasdata st' = hasdata st ++ [true] /\
      tstamp_in dataset' = Ok t_0 /\
      span_in t_0 dataset' = Ok (t_s, t_f, true) /\
      recstarts st' = recstarts st ++ [t_s] /\
      t_start st' = Z.max (t_start st) t_s /\
      t_finish st' = Z.min (t_finish st) t_f /\
      t_first st' = Z.min (t_first st) t_0 /\
      t_last st' = Z.max (t_last st) t_0)).
Proof.
  unfold pass1_step. fold (tagged nd dataset).
  intro H. inv_bind H.
  destruct x as [|c cols].
  - inv_bind H. inversion H; subst. split; [reflexivity|]. left. simpl. auto.
  - inv_bind H. inv_bind H. inv_bind H.
    destruct x1 as [[t_s t_f] has].
    destruct has; inversion H; subst; (split; [reflexivity|]).
    + right. exists x0, t_s, t_f. simpl. auto 10.
    + left. simpl. auto.
Qed.

Lemma app_singleton_inj (l l' : list bool) (b b' : bool) :
  l ++ [b] = l' ++ [b'] -> l = l' /\ b = b'.
Proof.
  intro H. apply app_inj_tail in H. exact H.
Qed.


(** C3 (as amended). A call with a single dataset in which the first loop
    finds data (a non-empty [data_cols], no listed time column empty)
    returns, when it returns, that dataset with nothing changed but the
    [combining_number] tag. *)
Theorem synchronize_single (ds : dict) (o : sync_options) (r : dict)
    (t_0 t_s t_f : Z) (c : string) (cols : list string) :
  data_cols_of ds = Ok (c :: cols) ->
  tstamp_in (tagged 0 ds) = Ok t_0 ->
  span_in t_0 (tagged 0 ds) = Ok (t_s, t_f, true) ->
  sync [ds] o = Ok r ->
  r = tagged 0 ds.
Proof.
  intros Hcols Ht0 Hspan H.
  unfold synchronize in H.
  inv_bind H. inv_bind H. destruct x0 as [p datasets].
  unfold first_loop in Hx0. simpl in Hx0.
  inv_bind Hx0. destruct x0 as [st1 ds']. simpl in Hx0.
  inversion Hx0; subst p datasets. clear Hx0.
  assert (Hstep := Hx1).
  apply pass1_step_spec in Hstep. destruct Hstep as [-> Hcase].
  assert (Hh : hasdata st1 = [true]).
  { unfold pass1_step in Hx1. fold (tagged 0 ds) in Hx1.
    assert (Hc' : data_cols_of (tagged 0 ds) = Ok (c :: cols)).
    { unfold data_cols_of, dict_item, tagged in *.
      rewrite dict_get_set_other by discriminate. exact Hcols. }
    assert (Hm : dict_mem "data_cols" (tagged 0 ds) = true).
    { unfold data_cols_of, dict_item in Hc'. unfold dict_mem.
      destruct (dict_get "data_cols" (tagged 0 ds)); [reflexivity|discriminate]. }
    rewrite Hm, Hc' in Hx1. simpl bind in Hx1.
    inv_bind Hx1. rewrite Ht0 in Hx1. simpl bind in Hx1.
    rewrite Hspan in Hx1. simpl bind in Hx1.
    inversion Hx1. reflexivity. }
  inv_bind H. inv_bind H. rewrite Hh in H. simpl in H.
  inversion H. reflexivity.
Qed.

End FirstLoopFacts.

(* ------------------------------------------------------------------ *)
(** ** Loops, masks and dictionaries *)

(** The invariant rule of [for_each]: [I] holds of the names visited so far
    and of the state. *)
Lemma for_each_invariant {S : Type} (f : S -> string -> result S)
    (I : list string -> S -> Prop) (cols : list string) :
  (forall pre c s s',
      I pre s -> In c cols -> f s c = Ok s' -> I (pre ++ [c]) s') ->
  forall s0 s, I [] s0 -> for_each f s0 cols = Ok s -> I cols s.
Proof.
  intros Hstep.
  assert (G : forall rest pre s0 s,
             (forall c, In c rest -> In c cols) ->
             I pre s0 -> for_each f s0 rest = Ok s -> I (pre ++ rest) s).
  { induction rest as [|c rest IH]; intros pre s0 s Hsub H0 H; simpl in H.
    - inversion H; subst. rewrite app_nil_r. exact H0.
    - inv_bind H.
      replace (pre ++ c :: rest) with ((pre ++ [c]) ++ rest)
        by (rewrite <- app_assoc; reflexivity).
      eapply IH; [intros; apply Hsub; right; assumption | | exact H].
      eapply Hstep; [exact H0 | apply Hsub; left; reflexivity | exact Hx]. }
  intros s0 s H0 H. apply (G cols [] s0 s); auto.
Qed.

Lemma dict_set_same_value (k : string) (v : value) (d : dict) :
  dict_get k d = Some v -> dict_set k v d = d.
Proof.
  induction d as [|[k' v'] d IH]; simpl; [discriminate|].
  destruct (String.eqb k k') eqn:E.
  - intro H. inversion H. reflexivity.
  - intro H. rewrite IH by assumption. reflexivity.
Qed.

Lemma dict_set_set (k : string) (v v' : value) (d : dict) :
  dict_set k v (dict_set k v' d) = dict_set k v d.
Proof.
  induction d as [|[k0 v0] d IH]; simpl.
  - rewrite String.eqb_refl. reflexivity.
  - destruct (String.eqb k k0) eqn:E; simpl; rewrite E; [reflexivity|].
    rewrite IH. reflexivity.
Qed.

Lemma dict_get_set (k k' : string) (v : value) (d : dict) :
  dict_get k (dict_set k' v d) =
  if String.eqb k k' then Some v else dict_get k d.
Proof.
  destruct (String.eqb k k') eqn:E.
  - apply String.eqb_eq in E. subst. apply dict_get_set_same.
  - apply String.eqb_neq in E. apply dict_get_set_other. assumption.
Qed.

Lemma as_array_ok (v : value) (a : list Z) :
  as_array v = Ok a -> v = VArr a.
Proof. destruct v; simpl; intro H; inversion H; reflexivity. Qed.

Lemma as_names_ok (v : value) (l : list string) :
  as_names v = Ok l -> v = VNames l.
Proof. destruct v; simpl; intro H; inversion H; reflexivity. Qed.

Lemma dict_item_ok (k : string) (d : dict) (v : value) :
  dict_item k d = Ok v -> dict_get k d = Some v.
Proof.
  unfold dict_item. destruct (dict_get k d); intro H; inversion H; reflexivity.
Qed.

Module MaskFacts.

Definition count_true (m : list bool) : nat :=
  List.length (filter (fun b => b) m).

Lemma mask_select_length (a : list Z) (m : list bool) (r : list Z) :
  mask_select a m = Ok r ->
  List.length a = List.length m /\ List.length r = count_true m.
Proof.
  revert m r; induction a as [|x a IH]; intros [|b m] r H; simpl in H;
    try discriminate.
  - inversion H. auto.
  - inv_bind H. apply IH in Hx. destruct Hx as [Hl Hc].
    inversion H; subst. unfold count_true in *. simpl.
    destruct b; simpl; split; congruence.
Qed.

Lemma mask_select_filter (f : Z -> bool) (t r : list Z) :
  mask_select t (map f t) = Ok r -> r = filter f t.
Proof.
  revert r; induction t as [|x t IH]; intros r H; simpl in H.
  - inversion H. reflexivity.
  - inv_bind H. apply IH in Hx. subst. inversion H. simpl.
    destruct (f x); reflexivity.
Qed.

Lemma map_filter_true (f : Z -> bool) (t : list Z) :
  map f (filter f t) = repeat true (List.length (filter f t)).
Proof.
  induction t as [|x t IH]; simpl; [reflexivity|].
  destruct (f x) eqn:E; simpl; [rewrite E, IH; reflexivity | exact IH].
Qed.

Lemma mask_select_all (a : list Z) :
  mask_select a (repeat true (List.length a)) = Ok a.
Proof.
  induction a as [|x a IH]; simpl; [reflexivity|]. rewrite IH. reflexivity.
Qed.

Lemma count_true_le (m : list bool) : (count_true m <= List.length m)%nat.
Proof.
  unfold count_true. induction m as [|[] m IH]; simpl; lia.
Qed.

Lemma count_true_full (m : list bool) :
  count_true m = List.length m -> m = repeat true (List.length m).
Proof.
  unfold count_true. induction m as [|b m IH]; simpl; [reflexivity|].
  destruct b; simpl; intro H.
  - f_equal. apply IH. lia.
  - pose proof (count_true_le m) as Hle. unfold count_true in Hle. lia.
Qed.

(** Selecting again with the same mask changes nothing. *)
Lemma mask_select_again (a0 a a' : list Z) (m : list bool) :
  mask_select a0 m = Ok a -> mask_select a m = Ok a' -> a' = a.
Proof.
  intros H0 H1.
  apply mask_select_length in H0. destruct H0 as [_ Hc].
  pose proof (mask_select_length _ _ _ H1) as [Hl _].
  assert (Hm : m = repeat true (List.length a)).
  { rewrite Hl. apply count_true_full. congruence. }
  rewrite Hm, mask_select_all in H1. congruence.
Qed.

(** The samples kept by a window lie in the window: their own mask is
    everywhere true. *)
Lemma window_mask_selected (lo hi : Z) (t t1 : list Z) :
  mask_select t (window_mask lo hi t) = Ok t1 ->
  window_mask lo hi t1 = repeat true (List.length t1).
Proof.
  unfold window_mask. intro H. apply mask_select_filter in H. subst.
  apply map_filter_true.
Qed.

End MaskFacts.


(* ------------------------------------------------------------------ *)
(** ** Windowing *)

Section WindowingFacts.

Variable EC_cols_0 : list string.

Local Abbreviation timecol_in := (timecol_of EC_cols_0).

(** The columns of a dataset come with their time columns: the time column
    of a listed column is listed too, and it is its own time column. *)
Definition time_columns_listed (cols : list string) : Prop :=
  forall c tc,
    In c cols -> timecol_in c = Ok (Some tc) ->
    In tc cols /\ timecol_in tc = Ok (Some tc).

Lemma masks_get_app (k tc : string) (m : list bool) (ms : masks) :
  masks_get k (ms ++ [(tc, m)]) =
  match masks_get k ms with
  | Some x => Some x
  | None => if String.eqb k tc then Some m else None
  end.
Proof.
  induction ms as [|[k' v] ms IH]; simpl; [reflexivity|].
  destruct (String.eqb k k'); auto.
Qed.

(** The state of the cutting loop of [cut_dataset ds (Some W) _] after the
    columns [visited]: untouched keys are as in [ds], a visited column is
    its array in [ds] cut by the mask of its time column, and every mask
    was computed from the time column as it is in [ds]. *)
Record cut_invariant (ds : dict) (W : list Z) (visited : list string)
    (st : masks * dict) : Prop := mkCutInv {
  cut_untouched :
    forall k, ~ In k visited -> dict_get k (snd st) = dict_get k ds;
  cut_visited :
    forall c, In c visited ->
      exists tc m a0 a,
        timecol_in c = Ok (Some tc) /\ masks_get tc (fst st) = Some m /\
        dict_get c ds = Some (VArr a0) /\ mask_select a0 m = Ok a /\
        dict_get c (snd st) = Some (VArr a);
  cut_masks :
    forall tc m, masks_get tc (fst st) = Some m ->
      exists t lo hi,
        py_index W 0 = Ok lo /\ py_index W (-1) = Ok hi /\
        dict_get tc ds = Some (VArr t) /\ m = window_mask lo hi t
}.

Lemma cut_col_invariant (ds : dict) (W : list Z) (cols : list string) :
  time_columns_listed cols ->
  forall pre c st st',
    cut_invariant ds W pre st -> In c cols ->
    cut_col EC_cols_0 W st c = Ok st' ->
    cut_invariant ds W (pre ++ [c]) st'.
Proof.
  intros Hlisted pre c [ms d] st' [Hun Hvis Hmasks] Hc H.
  simpl in Hun, Hvis, Hmasks.
  unfold cut_col in H.
  inv_bind H. rename x into otc, Hx into Htc.
  inv_bind H. rename x into tc', Hx into Htc'.
  destruct otc as [tc|]; [|discriminate]. inversion Htc'; subst tc'. clear Htc'.
  destruct (Hlisted c tc Hc Htc) as [Htc_in Htc_self].
  inv_bind H. destruct x as [m ms']. rename Hx into Hmask.
  inv_bind H. rename x into v, Hx into Hv.
  inv_bind H. rename x into cur, Hx into Hcur.
  inv_bind H. rename x into a', Hx into Hsel'.
  inversion H; subst st'. clear H.
  apply as_array_ok in Hcur. subst v. apply dict_item_ok in Hv.
  rename Hv into Hcd.
  (* the mask used and the masks after the step *)
  assert (Hm : masks_get tc ms' = Some m /\
               (forall k x, masks_get k ms = Some x -> masks_get k ms' = Some x) /\
               (forall k x, masks_get k ms' = Some x ->
                  exists t lo hi,
                    py_index W 0 = Ok lo /\ py_index W (-1) = Ok hi /\
                    dict_get k ds = Some (VArr t) /\ x = window_mask lo hi t)).
  { destruct (masks_get tc ms) as [m0|] eqn:Hget.
    - inversion Hmask; subst m0 ms'. auto.
    - inv_bind Hmask. rename x into vt, Hx into Hvt.
      inv_bind Hmask. rename x into lo, Hx into Hlo.
      inv_bind Hmask. rename x into hi, Hx into Hhi.
      inv_bind Hmask. rename x into t, Hx into Ht.
      inversion Hmask; subst m ms'. clear Hmask.
      apply as_array_ok in Ht. subst vt. apply dict_item_ok in Hvt.
      assert (Horig : dict_get tc ds = Some (VArr t)).
      { destruct (in_dec string_dec tc pre) as [Hin|Hnin].
        - destruct (Hvis tc Hin) as (tc2 & m2 & _ & _ & Ht2 & Hg2 & _).
          rewrite Htc_self in Ht2. inversion Ht2; subst tc2. congruence.
        - rewrite <- (Hun tc Hnin). exact Hvt. }
      split; [|split].
      + rewrite masks_get_app, Hget, String.eqb_refl. reflexivity.
      + intros k x Hk. rewrite masks_get_app, Hk. reflexivity.
      + intros k x Hk. rewrite masks_get_app in Hk.
        destruct (masks_get k ms) as [y|] eqn:Hy.
        * inversion Hk; subst y. eauto.
        * destruct (String.eqb k tc) eqn:E; [|discriminate].
          apply String.eqb_eq in E. subst k. inversion Hk; subst x.
          exists t, lo, hi. auto. }
  destruct Hm as (Hm & Hmono & Hnew).
  constructor; simpl.
  - intros k Hk. rewrite dict_get_set_other.
    + apply Hun. intro Hin. apply Hk. apply in_or_app. auto.
    + intros ->. apply Hk. apply in_or_app. right. left. reflexivity.
  - intros c' Hc'. rewrite dict_get_set.
    destruct (String.eqb c' c) eqn:E.
    + apply String.eqb_eq in E. subst c'.
      destruct (in_dec string_dec c pre) as [Hin|Hnin].
      * destruct (Hvis c Hin) as (tc2 & m2 & a0 & a2 & Ht2 & Hg2 & Hds & Hsel & Hd).
        rewrite Htc in Ht2. inversion Ht2; subst tc2.
        assert (m2 = m) by (apply Hmono in Hg2; congruence). subst m2.
        rewrite Hcd in Hd. inversion Hd; subst a2.
        exists tc, m, a0, cur. repeat split; auto.
        f_equal. f_equal. eapply MaskFacts.mask_select_again; eauto.
      * exists tc, m, cur, a'. repeat split; auto.
        rewrite <- (Hun c Hnin). exact Hcd.
    + apply in_app_or in Hc'. destruct Hc' as [Hin|[->|[]]].
      * destruct (Hvis c' Hin) as (tc2 & m2 & a0 & a2 & Ht2 & Hg2 & Hds & Hsel & Hd).
        exists tc2, m2, a0, a2. repeat split; auto.
      * rewrite String.eqb_refl in E. discriminate.
  - exact Hnew.
Qed.

(** Re-zeroing on 0 leaves a dataset as it is. *)
Lemma timeshift_col_zero (d d' : dict) (c : string) :
  timeshift_col EC_cols_0 0 d c = Ok d' -> d' = d.
Proof.
  unfold timeshift_col. intro H. inv_bind H.
  destruct x; [|inversion H; reflexivity].
  inv_bind H. rename x into v, Hx0 into Hv.
  inv_bind H. rename x into a, Hx0 into Ha.
  apply as_array_ok in Ha. subst v. apply dict_item_ok in Hv.
  inversion H. apply dict_set_same_value. rewrite Hv. do 2 f_equal.
  clear. induction a as [|x a IH]; simpl; [reflexivity|].
  rewrite IH at 1. f_equal. lia.
Qed.

Lemma timeshift_cols_zero (cols : list string) (d d' : dict) :
  for_each (timeshift_col EC_cols_0 0) d cols = Ok d' -> d' = d.
Proof.
  revert d; induction cols as [|c cols IH]; intros d H; simpl in H.
  - inversion H. reflexivity.
  - inv_bind H. apply timeshift_col_zero in Hx. subst x. auto.
Qed.

(** A column whose array is as long as its time column, all of whose
    samples lie in the window. *)
Definition settled (d : dict) (W : list Z) (c : string) : Prop :=
  exists tc a t lo hi,
    timecol_in c = Ok (Some tc) /\
    dict_get c d = Some (VArr a) /\ dict_get tc d = Some (VArr t) /\
    py_index W 0 = Ok lo /\ py_index W (-1) = Ok hi /\
    window_mask lo hi t = repeat true (List.length t) /\
    List.length a = List.length t.

(** On settled columns the cutting loop runs through and changes nothing. *)
Lemma cut_loop_settled (d : dict) (W : list Z) (cols : list string) :
  (forall c, In c cols -> settled d W c) ->
  forall ms,
    (forall tc m, masks_get tc ms = Some m ->
       exists t, dict_get tc d = Some (VArr t) /\
                 m = repeat true (List.length t)) ->
    exists ms', for_each (cut_col EC_cols_0 W) (ms, d) cols = Ok (ms', d).
Proof.
  induction cols as [|c cols IH]; intros Hs ms Hms; cbn [for_each].
  - eauto.
  - destruct (Hs c (or_introl eq_refl))
      as (tc & a & t & lo & hi & Htc & Ha & Ht & Hlo & Hhi & Hw & Hlen).
    assert (Hstep : exists ms1,
               cut_col EC_cols_0 W (ms, d) c = Ok (ms1, d) /\
               (forall tc m, masks_get tc ms1 = Some m ->
                  exists t, dict_get tc d = Some (VArr t) /\
                            m = repeat true (List.length t))).
    { unfold cut_col. rewrite Htc. simpl bind.
      destruct (masks_get tc ms) as [m|] eqn:Hget.
      - destruct (Hms tc m Hget) as (t' & Ht' & Hm).
        rewrite Ht in Ht'. inversion Ht'; subst t'. subst m.
        exists ms. simpl bind. unfold dict_item. rewrite Ha. simpl bind.
        rewrite <- Hlen, MaskFacts.mask_select_all. simpl bind.
        rewrite dict_set_same_value by assumption. auto.
      - exists (ms ++ [(tc, window_mask lo hi t)]).
        unfold dict_item. rewrite Ht, Hlo, Hhi, Ha. simpl bind.
        rewrite Hw, <- Hlen, MaskFacts.mask_select_all. simpl bind.
        rewrite dict_set_same_value by assumption. split; [reflexivity|].
        intros k m Hk. rewrite masks_get_app in Hk.
        destruct (masks_get k ms) as [y|] eqn:Hy.
        + inversion Hk; subst y. eauto.
        + destruct (String.eqb k tc) eqn:E; [|discriminate].
          apply String.eqb_eq in E. subst k. inversion Hk.
          exists t. split; [assumption|]. rewrite Hlen. reflexivity. }
    destruct Hstep as (ms1 & Hstep & Hms1). rewrite Hstep. simpl bind.
    apply IH; [intros; apply Hs; right; assumption | exact Hms1].
Qed.

(** C8. Cutting a dataset to a window and cutting the result to the same
    window again gives the result of the first cut: the columns, [data_cols]
    and [tspan] are the same. The dataset lists the time column of each of
    its columns, and no column is called [tspan]. *)
Theorem cut_dataset_idempotent (ds ds1 : dict) (W : list Z)
    (cols : list string) :
  dict_get "data_cols" ds = Some (VNames cols) ->
  time_columns_listed cols ->
  ~ In "tspan" cols ->
  cut_dataset EC_cols_0 ds (Some W) TzNone = Ok ds1 ->
  cut_dataset EC_cols_0 ds1 (Some W) TzNone = Ok ds1.
Proof.
  intros Hcols Hlisted Hts H.
  assert (Hrun := H).
  unfold cut_dataset, dict_item in H. rewrite Hcols in H. simpl bind in H.
  inv_bind H. destruct x as [ms d]. rename Hx into Hloop. simpl snd in H.
  (* the state after the cutting loop *)
  assert (Hinv : cut_invariant ds W cols (ms, d)).
  { eapply (for_each_invariant (cut_col EC_cols_0 W) (cut_invariant ds W));
      [apply cut_col_invariant; assumption | | exact Hloop].
    constructor; simpl; [reflexivity | intros c [] | discriminate]. }
  destruct Hinv as [Hun Hvis Hmasks]. simpl in Hun, Hvis, Hmasks.
  assert (Hdc : dict_get "data_cols" d = Some (VNames cols)).
  { rewrite Hun; [assumption|]. intro Hin.
    destruct (Hvis _ Hin) as (_ & _ & a0 & _ & _ & _ & Hds & _).
    congruence. }
  (* what [timeshift] returns *)
  set (d2 := dict_set "tspan" (VNums W) d) in *.
  assert (Hshift := H).
  unfold timeshift in H. simpl bind in H.
  inv_bind H. inv_bind H. inv_bind H. rename x1 into d3.
  apply timeshift_cols_zero in Hx1. subst d3.
  inv_bind H. inv_bind H. inv_bind H. inv_bind H.
  inversion H; subst ds1. clear H.
  set (tspan' := VNums [x3 - 0; x4 - 0]) in *.
  (* every column of the result is settled *)
  assert (Hget : forall k, k <> "tspan" ->
                   dict_get k (dict_set "tspan" tspan' d2) = dict_get k d).
  { intros k Hk. unfold d2. rewrite !dict_get_set_other by assumption.
    reflexivity. }
  assert (Hsettled : forall c, In c cols ->
                       settled (dict_set "tspan" tspan' d2) W c).
  { intros c Hc.
    destruct (Hvis c Hc) as (tc & m & a0 & a & Htc & Hm & Ha0 & Hsel & Ha).
    destruct (Hlisted c tc Hc Htc) as [Htc_in Htc_self].
    destruct (Hvis tc Htc_in) as (tc2 & m2 & t0 & t1 & Htc2 & Hm2 & Ht0 & Hselt & Ht1).
    rewrite Htc_self in Htc2. inversion Htc2; subst tc2.
    rewrite Hm in Hm2. inversion Hm2; subst m2.
    destruct (Hmasks tc m Hm) as (t & lo & hi & Hlo & Hhi & Ht & Hmw).
    rewrite Ht0 in Ht. inversion Ht; subst t. subst m.
    exists tc, a, t1, lo, hi.
    rewrite !Hget by (intros ->; contradiction).
    repeat split; auto.
    - eapply MaskFacts.window_mask_selected; eauto.
    - apply MaskFacts.mask_select_length in Hsel, Hselt.
      destruct Hsel, Hselt. congruence. }
  (* the second cut *)
  unfold cut_dataset, dict_item.
  rewrite Hget, Hdc by discriminate. cbn [bind as_names].
  destruct (cut_loop_settled _ W cols Hsettled [])
    as (ms' & Hloop2); [discriminate|].
  match goal with
  | |- context [for_each ?f ?s ?l] =>
      replace (for_each f s l) with (Ok (ms', dict_set "tspan" tspan' d2))
        by (symmetry; exact Hloop2)
  end. simpl bind. simpl snd.
  rewrite dict_set_set. unfold d2 at 1. rewrite dict_set_set.
  exact Hshift.
Qed.

End WindowingFacts.

(* ------------------------------------------------------------------ *)
(** ** Windowing on the heap: the objects of the caller are left alone *)

Module HeapFacts.
Import Heap.

Lemma mbind_inv {A B : Type} (m : M A) (k : A -> M B) (h h' : heap)
    (r : result B) :
  mbind m k h = (h', r) ->
  (exists h1 a, m h = (h1, Ok a) /\ k a h1 = (h', r)) \/
  (exists e, m h = (h', Raise e) /\ r = Raise e).
Proof.
  unfold mbind. destruct (m h) as [h1 [a|e]]; intro H.
  - left. eauto.
  - right. inversion H. eauto.
Qed.

Lemma load_inv (l : loc) (h h' : heap) (r : result obj) :
  load l h = (h', r) ->
  h' = h /\ forall o, r = Ok o -> nth_error h l = Some o.
Proof.
  unfold load. destruct (nth_error h l); intro H; inversion H; subst;
    split; auto; intros o' Ho; inversion Ho; reflexivity.
Qed.

Lemma lift_inv {A : Type} (x : result A) (h h' : heap) (r : result A) :
  lift x h = (h', r) -> h' = h /\ r = x.
Proof. unfold lift. intro H. inversion H. auto. Qed.

Lemma load_dict_inv (l : loc) (h h' : heap)
    (r : result (list (string * hvalue))) :
  load_dict l h = (h', r) ->
  h' = h /\ forall d, r = Ok d -> nth_error h l = Some (ODict d).
Proof.
  unfold load_dict. intro H.
  apply mbind_inv in H. destruct H as [(h1 & o & Hl & H)|(e & Hl & ->)].
  - apply load_inv in Hl. destruct Hl as [-> Ho].
    destruct o; inversion H; subst; split; auto; try discriminate.
    intros d' Hd. inversion Hd; subst. auto.
  - apply load_inv in Hl. destruct Hl as [-> _]. split; [auto|discriminate].
Qed.

Lemma item_inv (ds : loc) (k : string) (h h' : heap) (r : result hvalue) :
  item ds k h = (h', r) ->
  h' = h /\
  forall v, r = Ok v ->
    exists d, nth_error h ds = Some (ODict d) /\ assoc_get k d = Some v.
Proof.
  unfold item. intro H.
  apply mbind_inv in H. destruct H as [(h1 & d & Hl & H)|(e & Hl & ->)].
  - apply load_dict_inv in Hl. destruct Hl as [-> Hd].
    destruct (assoc_get k d) eqn:E; inversion H; subst; split; auto;
      try discriminate.
    intros v Hv. inversion Hv; subst. eauto.
  - apply load_dict_inv in Hl. destruct Hl as [-> _].
    split; [auto|discriminate].
Qed.

Lemma load_array_inv (v : hvalue) (h h' : heap) (r : result (list Z)) :
  load_array v h = (h', r) ->
  h' = h /\
  forall a, r = Ok a -> exists l, v = HRef l /\ nth_error h l = Some (OArr a).
Proof.
  unfold load_array. destruct v; intro H;
    try (inversion H; split; [auto|discriminate]).
  apply mbind_inv in H. destruct H as [(h1 & o & Hl & H)|(e & Hl & ->)].
  - apply load_inv in Hl. destruct Hl as [-> Ho].
    destruct o; inversion H; subst; split; auto; try discriminate.
    intros a' Ha. inversion Ha; subst. eauto.
  - apply load_inv in Hl. destruct Hl as [-> _]. split; [auto|discriminate].
Qed.

Lemma load_seq_inv (v : hvalue) (h h' : heap) (r : result (list Z)) :
  load_seq v h = (h', r) -> h' = h.
Proof.
  unfold load_seq. destruct v; intro H; try (inversion H; reflexivity).
  apply mbind_inv in H. destruct H as [(h1 & o & Hl & H)|(e & Hl & ->)];
    apply load_inv in Hl; destruct Hl as [-> _]; [|reflexivity].
  destruct o; inversion H; reflexivity.
Qed.

Lemma load_names_inv (v : hvalue) (h h' : heap) (r : result (list string)) :
  load_names v h = (h', r) ->
  h' = h /\
  forall names, r = Ok names ->
    exists l, v = HRef l /\ nth_error h l = Some (ONames names).
Proof.
  unfold load_names. destruct v; intro H;
    try (inversion H; split; [auto|discriminate]).
  apply mbind_inv in H. destruct H as [(h1 & o & Hl & H)|(e & Hl & ->)].
  - apply load_inv in Hl. destruct Hl as [-> Ho].
    destruct o; inversion H; subst; split; auto; try discriminate.
    intros a' Ha. inversion Ha; subst. eauto.
  - apply load_inv in Hl. destruct Hl as [-> _]. split; [auto|discriminate].
Qed.

Lemma length_update (h : heap) (l : loc) (o : obj) :
  List.length (update h l o) = List.length h.
Proof.
  revert l; induction h as [|x h IH]; intros [|l]; simpl; auto.
Qed.

Lemma nth_error_update_other (h : heap) (l l' : loc) (o : obj) :
  l' <> l -> nth_error (update h l o) l' = nth_error h l'.
Proof.
  revert l l'; induction h as [|x h IH]; intros [|l] [|l'] Hne; simpl; auto.
  congruence.
Qed.

Lemma nth_error_update_same (h : heap) (l : loc) (o : obj) :
  (l < List.length h)%nat -> nth_error (update h l o) l = Some o.
Proof.
  revert l; induction h as [|x h IH]; intros [|l] Hl; simpl in *;
    try lia; auto.
  apply IH. lia.
Qed.

Lemma set_item_inv (ds : loc) (k : string) (v : hvalue) (h h' : heap)
    (r : result unit) :
  set_item ds k v h = (h', r) ->
  (h' = h /\ r <> Ok tt) \/
  (exists d, nth_error h ds = Some (ODict d) /\
             h' = update h ds (ODict (assoc_set k v d)) /\ r = Ok tt).
Proof.
  unfold set_item. intro H.
  apply mbind_inv in H. destruct H as [(h1 & d & Hl & H)|(e & Hl & ->)].
  - apply load_dict_inv in Hl. destruct Hl as [-> Hd].
    right. exists d. unfold store in H. inversion H. auto.
  - apply load_dict_inv in Hl. destruct Hl as [-> _]. left.
    split; [auto|discriminate].
Qed.

Lemma assoc_get_set {V : Type} (k k' : string) (v : V)
    (m : list (string * V)) :
  assoc_get k (assoc_set k' v m) =
  if String.eqb k k' then Some v else assoc_get k m.
Proof.
  induction m as [|[k0 v0] m IH]; simpl.
  - destruct (String.eqb k k'); reflexivity.
  - destruct (String.eqb k' k0) eqn:E; simpl.
    + apply String.eqb_eq in E. subst k0.
      destruct (String.eqb k k'); reflexivity.
    + rewrite IH. destruct (String.eqb k k0) eqn:E0; [|reflexivity].
      apply String.eqb_eq in E0. subst k0.
      rewrite String.eqb_sym, E. reflexivity.
Qed.

(** Computations that only read. *)
Definition readonly {A : Type} (m : M A) : Prop :=
  forall h h' r, m h = (h', r) -> h' = h.

Lemma readonly_bind {A B : Type} (m : M A) (k : A -> M B) :
  readonly m -> (forall a, readonly (k a)) -> readonly (mbind m k).
Proof.
  intros Hm Hk h h' r H. apply mbind_inv in H.
  destruct H as [(h1 & a & H1 & H)|(e & H1 & _)].
  - apply Hm in H1. subst h1. eapply Hk; eauto.
  - eapply Hm; eauto.
Qed.

Lemma readonly_ret {A : Type} (a : A) : readonly (ret a).
Proof. intros h h' r H. inversion H. reflexivity. Qed.

Lemma readonly_raise {A : Type} (e : exn) : readonly (@raise A e).
Proof. intros h h' r H. inversion H. reflexivity. Qed.

Lemma readonly_lift {A : Type} (x : result A) : readonly (lift x).
Proof. intros h h' r H. inversion H. reflexivity. Qed.

Lemma readonly_item (ds : loc) (k : string) : readonly (item ds k).
Proof. intros h h' r H. apply item_inv in H. tauto. Qed.

Lemma readonly_load_array (v : hvalue) : readonly (load_array v).
Proof. intros h h' r H. apply load_array_inv in H. tauto. Qed.

Lemma readonly_load_seq (v : hvalue) : readonly (load_seq v).
Proof. intros h h' r H. eapply load_seq_inv; eauto. Qed.

Lemma readonly_load_names (v : hvalue) : readonly (load_names v).
Proof. intros h h' r H. apply load_names_inv in H. tauto. Qed.

Create HintDb readonly.

#[local] Hint Resolve readonly_ret readonly_raise readonly_lift readonly_item
  readonly_load_array readonly_load_seq readonly_load_names : readonly.

Ltac readonly_tac :=
  repeat first
    [ solve [auto with readonly]
    | apply readonly_bind; [|intro] ].

(** One read in a sequence: the heap is the same after it, and an exception
    ends the sequence with the heap as it was. *)
Ltac read_step H lem :=
  let h1 := fresh "h" in
  let a := fresh "a" in
  let H1 := fresh "H" in
  let e := fresh "e" in
  apply mbind_inv in H; destruct H as [(h1 & a & H1 & H)|(e & H1 & ->)];
  [ pose proof (lem _ _ _ H1); subst h1; clear H1
  | pose proof (lem _ _ _ H1); subst; split; [assumption|discriminate] ].

Lemma readonly_some {A : Type} (o : option A) (e : exn) :
  readonly (match o with Some c => ret c | None => raise e end).
Proof. destruct o; auto with readonly. Qed.

Lemma readonly_mask (ds ts : loc) (tc : string) (ms : masks) :
  readonly (match masks_get tc ms with
            | Some mask => ret (mask, ms)
            | None =>
                t <~ item ds tc ;;
                w <~ load_seq (HRef ts) ;;
                lo <~ lift (py_index w 0) ;;
                hi <~ lift (py_index w (-1)) ;;
                t <~ load_array t ;;
                ret (window_mask lo hi t,
                     (ms ++ [(tc, window_mask lo hi t)])%list)
            end).
Proof. destruct (masks_get tc ms); readonly_tac. Qed.

Section Frame.

Variable EC_cols_0 : list string.

(** The heap before the call. *)
Variable h0 : heap.

(** Every object of [h0] is in [h], with the content it has in [h0]. *)
Definition safe (h : heap) : Prop :=
  (List.length h0 <= List.length h)%nat /\
  forall l, (l < List.length h0)%nat -> nth_error h l = nth_error h0 l.

Lemma safe_alloc (h : heap) (o : obj) : safe h -> safe (h ++ [o]).
Proof.
  intros [Hlen Hsame]. split.
  - rewrite length_app. lia.
  - intros l Hl. rewrite nth_error_app1 by lia. auto.
Qed.

Lemma safe_update (h : heap) (l : loc) (o : obj) :
  safe h -> (List.length h0 <= l)%nat -> safe (update h l o).
Proof.
  intros [Hlen Hsame] Hl. split.
  - rewrite length_update. exact Hlen.
  - intros l' Hl'. rewrite nth_error_update_other by lia. auto.
Qed.

(** The copy [ds] of the dataset while it is cut: the columns in [P] refer
    to arrays made during the call, and [data_cols] is the copied list
    [cols] unless it was itself cut as a column. *)
Definition fresh_cols (ds : loc) (cols : list string) (P : string -> Prop)
    (h : heap) : Prop :=
  safe h /\ (List.length h0 <= ds)%nat /\
  exists d,
    nth_error h ds = Some (ODict d) /\
    (forall c, P c ->
       exists l a, assoc_get c d = Some (HRef l) /\
                   (List.length h0 <= l)%nat /\
                   nth_error h l = Some (OArr a)) /\
    (P "data_cols" \/
     exists ln, assoc_get "data_cols" d = Some (HRef ln) /\
                nth_error h ln = Some (ONames cols)).

Lemma nth_error_lt {A : Type} (l : list A) (i : nat) (x : A) :
  nth_error l i = Some x -> (i < List.length l)%nat.
Proof. intro H. apply nth_error_Some. congruence. Qed.

Lemma cut_col_fresh (ds ts : loc) (cols : list string) (P : string -> Prop)
    (ms : masks) (c : string) (h h' : heap) (r : result masks) :
  fresh_cols ds cols P h ->
  cut_col EC_cols_0 ds ts ms c h = (h', r) ->
  safe h' /\
  forall ms', r = Ok ms' -> fresh_cols ds cols (fun x => P x \/ x = c) h'.
Proof.
  intros (Hsafe & Hds & d & Hd & Hfresh & Hnames) H.
  unfold cut_col in H.
  read_step H (readonly_lift (timecol_of EC_cols_0 c)).
  read_step H (readonly_some a KeyError).
  read_step H (readonly_mask ds ts a0 ms).
  destruct a1 as [m ms1].
  read_step H (readonly_item ds c).
  read_step H (readonly_load_array a1).
  read_step H (readonly_lift (mask_select a2 m)).
  rename a3 into a'.
  apply mbind_inv in H. destruct H as [(h1 & new & H1 & H)|(e & H1 & _)];
    [|discriminate].
  unfold alloc in H1. inversion H1; subst h1 new. clear H1.
  pose proof (safe_alloc h (OArr a') Hsafe) as Hsafe1.
  pose proof (nth_error_lt _ _ _ Hd) as Hdslt.
  apply mbind_inv in H. destruct H as [(h1 & u & H1 & H)|(e & H1 & ->)];
    apply set_item_inv in H1.
  2:{ destruct H1 as [[-> _]|(d1 & _ & _ & Hr)]; [|discriminate].
      split; [assumption|discriminate]. }
  destruct H1 as [[-> Hr]|(d1 & Hd1 & -> & _)];
    [exfalso; apply Hr; destruct u; reflexivity|].
  inversion H; subst h' r. clear H.
  rewrite nth_error_app1 in Hd1 by assumption.
  rewrite Hd in Hd1. inversion Hd1; subst d1. clear Hd1.
  split; [apply safe_update; assumption|].
  intros ms' _. split; [apply safe_update; assumption|]. split; [assumption|].
  exists (assoc_set c (HRef (List.length h)) d).
  split; [apply nth_error_update_same; rewrite length_app; lia|].
  split.
  - intros c' [Hc'| ->].
    + rewrite assoc_get_set. destruct (String.eqb c' c) eqn:E.
      * exists (List.length h), a'. split; [reflexivity|].
        split; [destruct Hsafe; lia|].
        rewrite nth_error_update_other by lia.
        rewrite nth_error_app2, Nat.sub_diag by lia. reflexivity.
      * destruct (Hfresh c' Hc') as (l & al & Hl & Hge & Hal).
        exists l, al. split; [assumption|]. split; [assumption|].
        rewrite nth_error_update_other by congruence.
        rewrite nth_error_app1 by (eapply nth_error_lt; eauto). assumption.
    + rewrite assoc_get_set, String.eqb_refl.
      exists (List.length h), a'. split; [reflexivity|].
      split; [destruct Hsafe; lia|].
      rewrite nth_error_update_other by lia.
      rewrite nth_error_app2, Nat.sub_diag by lia. reflexivity.
  - destruct (String.eqb "data_cols" c) eqn:E.
    + apply String.eqb_eq in E. left. right. assumption.
    + destruct Hnames as [Hp|(ln & Hln & Hnames)]; [left; left; assumption|].
      right. exists ln. rewrite assoc_get_set, E. split; [assumption|].
      rewrite nth_error_update_other by congruence.
      rewrite nth_error_app1 by (eapply nth_error_lt; eauto). assumption.
Qed.

Lemma cut_loop_fresh (ds ts : loc) (cols : list string) (rest : list string) :
  forall (P : string -> Prop) (ms : masks) (h h' : heap) (r : result masks),
    fresh_cols ds cols P h ->
    for_each (cut_col EC_cols_0 ds ts) ms rest h = (h', r) ->
    safe h' /\
    forall ms', r = Ok ms' ->
      fresh_cols ds cols (fun x => P x \/ In x rest) h'.
Proof.
  induction rest as [|c rest IH]; intros P ms h h' r Hf H; simpl in H.
  - inversion H; subst. split; [apply Hf|].
    intros ms' _. destruct Hf as (Hs & Hds & d & Hd & Hfr & Hn).
    split; [assumption|]. split; [assumption|]. exists d.
    split; [assumption|]. split.
    + intros c [Hc|[]]. auto.
    + destruct Hn; [left; left; assumption | right; assumption].
  - apply mbind_inv in H. destruct H as [(h1 & ms1 & H1 & H)|(e & H1 & ->)].
    + destruct (cut_col_fresh _ _ _ _ _ _ _ _ _ Hf H1) as [_ Hf1].
      specialize (Hf1 ms1 eq_refl).
      destruct (IH _ _ _ _ _ Hf1 H) as [Hs Hr]. split; [assumption|].
      intros ms' Hms. specialize (Hr ms' Hms).
      destruct Hr as (Hs' & Hds & d & Hd & Hfr & Hn).
      split; [assumption|]. split; [assumption|]. exists d.
      split; [assumption|]. split.
      * intros x [Hx|[->|Hx]]; apply Hfr; auto.
      * destruct Hn as [[[Hp|Hp]|Hp]|Hn]; auto.
        -- left. right. left. auto.
        -- left. right. right. assumption.
    + destruct (cut_col_fresh _ _ _ _ _ _ _ _ _ Hf H1) as [Hs _].
      split; [assumption|discriminate].
Qed.

Lemma set_tspan_fresh (ds ts : loc) (cols : list string)
    (P : string -> Prop) (h h' : heap) (r : result unit) :
  fresh_cols ds cols P h ->
  set_item ds "tspan" (HRef ts) h = (h', r) ->
  safe h' /\
  (r = Ok tt -> fresh_cols ds cols (fun x => P x /\ x <> "tspan") h').
Proof.
  intros (Hs & Hds & d & Hd & Hfr & Hn) H.
  apply set_item_inv in H. destruct H as [[-> Hr]|(d1 & Hd1 & -> & ->)].
  - split; [assumption|]. intro. contradiction.
  - rewrite Hd in Hd1. inversion Hd1; subst d1. clear Hd1.
    pose proof (nth_error_lt _ _ _ Hd) as Hlt.
    split; [apply safe_update; assumption|]. intros _.
    split; [apply safe_update; assumption|]. split; [assumption|].
    exists (assoc_set "tspan" (HRef ts) d).
    split; [apply nth_error_update_same; assumption|]. split.
    + intros c [Hc Hne]. destruct (Hfr c Hc) as (l & a & Hl & Hge & Ha).
      exists l, a. rewrite assoc_get_set.
      apply String.eqb_neq in Hne. rewrite Hne.
      split; [assumption|]. split; [assumption|].
      rewrite nth_error_update_other by congruence. assumption.
    + destruct Hn as [Hp|(ln & Hln & Hnames)].
      * left. split; [assumption|discriminate].
      * right. exists ln. rewrite assoc_get_set. simpl.
        split; [assumption|].
        rewrite nth_error_update_other by congruence. assumption.
Qed.

Lemma timeshift_col_fresh (ds : loc) (cols : list string)
    (P : string -> Prop) (t0 : Z) (c : string) (h h' : heap)
    (r : result unit) :
  fresh_cols ds cols P h ->
  (is_time EC_cols_0 c = Ok true -> P c) ->
  timeshift_col EC_cols_0 ds t0 tt c h = (h', r) ->
  safe h' /\ (r = Ok tt -> fresh_cols ds cols P h').
Proof.
  intros Hf Hc H. pose proof Hf as (Hs & Hds & d & Hd & Hfr & Hn).
  unfold timeshift_col in H.
  apply mbind_inv in H. destruct H as [(h1 & b & H1 & H)|(e & H1 & ->)];
    apply lift_inv in H1; destruct H1 as [-> Hb];
    [|split; [assumption|discriminate]].
  destruct b; [|inversion H; subst; auto].
  destruct (Hfr c (Hc (eq_sym Hb))) as (l & a & Hl & Hge & Ha).
  apply mbind_inv in H. destruct H as [(h1 & v & H1 & H)|(e & H1 & ->)];
    apply item_inv in H1; destruct H1 as [-> Hv];
    [|split; [assumption|discriminate]].
  destruct (Hv v eq_refl) as (d' & Hd' & Hget).
  rewrite Hd in Hd'. inversion Hd'; subst d'. clear Hd'.
  rewrite Hl in Hget. inversion Hget; subst v. clear Hget.
  apply mbind_inv in H. destruct H as [(h1 & o & H1 & H)|(e & H1 & ->)];
    apply load_inv in H1; destruct H1 as [-> Ho];
    [|split; [assumption|discriminate]].
  rewrite (Ho o eq_refl) in Ha. inversion Ha; subst o. clear Ha.
  unfold store in H. inversion H; subst h' r. clear H.
  pose proof (Ho _ eq_refl) as Ha.
  split; [apply safe_update; assumption|]. intros _.
  split; [apply safe_update; assumption|]. split; [assumption|].
  exists d. split; [rewrite nth_error_update_other by congruence; assumption|].
  split.
  - intros c' Hc'. destruct (Hfr c' Hc') as (l' & a' & Hl' & Hge' & Ha').
    destruct (Nat.eq_dec l' l) as [->|Hne].
    + exists l. eexists. split; [eassumption|]. split; [assumption|].
      apply nth_error_update_same. eapply nth_error_lt; eauto.
    + exists l', a'. split; [assumption|]. split; [assumption|].
      rewrite nth_error_update_other by assumption. assumption.
  - destruct Hn as [Hp|(ln & Hln & Hnames)]; [left; assumption|].
    right. exists ln. split; [assumption|].
    rewrite nth_error_update_other by congruence. assumption.
Qed.

Lemma timeshift_loop_fresh (ds : loc) (cols : list string)
    (P : string -> Prop) (t0 : Z) (rest : list string) :
  (forall c, In c rest -> is_time EC_cols_0 c = Ok true -> P c) ->
  forall (h h' : heap) (r : result unit),
    fresh_cols ds cols P h ->
    for_each (timeshift_col EC_cols_0 ds t0) tt rest h = (h', r) ->
    safe h' /\ (r = Ok tt -> fresh_cols ds cols P h').
Proof.
  induction rest as [|c rest IH]; intros HP h h' r Hf H; simpl in H.
  - inversion H; subst. split; [apply Hf|auto].
  - apply mbind_inv in H. destruct H as [(h1 & u & H1 & H)|(e & H1 & ->)].
    + destruct u.
      destruct (timeshift_col_fresh _ _ _ _ _ _ _ _ Hf
                  (HP c (or_introl eq_refl)) H1) as [_ Hf1].
      apply (IH (fun x Hx => HP x (or_intror Hx)) _ _ _ (Hf1 eq_refl) H).
    + destruct (timeshift_col_fresh _ _ _ _ _ _ _ _ Hf
                  (HP c (or_introl eq_refl)) H1) as [Hs _].
      split; [assumption|discriminate].
Qed.

Lemma readonly_t0 (ds : loc) (t_zero : tzero_arg) :
  readonly (match t_zero with
            | TzNone => ret 0
            | TzStart =>
                v <~ item ds "tspan" ;;
                l <~ load_seq v ;;
                lift (py_index l 0)
            | TzNum t => ret t
            end).
Proof. destruct t_zero; readonly_tac. Qed.

(** [timeshift] on the copy: whatever it returns or raises, the objects of
    [h0] are as they were. *)
Lemma timeshift_fresh (ds : loc) (cols : list string) (P : string -> Prop)
    (t_zero : tzero_arg) (h h' : heap) (r : result loc) :
  fresh_cols ds cols P h ->
  (forall c, In c cols -> is_time EC_cols_0 c = Ok true -> P c) ->
  timeshift EC_cols_0 ds t_zero h = (h', r) ->
  safe h' /\ (forall l, r = Ok l -> l = ds).
Proof.
  intros Hf HP H. pose proof Hf as (Hs & Hds & d & Hd & Hfr & Hn).
  unfold timeshift in H.
  read_step H (readonly_t0 ds t_zero). rename a into t0.
  apply mbind_inv in H. destruct H as [(h1 & v & H1 & H)|(e & H1 & ->)];
    apply item_inv in H1; destruct H1 as [-> Hv];
    [|split; [assumption|discriminate]].
  destruct (Hv v eq_refl) as (d' & Hd' & Hget).
  rewrite Hd in Hd'. inversion Hd'; subst d'. clear Hd' Hv.
  apply mbind_inv in H. destruct H as [(h1 & names & H1 & H)|(e & H1 & ->)];
    apply load_names_inv in H1; destruct H1 as [-> Hnm];
    [|split; [assumption|discriminate]].
  destruct (Hnm names eq_refl) as (ln' & -> & Hln'). clear Hnm.
  assert (names = cols).
  { destruct Hn as [Hp|(ln & Hln & Hnames)].
    - destruct (Hfr _ Hp) as (l & a & Hl & _ & Ha). congruence.
    - rewrite Hget in Hln. inversion Hln; subst ln'. congruence. }
  subst names.
  apply mbind_inv in H. destruct H as [(h1 & u & H1 & H)|(e & H1 & ->)].
  2:{ destruct (timeshift_loop_fresh _ _ _ _ _ HP _ _ _ Hf H1) as [Hs1 _].
      split; [assumption|discriminate]. }
  destruct u.
  destruct (timeshift_loop_fresh _ _ _ _ _ HP _ _ _ Hf H1) as [_ Hf1].
  specialize (Hf1 eq_refl). clear H1 Hs Hd Hfr Hn Hget Hln' d.
  destruct Hf1 as (Hs & _ & d & Hd & _).
  read_step H (readonly_item ds "tspan").
  read_step H (readonly_load_seq a).
  read_step H (readonly_lift (py_index a0 0)).
  read_step H (readonly_lift (py_index a0 (-1))).
  apply mbind_inv in H. destruct H as [(h2 & new & H1 & H)|(e & H1 & _)];
    [|discriminate].
  unfold alloc in H1. inversion H1; subst h2 new. clear H1.
  pose proof (safe_alloc h1 (ONums [a1 - t0; a2 - t0]) Hs) as Hs1.
  apply mbind_inv in H. destruct H as [(h2 & u & H1 & H)|(e & H1 & ->)];
    apply set_item_inv in H1.
  2:{ destruct H1 as [[-> _]|(d1 & _ & _ & Hr)]; [|discriminate].
      split; [assumption|discriminate]. }
  destruct H1 as [[-> Hr]|(d1 & Hd1 & -> & _)];
    [exfalso; apply Hr; destruct u; reflexivity|].
  inversion H; subst h' r. clear H.
  split; [apply safe_update; assumption|].
  intros l Hl. inversion Hl. reflexivity.
Qed.

End Frame.

Lemma is_time_tspan (EC_cols_0 : list string) :
  is_time EC_cols_0 "tspan" <> Ok true.
Proof.
  rewrite is_time_by_type. unfold get_type, is_EC_data.
  destruct (PyStr.mem "tspan" EC_cols_0); simpl; discriminate.
Qed.

(** C10. [cut_dataset] leaves every object that existed before the call as
    it was - the dataset it is given, its [data_cols] list, each of its
    column arrays, the [tspan] list it is passed - whatever it returns or
    raises; the dataset it returns is an object made by the call. *)
Theorem cut_dataset_frame (EC_cols_0 : list string) (h h' : heap)
    (dataset_0 : loc) (tspan : option loc) (t_zero : tzero_arg)
    (r : result loc) :
  cut_dataset EC_cols_0 dataset_0 tspan t_zero h = (h', r) ->
  (forall l, (l < List.length h)%nat -> nth_error h' l = nth_error h l) /\
  (forall dataset, r = Ok dataset -> (List.length h <= dataset)%nat).
Proof.
  intro H.
  assert (Hs0 : safe h h) by (split; auto).
  assert (G : safe h h' /\ forall l, r = Ok l -> l = List.length h).
  2:{ destruct G as [[_ G1] G2]. split; [exact G1|].
      intros l Hl. rewrite (G2 l Hl). lia. }
  unfold cut_dataset in H.
  apply mbind_inv in H. destruct H as [(h1 & d & H1 & H)|(e & H1 & ->)];
    apply load_dict_inv in H1; destruct H1 as [-> _];
    [|split; [assumption|discriminate]].
  apply mbind_inv in H. destruct H as [(h1 & ds & H1 & H)|(e & H1 & _)];
    [|discriminate].
  unfold alloc in H1. inversion H1; subst h1 ds. clear H1.
  pose proof (safe_alloc h h (ODict d) Hs0) as Hs1.
  assert (Hd : nth_error (h ++ [ODict d]) (List.length h) = Some (ODict d))
    by (rewrite nth_error_app2, Nat.sub_diag by lia; reflexivity).
  apply mbind_inv in H. destruct H as [(h1 & v & H1 & H)|(e & H1 & ->)];
    apply item_inv in H1; destruct H1 as [-> _];
    [|split; [assumption|discriminate]].
  apply mbind_inv in H. destruct H as [(h1 & cols & H1 & H)|(e & H1 & ->)];
    apply load_names_inv in H1; destruct H1 as [-> _];
    [|split; [assumption|discriminate]].
  apply mbind_inv in H. destruct H as [(h1 & ln & H1 & H)|(e & H1 & _)];
    [|discriminate].
  unfold alloc in H1. inversion H1; subst h1 ln. clear H1.
  pose proof (safe_alloc h _ (ONames cols) Hs1) as Hs2.
  apply mbind_inv in H. destruct H as [(h1 & u & H1 & H)|(e & H1 & ->)];
    apply set_item_inv in H1.
  2:{ destruct H1 as [[-> _]|(d1 & _ & _ & Hr)]; [|discriminate].
      split; [assumption|discriminate]. }
  destruct H1 as [[-> Hr]|(d1 & Hd1 & -> & _)];
    [exfalso; apply Hr; destruct u; reflexivity|].
  rewrite nth_error_app1 in Hd1 by (rewrite length_app; simpl; lia).
  rewrite Hd in Hd1. inversion Hd1; subst d1. clear Hd1.
  set (h3 := update _ _ _) in *.
  assert (Hf : fresh_cols h (List.length h) cols (fun _ => False) h3).
  { split; [apply safe_update; [assumption|lia]|]. split; [lia|].
    exists (assoc_set "data_cols" (HRef (List.length (h ++ [ODict d]))) d).
    split; [apply nth_error_update_same; rewrite !length_app; simpl; lia|].
    split; [intros c []|].
    right. exists (List.length (h ++ [ODict d])).
    rewrite assoc_get_set. simpl. split; [reflexivity|].
    unfold h3. rewrite nth_error_update_other
      by (rewrite length_app; simpl; lia).
    rewrite nth_error_app2, Nat.sub_diag by lia. reflexivity. }
  destruct tspan as [ts|].
  2:{ inversion H; subst. split; [apply Hf|].
      intros l Hl. inversion Hl. reflexivity. }
  apply mbind_inv in H. destruct H as [(h4 & ms & H1 & H)|(e & H1 & ->)].
  2:{ destruct (cut_loop_fresh _ _ _ _ _ _ _ _ _ _ _ Hf H1) as [Hs _].
      split; [assumption|discriminate]. }
  destruct (cut_loop_fresh _ _ _ _ _ _ _ _ _ _ _ Hf H1) as [_ Hf4].
  specialize (Hf4 ms eq_refl).
  apply mbind_inv in H. destruct H as [(h5 & u' & H2 & H)|(e & H2 & ->)].
  2:{ destruct (set_tspan_fresh _ _ _ _ _ _ _ _ Hf4 H2) as [Hs _].
      split; [assumption|discriminate]. }
  destruct u'.
  destruct (set_tspan_fresh _ _ _ _ _ _ _ _ Hf4 H2) as [_ Hf5].
  specialize (Hf5 eq_refl).
  eapply timeshift_fresh; [exact Hf5 | | exact H].
  intros c Hc Ht. split; [right; assumption|].
  intros ->. exact (is_time_tspan EC_cols_0 Ht).
Qed.


End HeapFacts.

(* ------------------------------------------------------------------ *)
(** ** The synchronizer: appended columns stay as long as their time column *)

(** The names listed in [data_cols]. *)
Definition cols_of (d : dict) : list string :=
  match dict_get "data_cols" d with
  | Some (VNames l) => l
  | _ => []
  end.

(** The keys that [synchronize] writes in the combined dataset for its own
    use. *)
Definition reserved : list string :=
  ["data_type"; "data_cols"; "title"; "tspan_0"; "tspan_1"; "tspan";
   "tspan_2"; "tstamp"; "timestamp"; "first"; "last"; "start"; "finish";
   "file number"; "combining_number"; "t_str"].

(** The length of the array under a key, 0 when there is none. *)
Definition len_at (d : dict) (k : string) : nat :=
  match dict_get k d with
  | Some (VArr a) => List.length a
  | _ => O
  end.

Lemma mask_select_le (a : list Z) (m : list bool) (r : list Z) :
  mask_select a m = Ok r -> (List.length r <= List.length a)%nat.
Proof.
  intro H. apply MaskFacts.mask_select_length in H. destruct H as [Hl Hc].
  rewrite Hc, Hl. apply MaskFacts.count_true_le.
Qed.

Lemma In_dict_set (k k0 : string) (v v0 : value) (d : dict) :
  In (k, v) (dict_set k0 v0 d) -> k = k0 \/ In (k, v) d.
Proof.
  induction d as [|[k' v'] d IH]; simpl.
  - intros [H|[]]. inversion H. auto.
  - destruct (String.eqb k0 k') eqn:E; simpl.
    + apply String.eqb_eq in E. subst k'.
      intros [H|H]; [inversion H; auto | auto].
    + intros [H|H]; [auto|]. destruct (IH H); auto.
Qed.

Lemma mem_In (x : string) (l : list string) :
  PyStr.mem x l = true <-> In x l.
Proof.
  induction l as [|y l IH]; simpl; [split; [discriminate|tauto]|].
  rewrite orb_true_iff, IH, String.eqb_eq. split; intros [H|H]; auto.
Qed.

Lemma mem_not_In (x : string) (l : list string) :
  PyStr.mem x l = false <-> ~ In x l.
Proof.
  rewrite <- mem_In. destruct (PyStr.mem x l); split; congruence.
Qed.

Lemma dict_get_In (k : string) (v : value) (d : dict) :
  dict_get k d = Some v -> In (k, v) d.
Proof.
  induction d as [|[k' v'] d IH]; simpl; [discriminate|].
  destruct (String.eqb k k') eqn:E.
  - apply String.eqb_eq in E. subst. intro H. inversion H. auto.
  - auto.
Qed.

Lemma dict_get_keys (k : string) (d : dict) :
  dict_get k d = None <-> ~ In k (map fst d).
Proof.
  induction d as [|[k' v'] d IH]; simpl; [tauto|].
  destruct (String.eqb k k') eqn:E.
  - apply String.eqb_eq in E. subst. split; [discriminate|tauto].
  - apply String.eqb_neq in E. rewrite IH. split; [|tauto].
    intros H [H'|H']; [congruence|tauto].
Qed.

Section AppendFacts.

Variable EC_cols_0 : list string.

(** The datasets given to [synchronize]. *)
Variable inputs : list dict.

Local Abbreviation timecol_in := (timecol_of EC_cols_0).
Local Abbreviation is_time_in := (is_time EC_cols_0).

(** A name listed as a column by one of the datasets. *)
Definition is_col (c : string) : Prop :=
  exists d, In d inputs /\ In c (cols_of d).

(** A column of a dataset in the sense of the data model: it holds an
    array, its time column is listed with it and holds an array of the same
    length, and a time column is its own time column. *)
Definition column_ok (d : dict) (c : string) : Prop :=
  exists a tc ta,
    dict_get c d = Some (VArr a) /\
    timecol_in c = Ok (Some tc) /\
    In tc (cols_of d) /\
    timecol_in tc = Ok (Some tc) /\
    is_time_in tc = Ok true /\
    dict_get tc d = Some (VArr ta) /\
    List.length ta = List.length a.

(** Column names are neither keys of the combined dataset nor marked as
    provenance by a leading underscore. *)
Definition name_ok (c : string) : Prop :=
  ~ In c reserved /\ forall rest, c <> String "_" rest.

(** A dataset ready to be merged: its columns are named once and are
    columns in the sense above; a key that is a column in some dataset is
    a column of this one; and there is no [file number] yet. *)
Record dataset_ok (d : dict) : Prop := mkDatasetOk {
  ok_nodup : NoDup (cols_of d);
  ok_columns : forall c, In c (cols_of d) -> column_ok d c /\ name_ok c;
  ok_meta : forall k, In k (map fst d) -> is_col k -> In k (cols_of d);
  ok_no_fn : ~ In "file number" (map fst d)
}.

Hypothesis inputs_ok : forall d, In d inputs -> dataset_ok d.

(** The keys of the combined dataset that hold columns or their list. *)
Definition protected (k : string) : Prop :=
  is_col k \/ k = "data_cols" \/ k = "file number".

Lemma is_col_name_ok (c : string) : is_col c -> name_ok c.
Proof.
  intros (d & Hd & Hc). apply (ok_columns d (inputs_ok d Hd) c Hc).
Qed.

Lemma protected_no_underscore (k rest : string) :
  protected k -> k <> String "_" rest.
Proof.
  intros [H|[->| ->]]; [|discriminate|discriminate].
  apply is_col_name_ok in H. apply H.
Qed.

Lemma is_col_not_reserved (c k : string) :
  is_col c -> In k reserved -> c <> k.
Proof.
  intros Hc Hk ->. apply is_col_name_ok in Hc. apply Hc. exact Hk.
Qed.

(** *** The metadata loop leaves the columns alone *)

Lemma nest_assign_other (col : string) (nd : nat) (v : value)
    (cb cb' : dict) (x : string) :
  nest_assign col nd v cb = Ok cb' -> x <> col ->
  dict_get x cb' = dict_get x cb.
Proof.
  unfold nest_assign. intros H Hx.
  destruct (dict_get col cb) as [[]|]; inversion H.
  apply dict_get_set_other. assumption.
Qed.

Lemma merge_meta_protected (keys_0 : list string) (nd : nat)
    (cb cb' : dict) (k : string) (v : value) (ccols : list string) :
  dict_get "data_cols" cb = Some (VNames ccols) ->
  (is_col k -> In k ccols) ->
  (k = "file number" -> In k keys_0) ->
  In "data_cols" keys_0 ->
  merge_meta keys_0 nd cb (k, v) = Ok cb' ->
  forall x, protected x -> dict_get x cb' = dict_get x cb.
Proof.
  intros Hcols Hk Hfn Hdc H x Hx.
  unfold merge_meta, combined_cols, data_cols_of, dict_item in H.
  rewrite Hcols in H. simpl bind in H.
  destruct (PyStr.mem k ccols) eqn:Hmem; [inversion H; reflexivity|].
  apply mem_not_In in Hmem.
  inv_bind H. rename x0 into c0.
  destruct k as [|k0 krest]; [discriminate|]. simpl in Hx0.
  inversion Hx0; subst c0. clear Hx0.
  destruct (Ascii.eqb k0 "_") eqn:E.
  - apply Ascii.eqb_eq in E. subst k0.
    pose proof (protected_no_underscore x krest Hx) as Hne.
    destruct (dict_mem (String "_" krest) cb).
    + eapply nest_assign_other; eauto.
    + inversion H. apply dict_get_set_other. assumption.
  - set (k := String k0 krest) in *.
    assert (Hxk : PyStr.mem k keys_0 = false -> x <> k).
    { intros Hm ->. apply mem_not_In in Hm.
      destruct Hx as [Hc|[Hc|Hc]]; [tauto | |tauto].
      rewrite Hc in Hm. contradiction. }
    set (cb1 := if PyStr.mem k keys_0 then cb else dict_set k v cb) in *.
    assert (H1 : dict_get x cb1 = dict_get x cb).
    { unfold cb1. destruct (PyStr.mem k keys_0) eqn:Hm; [reflexivity|].
      apply dict_get_set_other. auto. }
    change ("_" ++ k)%string with (String "_" k) in H.
    pose proof (protected_no_underscore x k Hx) as Hne.
    rewrite <- H1.
    destruct (dict_get (String "_" k) cb1) as [[]|] eqn:Hn;
      try discriminate.
    + destruct (nest_get nd m); [inversion H; reflexivity|].
      eapply nest_assign_other; eauto.
    + inversion H. apply dict_get_set_other. assumption.
Qed.

Lemma merge_metas_protected (keys_0 : list string) (nd : nat)
    (ccols : list string) (items : list (string * value)) :
  In "data_cols" keys_0 ->
  (forall k v, In (k, v) items ->
     (is_col k -> In k ccols) /\ (k = "file number" -> In k keys_0)) ->
  forall cb cb',
    dict_get "data_cols" cb = Some (VNames ccols) ->
    merge_metas keys_0 nd cb items = Ok cb' ->
    forall x, protected x -> dict_get x cb' = dict_get x cb.
Proof.
  intros Hdc. induction items as [|[k v] items IH]; intros Hit cb cb' Hc H x Hx;
    simpl in H.
  - inversion H. reflexivity.
  - inv_bind H. rename x0 into cb1.
    destruct (Hit k v (or_introl eq_refl)) as [Hk Hfn].
    pose proof (merge_meta_protected _ _ _ _ _ _ _ Hc Hk Hfn Hdc Hx0) as Hp.
    rewrite <- (Hp x Hx).
    apply (IH (fun k v Hin => Hit k v (or_intror Hin)) cb1 cb'); auto.
    rewrite Hp; [assumption|]. right. left. reflexivity.
Qed.

(** *** The lengths collected before the columns are merged *)

Lemma is_time_of_timecol (c : string) (x : option string) :
  timecol_in c = Ok x -> exists b, is_time_in c = Ok b.
Proof.
  unfold timecol_of, get_timecol. intro H. inv_bind H.
  rewrite is_time_by_type, Hx. simpl.
  destruct (String.eqb x0 "EC"); [eauto|].
  destruct (String.eqb x0 "MS" || String.eqb x0 "cinfdata"); eauto.
Qed.

Lemma oldcollength_spec (cb : dict) (ccols : list string)
    (old : names_assoc) :
  for_each (oldcollength_col EC_cols_0 cb) [] ccols = Ok old ->
  (forall k n, assoc_get k old = Some n ->
     In k ccols /\ exists v, dict_get k cb = Some v /\ py_len v = Ok n) /\
  (forall k, In k ccols -> is_time_in k = Ok true ->
     exists n, assoc_get k old = Some n).
Proof.
  apply (for_each_invariant (oldcollength_col EC_cols_0 cb)
           (fun pre m =>
              (forall k n, assoc_get k m = Some n ->
                 In k pre /\
                 exists v, dict_get k cb = Some v /\ py_len v = Ok n) /\
              (forall k, In k pre -> is_time_in k = Ok true ->
                 exists n, assoc_get k m = Some n))).
  - intros pre c m m' [Ha Hb] _ H. unfold oldcollength_col in H.
    inv_bind H. destruct x.
    + inv_bind H. inv_bind H. inversion H; subst m'. clear H.
      apply dict_item_ok in Hx0. split.
      * intros k n. rewrite HeapFacts.assoc_get_set.
        destruct (String.eqb k c) eqn:E.
        -- apply String.eqb_eq in E. subst k. intro Hn. inversion Hn; subst.
           split; [apply in_or_app; right; left; reflexivity|eauto].
        -- intro Hn. destruct (Ha k n Hn) as [Hin Hv].
           split; [apply in_or_app; auto|assumption].
      * intros k Hin Ht. rewrite HeapFacts.assoc_get_set.
        destruct (String.eqb k c) eqn:E; [eauto|].
        apply in_app_or in Hin. destruct Hin as [Hin|[->|[]]]; [auto|].
        rewrite String.eqb_refl in E. discriminate.
    + inversion H; subst m'. clear H. split.
      * intros k n Hn. destruct (Ha k n Hn) as [Hin Hv].
        split; [apply in_or_app; auto|assumption].
      * intros k Hin Ht.
        apply in_app_or in Hin. destruct Hin as [Hin|[->|[]]]; [auto|].
        congruence.
  - split; [discriminate|intros k []].
Qed.

Lemma collength_spec (dt : dict) (cols : list string)
    (old0 old col : names_assoc) :
  for_each (collength_col EC_cols_0 dt) (old0, []) cols = Ok (old, col) ->
  (forall k n, assoc_get k col = Some n ->
     In k cols /\ exists v, dict_get k dt = Some v /\ py_len v = Ok n) /\
  (forall k, In k cols -> is_time_in k = Ok true ->
     (exists n, assoc_get k col = Some n) /\
     (exists n, assoc_get k old = Some n)) /\
  (forall k n, assoc_get k old0 = Some n -> assoc_get k old = Some n) /\
  (forall k n, assoc_get k old = Some n ->
     assoc_get k old0 = Some n \/ (assoc_get k old0 = None /\ n = O)).
Proof.
  intro H.
  refine (for_each_invariant (collength_col EC_cols_0 dt)
           (fun pre (m : names_assoc * names_assoc) =>
              (forall k n, assoc_get k (snd m) = Some n ->
                 In k pre /\
                 exists v, dict_get k dt = Some v /\ py_len v = Ok n) /\
              (forall k, In k pre -> is_time_in k = Ok true ->
                 (exists n, assoc_get k (snd m) = Some n) /\
                 (exists n, assoc_get k (fst m) = Some n)) /\
              (forall k n, assoc_get k old0 = Some n ->
                 assoc_get k (fst m) = Some n) /\
              (forall k n, assoc_get k (fst m) = Some n ->
                 assoc_get k old0 = Some n \/
                 (assoc_get k old0 = None /\ n = O)))
           cols _ (old0, []) (old, col) _ H); clear H.
  - intros pre c [o l] m' (Ha & Hb & Hc & Hd) _ H. simpl in *.
    unfold collength_col in H. inv_bind H. destruct x.
    + inv_bind H. inv_bind H. inversion H; subst m'. clear H. simpl.
      apply dict_item_ok in Hx0.
      assert (Ho : forall k,
                 assoc_get k (match assoc_get c o with
                              | Some _ => o
                              | None => assoc_set c O o
                              end) =
                 match assoc_get k o with
                 | Some n => Some n
                 | None => if String.eqb k c then Some O else None
                 end).
      { intro k. destruct (assoc_get c o) eqn:Eo.
        - destruct (assoc_get k o) eqn:Ek; [reflexivity|].
          destruct (String.eqb k c) eqn:E; [|reflexivity].
          apply String.eqb_eq in E. congruence.
        - rewrite HeapFacts.assoc_get_set.
          destruct (String.eqb k c) eqn:E.
          + apply String.eqb_eq in E. subst k. rewrite Eo. reflexivity.
          + destruct (assoc_get k o); reflexivity. }
      split; [|split; [|split]].
      * intros k n. rewrite HeapFacts.assoc_get_set.
        destruct (String.eqb k c) eqn:E.
        -- apply String.eqb_eq in E. subst k. intro Hn. inversion Hn; subst.
           split; [apply in_or_app; simpl; auto|eauto].
        -- intro Hn. destruct (Ha k n Hn) as [Hin Hv].
           split; [apply in_or_app; auto|assumption].
      * intros k Hin Ht. rewrite HeapFacts.assoc_get_set, Ho.
        destruct (String.eqb k c) eqn:E.
        -- split; [eauto|]. destruct (assoc_get k o); eauto.
        -- apply in_app_or in Hin. destruct Hin as [Hin|[->|[]]].
           ++ destruct (Hb k Hin Ht) as [H1 [n Hn]]. split; [assumption|].
              rewrite Hn. eauto.
           ++ rewrite String.eqb_refl in E. discriminate.
      * intros k n Hn. rewrite Ho, (Hc k n Hn). reflexivity.
      * intros k n. rewrite Ho. destruct (assoc_get k o) eqn:Ek.
        -- intro Hn. inversion Hn; subst. apply Hd. assumption.
        -- destruct (String.eqb k c); [|discriminate].
           intro Hn. inversion Hn; subst. right. split; [|reflexivity].
           destruct (assoc_get k old0) eqn:E0; [|reflexivity].
           apply Hc in E0. congruence.
    + inversion H; subst m'. clear H. simpl.
      split; [|split; [|split; assumption]].
      * intros k n Hn. destruct (Ha k n Hn) as [Hin Hv].
        split; [apply in_or_app; auto|assumption].
      * intros k Hin Ht.
        apply in_app_or in Hin. destruct Hin as [Hin|[->|[]]]; [auto|].
        congruence.
  - simpl. split; [discriminate|]. split; [intros k []|]. split; auto.
Qed.

(** *** The combined dataset between two datasets *)

(** The listed columns are columns of the inputs and hold arrays; a column
    of the inputs that is not listed yet has no key; and no column is longer
    than its time column. *)
Definition merge_inv (cb : dict) : Prop :=
  (exists ccols,
     dict_get "data_cols" cb = Some (VNames ccols) /\
     (forall c, In c ccols ->
        is_col c /\ exists a, dict_get c cb = Some (VArr a)) /\
     (forall c, is_col c -> ~ In c ccols -> dict_get c cb = None) /\
     (forall c tc, In c ccols -> timecol_in c = Ok (Some tc) ->
        In tc ccols)) /\
  (forall c tc, is_col c -> timecol_in c = Ok (Some tc) ->
     (len_at cb c <= len_at cb tc)%nat).

(** The type whose datasets are numbered. *)
Variable file_number_type : string.

(** The file numbers follow the time column [ftc]: it is its own time
    column and only datasets of the numbered type list it. *)
Definition fn_aligned (ftc : string) : Prop :=
  is_col ftc /\
  timecol_in ftc = Ok (Some ftc) /\
  forall d, In d inputs -> In ftc (cols_of d) ->
    dict_get "data_type" d = Some (VStr file_number_type).

Definition fn_inv (fn_timecol : option (option string)) (cb : dict) : Prop :=
  match fn_timecol with
  | None => dict_get "file number" cb = None
  | Some None => True
  | Some (Some ftc) =>
      exists f,
        (dict_get "file number" cb = Some (VArr f) \/
         dict_get "file number" cb = Some (VNums f)) /\
        (fn_aligned ftc -> List.length f = len_at cb ftc)
  end.

(** A dataset as the second loop meets it: an input with its tag. *)
Definition ready (dt : dict) : Prop :=
  exists nd d, In d inputs /\ dt = tagged nd d.

Lemma tagged_get (nd : nat) (d : dict) (k : string) :
  k <> "combining_number" -> dict_get k (tagged nd d) = dict_get k d.
Proof. intro H. unfold tagged. apply dict_get_set_other. assumption. Qed.

Lemma tagged_cols (nd : nat) (d : dict) :
  cols_of (tagged nd d) = cols_of d.
Proof. unfold cols_of. rewrite tagged_get by discriminate. reflexivity. Qed.

Lemma col_not_tag (c : string) : is_col c -> c <> "combining_number".
Proof.
  intro H. apply is_col_not_reserved; [assumption|]. simpl. tauto.
Qed.

Lemma ready_columns (dt : dict) :
  ready dt ->
  NoDup (cols_of dt) /\
  (forall c, In c (cols_of dt) -> column_ok dt c /\ is_col c) /\
  (forall k v, In (k, v) dt ->
     (is_col k -> In k (cols_of dt)) /\ k <> "file number").
Proof.
  intros (nd & d & Hd & ->). pose proof (inputs_ok d Hd) as Hok.
  rewrite tagged_cols. split; [apply Hok|]. split.
  - intros c Hc.
    assert (Hcol : is_col c) by (exists d; auto).
    split; [|assumption].
    destruct (ok_columns d Hok c Hc)
      as [(a & tc & ta & Ha & Htc & Hin & Hself & Htime & Hta & Hlen) _].
    assert (Htcol : is_col tc) by (exists d; auto).
    exists a, tc, ta. rewrite tagged_cols.
    rewrite !tagged_get by (apply col_not_tag; assumption). auto 10.
  - intros k v Hin. unfold tagged in Hin. apply In_dict_set in Hin.
    destruct Hin as [->|Hin].
    + split; [|discriminate]. intro H. apply col_not_tag in H. congruence.
    + assert (Hk : In k (map fst d)) by (apply (in_map fst) in Hin; exact Hin).
      split; [apply (ok_meta d Hok k Hk)|].
      intros ->. apply (ok_no_fn d Hok). exact Hk.
Qed.

Lemma data_cols_of_cols (d : dict) (cols : list string) :
  data_cols_of d = Ok cols -> cols_of d = cols.
Proof.
  unfold data_cols_of, cols_of, dict_item.
  destruct (dict_get "data_cols" d) as [[]|]; intro H; inversion H.
  reflexivity.
Qed.

Lemma len_at_ext (cb cb' : dict) (k : string) :
  dict_get k cb' = dict_get k cb -> len_at cb' k = len_at cb k.
Proof. unfold len_at. intros ->. reflexivity. Qed.

Lemma merge_inv_ext (cb cb' : dict) :
  (forall x, protected x -> dict_get x cb' = dict_get x cb) ->
  merge_inv cb -> merge_inv cb'.
Proof.
  intros Hext [(ccols & Hc & Harr & Habs & Hclosed) Hlen].
  assert (Hcol : forall c, is_col c -> dict_get c cb' = dict_get c cb)
    by (intros c Hc'; apply Hext; left; assumption).
  split.
  - exists ccols. rewrite Hext by (right; left; reflexivity).
    split; [assumption|]. split; [|split; [|assumption]].
    + intros c Hin. destruct (Harr c Hin) as [Hcc Ha].
      split; [assumption|]. rewrite Hcol; assumption.
    + intros c Hcc Hn. rewrite Hcol by assumption. auto.
  - intros c tc Hcc Htc.
    assert (is_col tc).
    { destruct Hcc as (d & Hd & Hin).
      destruct (ok_columns d (inputs_ok d Hd) c Hin)
        as [(a & tc' & ta & _ & Htc' & Htin & _) _].
      rewrite Htc in Htc'. inversion Htc'; subst tc'. exists d; auto. }
    rewrite (len_at_ext cb cb' c), (len_at_ext cb cb' tc) by auto. auto.
Qed.

Lemma fn_inv_ext (fn_timecol : option (option string)) (cb cb' : dict) :
  (forall x, protected x -> dict_get x cb' = dict_get x cb) ->
  fn_inv fn_timecol cb -> fn_inv fn_timecol cb'.
Proof.
  intros Hext. unfold fn_inv.
  assert (Hfn : dict_get "file number" cb' = dict_get "file number" cb)
    by (apply Hext; right; right; reflexivity).
  destruct fn_timecol as [[ftc|]|]; [|auto|congruence].
  intros (f & Hf & Hal). exists f. rewrite Hfn. split; [assumption|].
  intros Ha. rewrite (len_at_ext cb cb' ftc); [auto|].
  apply Hext. left. apply Ha.
Qed.

(** *** The loop over the columns of one dataset *)

Lemma merge_cols_invariant (cols : list string)
    (body : merge_state -> string -> result merge_state)
    (I : nat -> merge_state -> Prop) :
  (forall i st, I i st -> cols_left st = cols) ->
  (forall i st c st',
      I i st -> nth_error cols i = Some c -> body st c = Ok st' ->
      I (S i) st') ->
  forall fuel i st st',
    I i st -> (fuel + i = List.length cols)%nat ->
    merge_cols fuel i body st = Ok st' -> I (List.length cols) st'.
Proof.
  intros Hcl Hstep. induction fuel as [|fuel IH]; intros i st st' Hi Hlen H;
    simpl in H.
  - inversion H; subst. replace (List.length cols) with i by lia. exact Hi.
  - rewrite (Hcl i st Hi) in H. destruct (nth_error cols i) as [c|] eqn:E.
    + inv_bind H. eapply IH; [eapply Hstep; eauto | lia | exact H].
    + apply nth_error_None in E. lia.
Qed.

Lemma firstn_snoc {A : Type} (l : list A) (i : nat) (x : A) :
  nth_error l i = Some x -> firstn (S i) l = firstn i l ++ [x].
Proof.
  revert i; induction l as [|y l IH]; intros [|i] H; simpl in *;
    try discriminate.
  - inversion H. reflexivity.
  - rewrite (IH i H). reflexivity.
Qed.

Lemma In_firstn {A : Type} (l : list A) (i : nat) (x : A) :
  In x (firstn i l) -> In x l.
Proof.
  intro H. rewrite <- (firstn_skipn i l). apply in_or_app. auto.
Qed.

Lemma NoDup_firstn_nth {A : Type} (l : list A) (i : nat) (x : A) :
  NoDup l -> nth_error l i = Some x -> ~ In x (firstn i l).
Proof.
  revert i; induction l as [|y l IH]; intros [|i] Hnd H; simpl in *;
    try discriminate; auto.
  inversion Hnd; subst. intros [->|Hin].
  - apply nth_error_In in H. contradiction.
  - eapply IH; eauto.
Qed.

Section Columns.

(** The combined dataset when the loop starts, and what is known of it. *)
Variable cb1 : dict.
Variable ccols : list string.
Hypothesis cb_cols : dict_get "data_cols" cb1 = Some (VNames ccols).
Hypothesis cb_arrays :
  forall c, In c ccols -> is_col c /\ exists a, dict_get c cb1 = Some (VArr a).
Hypothesis cb_absent :
  forall c, is_col c -> ~ In c ccols -> dict_get c cb1 = None.
Hypothesis cb_lengths :
  forall c tc, is_col c -> timecol_in c = Ok (Some tc) ->
    (len_at cb1 c <= len_at cb1 tc)%nat.
Hypothesis cb_closed :
  forall c tc, In c ccols -> timecol_in c = Ok (Some tc) -> In tc ccols.

(** The dataset being merged. *)
Variable dt : dict.
Variable cols : list string.
Hypothesis dt_cols : cols_of dt = cols.
Hypothesis dt_nodup : NoDup cols.
Hypothesis dt_columns :
  forall c, In c cols -> column_ok dt c /\ is_col c.

Variable cutit : bool.
Variable nd : nat.
Variable offset : Z.
Variable masks : list (string * list bool).
Variable oldcollength collength : names_assoc.
Hypothesis lengths_known :
  forall c tc ta,
    In c cols -> timecol_in c = Ok (Some tc) ->
    dict_get tc dt = Some (VArr ta) ->
    assoc_get tc oldcollength = Some (len_at cb1 tc) /\
    assoc_get tc collength = Some (List.length ta).

(** After [i] columns: the list of names is whole, the columns merged so
    far are as long as their time column was plus what the dataset adds to
    it, and the other keys are untouched. *)
Definition columns_merged (i : nat) (st : merge_state) : Prop :=
  cols_left st = cols /\
  (exists cur,
     dict_get "data_cols" (merged st) = Some (VNames cur) /\
     forall x, In x cur <-> In x ccols \/ In x (firstn i cols)) /\
  (forall c, In c (firstn i cols) ->
     exists a tc ta,
       dict_get c (merged st) = Some (VArr a) /\
       timecol_in c = Ok (Some tc) /\
       dict_get tc dt = Some (VArr ta) /\
       List.length a = (len_at cb1 tc + List.length ta)%nat) /\
  (forall x, ~ In x (firstn i cols) -> x <> "data_cols" ->
     dict_get x (merged st) = dict_get x cb1).

Lemma merge_col_step (i : nat) (st st' : merge_state) (c : string) :
  columns_merged i st ->
  nth_error cols i = Some c ->
  merge_col EC_cols_0 true cutit nd offset masks oldcollength collength dt
            st c = Ok st' ->
  columns_merged (S i) st'.
Proof.
  intros (Hleft & (cur & Hcur & Hcur_iff) & Hdone & Hrest) Hnth H.
  pose proof (nth_error_In _ _ Hnth) as Hc.
  destruct (dt_columns c Hc)
    as [(a0 & tc & ta & Ha0 & Htc & Htc_in & Htc_self & Htc_time & Hta & Hlen)
        Hcol].
  pose proof (is_col_name_ok c Hcol) as [Hres _].
  assert (Hdc : c <> "data_cols") by (intros ->; apply Hres; simpl; auto).
  pose proof (NoDup_firstn_nth _ _ _ dt_nodup Hnth) as Hfresh.
  destruct (lengths_known c tc ta Hc Htc Hta) as [Hold Hnew].
  (* the old data *)
  assert (Hprev : exists old_a,
             match dict_get c (merged st) with
             | Some v => v
             | None => VArr []
             end = VArr old_a /\
             List.length old_a = len_at cb1 c).
  { rewrite (Hrest c Hfresh Hdc). unfold len_at.
    destruct (in_dec string_dec c ccols) as [Hin|Hnin].
    - destruct (cb_arrays c Hin) as [_ [a Ha]]. rewrite Ha. eauto.
    - rewrite (cb_absent c Hcol Hnin). exists []. auto. }
  destruct Hprev as (old_a & Hprev & Hold_len).
  pose proof (cb_lengths c tc Hcol Htc) as Hle.
  unfold merge_col in H. unfold dict_item in H. rewrite Ha0 in H.
  simpl bind in H.
  (* cutting *)
  inv_bind H. rename x into data1, Hx into Hcut.
  assert (Hdata1 : exists a1, data1 = VArr a1 /\
                              (List.length a1 <= List.length a0)%nat).
  { destruct cutit; [|inversion Hcut; eauto].
    rewrite Htc in Hcut. simpl bind in Hcut.
    destruct (assoc_get tc masks) as [mask|]; [|inversion Hcut; eauto].
    simpl bind in Hcut. inv_bind Hcut. inversion Hcut.
    exists x. split; [reflexivity|]. eapply mask_select_le; eauto. }
  destruct Hdata1 as (a1 & -> & Hlen1).
  (* offsetting *)
  destruct (is_time_of_timecol c _ Htc) as [b Hb]. rewrite Hb in H.
  simpl bind in H.
  inv_bind H. rename x into data2, Hx into Hoff.
  assert (Hdata2 : exists a2, data2 = VArr a2 /\
                              List.length a2 = List.length a1).
  { destruct b; simpl in Hoff; inversion Hoff; eexists; split;
      try reflexivity. apply length_map. }
  destruct Hdata2 as (a2 & -> & Hlen2).
  (* appending *)
  rewrite Hprev in H. simpl bind in H. rewrite Htc in H. simpl bind in H.
  rewrite Hold, Hnew in H.
  set (l1 := (List.length a2 + List.length old_a)%nat) in *.
  set (l0 := (len_at cb1 tc + List.length ta)%nat) in *.
  assert (Hl : (l1 <= l0)%nat) by (unfold l1, l0; lia).
  inv_bind H. rename x into olddata, Hx into Hfill.
  inv_bind H. rename x into data3, Hx into Happ.
  assert (Hdata3 : exists a3, data3 = VArr a3 /\ List.length a3 = l0).
  { destruct (l1 <? l0)%nat eqn:E.
    - apply Nat.ltb_lt in E. simpl in Hfill. inversion Hfill; subst olddata.
      simpl in Happ. inversion Happ. eexists. split; [reflexivity|].
      rewrite !length_app, repeat_length. unfold l1 in *. lia.
    - apply Nat.ltb_ge in E. inversion Hfill; subst olddata.
      simpl in Happ. inversion Happ. eexists. split; [reflexivity|].
      rewrite length_app. unfold l1 in *. lia. }
  destruct Hdata3 as (a3 & -> & Hlen3).
  unfold combined_cols, data_cols_of, dict_item in H.
  rewrite dict_get_set_other, Hcur in H by (intro E; apply Hdc; auto).
  simpl bind in H. inversion H; subst st'. clear H.
  unfold columns_merged. cbn [cols_left merged].
  rewrite (firstn_snoc _ _ _ Hnth).
  split; [assumption|]. split; [|split].
  - destruct (PyStr.mem c cur) eqn:Hm.
    + exists cur. rewrite dict_get_set_other by (intro E; apply Hdc; auto).
      split; [assumption|]. intro x. rewrite Hcur_iff, in_app_iff. simpl.
      apply mem_In in Hm. apply Hcur_iff in Hm.
      split; [tauto|]. intros [Hx|[Hx|[->|[]]]]; tauto.
    + exists (cur ++ [c]). rewrite dict_get_set_same.
      split; [reflexivity|]. intro x.
      rewrite !in_app_iff, Hcur_iff. simpl. tauto.
  - intros c' Hc'. apply in_app_or in Hc'. destruct Hc' as [Hc'|[<-|[]]].
    + destruct (Hdone c' Hc') as (a' & tc' & ta' & Ha' & Htc' & Hta' & Hlen').
      exists a', tc', ta'. repeat split; auto.
      assert (c' <> c) by (intros ->; contradiction).
      assert (c' <> "data_cols").
      { intros ->. apply In_firstn in Hc'.
        destruct (dt_columns _ Hc') as [_ Hcol'].
        apply is_col_name_ok in Hcol'. apply Hcol'. simpl. auto. }
      destruct (PyStr.mem c cur);
        rewrite ?dict_get_set_other by assumption; assumption.
    + exists a3, tc, ta. repeat split; auto.
      destruct (PyStr.mem c cur);
        rewrite ?(dict_get_set_other c "data_cols") by assumption;
        apply dict_get_set_same.
  - intros x Hx Hxdc.
    assert (x <> c) by (intros ->; apply Hx; apply in_or_app; simpl; auto).
    assert (~ In x (firstn i cols))
      by (intro Hin; apply Hx; apply in_or_app; auto).
    destruct (PyStr.mem c cur);
      rewrite ?(dict_get_set_other x "data_cols") by assumption;
      rewrite dict_get_set_other by assumption; auto.
Qed.

(** When the loop is over, the combined dataset is again as between two
    datasets, with the columns of the dataset added. *)
Lemma columns_merged_inv (st : merge_state) :
  columns_merged (List.length cols) st ->
  merge_inv (merged st) /\
  (forall x, ~ In x cols -> x <> "data_cols" ->
     dict_get x (merged st) = dict_get x cb1) /\
  (forall tc ta, In tc cols -> timecol_in tc = Ok (Some tc) ->
     dict_get tc dt = Some (VArr ta) ->
     len_at (merged st) tc = (len_at cb1 tc + List.length ta)%nat).
Proof.
  unfold columns_merged. rewrite firstn_all.
  intros (_ & (cur & Hcur & Hiff) & Hdone & Hrest).
  assert (Hlen_done : forall c tc ta,
             In c cols -> timecol_in c = Ok (Some tc) ->
             dict_get tc dt = Some (VArr ta) ->
             len_at (merged st) c = (len_at cb1 tc + List.length ta)%nat).
  { intros c tc ta Hc Htc Hta.
    destruct (Hdone c Hc) as (a & tc' & ta' & Ha & Htc' & Hta' & Hlen).
    rewrite Htc in Htc'. inversion Htc'; subst tc'.
    rewrite Hta in Hta'. inversion Hta'; subst ta'.
    unfold len_at at 1. rewrite Ha. exact Hlen. }
  assert (Hlen_rest : forall x, is_col x -> ~ In x cols ->
             len_at (merged st) x = len_at cb1 x).
  { intros x Hx Hn. unfold len_at. rewrite Hrest; auto.
    apply is_col_not_reserved; [assumption|simpl; tauto]. }
  split; [|split; [exact Hrest|]].
  - split.
    + exists cur. split; [assumption|]. split.
      * intros c Hc. apply Hiff in Hc.
        destruct (in_dec string_dec c cols) as [Hin|Hnin].
        -- destruct (Hdone c Hin) as (a & _ & _ & Ha & _).
           split; [apply dt_columns; assumption|eauto].
        -- destruct Hc as [Hc|Hc]; [|contradiction].
           destruct (cb_arrays c Hc) as [Hcol Ha]. split; [assumption|].
           rewrite Hrest; auto.
           apply is_col_not_reserved; [assumption|simpl; tauto].
      * split.
        -- intros c Hcol Hn.
           assert (~ In c ccols) by (intro; apply Hn; apply Hiff; auto).
           assert (~ In c cols) by (intro; apply Hn; apply Hiff; auto).
           rewrite Hrest; auto.
           apply is_col_not_reserved; [assumption|simpl; tauto].
        -- intros c tc Hc Htc. apply Hiff. apply Hiff in Hc.
           destruct Hc as [Hc|Hc]; [left; eapply cb_closed; eauto|].
           right. destruct (dt_columns c Hc)
             as [(a & tc' & ta & _ & Htc' & Htin & _) _].
           rewrite Htc in Htc'. inversion Htc'; subst tc'.
           rewrite <- dt_cols. assumption.
    + intros c tc Hcol Htc.
      assert (Htc_facts : is_col tc /\ timecol_in tc = Ok (Some tc)).
      { destruct Hcol as (d & Hd & Hc).
        destruct (ok_columns d (inputs_ok d Hd) c Hc)
          as [(a & tc' & ta & _ & Htc' & Hin & Hself & _) _].
        rewrite Htc in Htc'. inversion Htc'; subst tc'.
        split; [exists d; auto|assumption]. }
      destruct Htc_facts as [Htcol Hself].
      pose proof (cb_lengths c tc Hcol Htc) as Hle.
      destruct (in_dec string_dec c cols) as [Hin|Hnin].
      * destruct (dt_columns c Hin)
          as [(a & tc' & ta & _ & Htc' & Htin & _ & _ & Hta & _) _].
        rewrite Htc in Htc'. inversion Htc'; subst tc'.
        rewrite dt_cols in Htin.
        rewrite (Hlen_done c tc ta Hin Htc Hta).
        rewrite (Hlen_done tc tc ta Htin Hself Hta). lia.
      * rewrite (Hlen_rest c Hcol Hnin).
        destruct (in_dec string_dec tc cols) as [Htin|Htnin].
        -- destruct (dt_columns tc Htin)
             as [(a & tc' & ta & _ & Htc' & _ & _ & _ & Hta & _) _].
           rewrite Hself in Htc'. inversion Htc'; subst tc'.
           rewrite (Hlen_done tc tc ta Htin Hself Hta). lia.
        -- rewrite (Hlen_rest tc Htcol Htnin). exact Hle.
  - intros tc ta Hin Hself Hta. apply (Hlen_done tc tc ta); assumption.
Qed.

End Columns.

(** *** One dataset of the second loop *)

Lemma lengths_from_maps (cb cb1 dt : dict) (ccols cols : list string)
    (old0 old col : names_assoc) :
  merge_inv cb ->
  dict_get "data_cols" cb = Some (VNames ccols) ->
  (forall x, x <> "file number" -> dict_get x cb1 = dict_get x cb) ->
  (forall c, In c cols -> column_ok dt c /\ is_col c) ->
  cols_of dt = cols ->
  for_each (oldcollength_col EC_cols_0 cb) [] ccols = Ok old0 ->
  for_each (collength_col EC_cols_0 dt) (old0, []) cols = Ok (old, col) ->
  forall c tc ta,
    In c cols -> timecol_in c = Ok (Some tc) ->
    dict_get tc dt = Some (VArr ta) ->
    assoc_get tc old = Some (len_at cb1 tc) /\
    assoc_get tc col = Some (List.length ta).
Proof.
  intros [(ccols' & Hcc & Harr & Habs & _) _] Hccols Hcb1 Hdt Hcols Hold Hcol
         c tc ta Hc Htc Hta.
  rewrite Hccols in Hcc. inversion Hcc; subst ccols'. clear Hcc.
  destruct (oldcollength_spec _ _ _ Hold) as [Ho1 Ho2].
  destruct (collength_spec _ _ _ _ _ Hcol) as (Hc1 & Hc2 & Hc3 & Hc4).
  destruct (Hdt c Hc)
    as [(a & tc' & ta' & _ & Htc' & Htin & _ & Htime & _) Hcol_c].
  rewrite Htc in Htc'. inversion Htc'; subst tc'. rewrite Hcols in Htin.
  assert (Htcol : is_col tc) by (apply (Hdt tc Htin)).
  assert (Hne : tc <> "file number")
    by (apply is_col_not_reserved; [assumption|simpl; tauto]).
  destruct (Hc2 tc Htin Htime) as [[n Hn] [n0 Hn0]].
  split.
  - rewrite Hn0. f_equal. unfold len_at. rewrite (Hcb1 tc Hne).
    destruct (Hc4 tc n0 Hn0) as [H0|[H0 ->]].
    + destruct (Ho1 tc n0 H0) as [Hin (v & Hv & Hlen)].
      destruct (Harr tc Hin) as [_ [a' Ha']].
      rewrite Ha' in *. inversion Hv; subst v. simpl in Hlen.
      inversion Hlen. reflexivity.
    + destruct (in_dec string_dec tc ccols) as [Hin|Hnin].
      * destruct (Ho2 tc Hin Htime) as [n' Hn']. congruence.
      * rewrite (Habs tc Htcol Hnin). reflexivity.
  - rewrite Hn. f_equal.
    destruct (Hc1 tc n Hn) as [_ (v & Hv & Hlen)].
    rewrite Hta in Hv. inversion Hv; subst v. simpl in Hlen.
    inversion Hlen. reflexivity.
Qed.

Lemma pass2_step_inv (o : sync_options) (p : pass1) (t_zero : Z)
    (fn_timecol : option (option string)) (keys_0 : list string)
    (cb cb' : dict) (l0 l0' : option nat) (i : nat) (dt : dict) :
  opt_file_number_type o = file_number_type ->
  In "data_cols" keys_0 ->
  ready dt -> merge_inv cb -> fn_inv fn_timecol cb ->
  pass2_step EC_cols_0 o true p t_zero fn_timecol keys_0 (cb, l0) i dt
  = Ok (cb', l0') ->
  merge_inv cb' /\ fn_inv fn_timecol cb'.
Proof.
  intros Hfnt Hk0 Hready Hinv Hfn H.
  destruct (ready_columns dt Hready) as (Hnodup & Hcolumns & Hkeys).
  unfold pass2_step in H.
  bind_inv H as v Hv. bind_inv H as ndz Hnd.
  destruct (negb (nth (Z.to_nat ndz) (hasdata p) false));
    [inversion H; subst; auto|].
  bind_inv H as v0 Hv0. bind_inv H as t_0 Ht0.
  bind_inv H as cols Hcols.
  apply data_cols_of_cols in Hcols.
  bind_inv H as masks Hmasks.
  bind_inv H as pre Hpre. destruct pre as [[cb1 old] col].
  bind_inv H as m Hloop.
  bind_inv H as cb2 Hmeta.
  inversion H; subst cb' l0'. clear H.
  (* the preparation of the lengths and of the file numbers *)
  pose proof Hinv as [(ccols & Hccols & Harr & Habs & Hclosed) Hlens].
  unfold combined_cols, data_cols_of, dict_item in Hpre.
  rewrite Hccols in Hpre. simpl bind in Hpre.
  bind_inv Hpre as old0 Hold.
  bind_inv Hpre as lens Hcol. destruct lens as [old' col'].
  bind_inv Hpre as ty Hty.
  bind_inv Hpre as cb1' Hfnup.
  inversion Hpre; subst cb1' old' col'. clear Hpre.
  fold (dict_item "data_type" dt) in Hty.
  apply dict_item_ok in Hty.
  assert (Hcb1 : forall x, x <> "file number" ->
                   dict_get x cb1 = dict_get x cb).
  { intros x Hx. destruct ty; try (inversion Hfnup; reflexivity).
    destruct (String.eqb s (opt_file_number_type o));
      [|inversion Hfnup; reflexivity].
    destruct fn_timecol as [[ftc|]|]; try discriminate.
    destruct (assoc_get ftc col); [|discriminate].
    bind_inv Hfnup as old_fn Hold_fn. bind_inv Hfnup as fn Hfn'.
    inversion Hfnup.
    apply dict_get_set_other. assumption. }
  assert (Hcol_ne : forall c, is_col c -> c <> "file number")
    by (intros c Hc; apply is_col_not_reserved; [assumption|simpl; tauto]).
  pose proof (lengths_from_maps cb cb1 dt ccols cols old0 old col Hinv Hccols
                Hcb1 ltac:(rewrite <- Hcols; exact Hcolumns) Hcols Hold Hcol)
    as Hknown.
  (* the loop over the columns *)
  assert (Harr1 : forall c, In c ccols ->
                    is_col c /\ exists a, dict_get c cb1 = Some (VArr a)).
  { intros c Hc. destruct (Harr c Hc) as [Hcc Ha]. split; [assumption|].
    rewrite Hcb1; auto. }
  assert (Habs1 : forall c, is_col c -> ~ In c ccols ->
                    dict_get c cb1 = None).
  { intros c Hc Hn. rewrite Hcb1; auto. }
  assert (Hlens1 : forall c tc, is_col c -> timecol_in c = Ok (Some tc) ->
                     (len_at cb1 c <= len_at cb1 tc)%nat).
  { intros c tc Hc Htc.
    assert (is_col tc).
    { destruct Hc as (d & Hd & Hin).
      destruct (ok_columns d (inputs_ok d Hd) c Hin)
        as [(a & tc' & ta & _ & Htc' & Htin & _) _].
      rewrite Htc in Htc'. inversion Htc'; subst tc'. exists d; auto. }
    rewrite (len_at_ext cb cb1 c), (len_at_ext cb cb1 tc); auto. }
  rewrite Hcols in Hnodup, Hcolumns.
  assert (Hfinal : columns_merged cb1 ccols dt cols (List.length cols) m).
  { eapply (merge_cols_invariant cols _
              (columns_merged cb1 ccols dt cols));
      [ | | | | exact Hloop].
    - intros j st Hj. apply Hj.
    - intros j st c st' Hj Hnth Hbody.
      eapply (merge_col_step cb1 ccols Harr1 Habs1 Hlens1 dt cols Hnodup
                Hcolumns); eauto.
    - unfold columns_merged. simpl. split; [reflexivity|]. split.
      + exists ccols. rewrite Hcb1 by discriminate. split; [assumption|].
        intro y. tauto.
      + split; [intros c []|]. auto.
    - lia. }
  destruct (columns_merged_inv cb1 ccols Harr1 Habs1 Hlens1 Hclosed dt cols
              Hcols Hcolumns m Hfinal) as (Hinv2 & Hrest & Hgrown).
  (* the metadata *)
  destruct Hfinal as (Hleft & (cur & Hcur & Hcur_iff) & _ & _).
  rewrite firstn_all in Hcur_iff.
  assert (Hprot : forall x, protected x ->
                    dict_get x cb2 = dict_get x (merged m)).
  { eapply (merge_metas_protected keys_0 _ cur _ Hk0); [|exact Hcur|exact Hmeta].
    intros k w Hin. apply In_dict_set in Hin.
    destruct Hin as [->|Hin].
    - split; [|discriminate]. intro Hc.
      exfalso. eapply is_col_not_reserved; [exact Hc| |reflexivity].
      simpl. tauto.
    - destruct (Hkeys k w Hin) as [Hk1 Hk2]. split; [|contradiction].
      intro Hc. apply Hcur_iff. right. rewrite <- Hcols. auto. }
  split; [eapply merge_inv_ext; eauto|].
  eapply fn_inv_ext; [exact Hprot|].
  (* the file numbers *)
  assert (Hfn_same : dict_get "file number" (merged m)
                     = dict_get "file number" cb1).
  { apply Hrest; [|discriminate]. intro Hin.
    destruct (Hcolumns _ Hin) as [_ Hc]. apply Hcol_ne in Hc. congruence. }
  unfold fn_inv in *. destruct fn_timecol as [[ftc|]|]; [|exact I|].
  2:{ rewrite Hfn_same.
      destruct ty; try (inversion Hfnup; subst; assumption).
      destruct (String.eqb s (opt_file_number_type o));
        [discriminate|inversion Hfnup; subst; assumption]. }
  destruct Hfn as (f & Hf & Hal). rewrite Hfn_same.
  assert (Hcases :
            (cb1 = cb /\ dict_get "data_type" dt <> Some (VStr file_number_type))
            \/ (exists n fn,
                  dict_get "data_type" dt = Some (VStr file_number_type) /\
                  assoc_get ftc col = Some n /\
                  dict_get "file number" cb1 = Some (VArr fn) /\
                  List.length fn = (List.length f + n)%nat)).
  { rewrite Hty. destruct ty; try (left; inversion Hfnup; split;
                                     [reflexivity|discriminate]).
    destruct (String.eqb s (opt_file_number_type o)) eqn:E.
    - apply String.eqb_eq in E. rewrite Hfnt in E. subst s. right.
      destruct (assoc_get ftc col) as [n|]; [|discriminate].
      bind_inv Hfnup as old_fn Hold_fn. bind_inv Hfnup as fn Hfn'.
      inversion Hfnup; subst cb1.
      apply dict_item_ok in Hold_fn. exists n.
      destruct Hf as [Hf|Hf]; rewrite Hf in Hold_fn;
        inversion Hold_fn; subst old_fn;
        simpl in Hfn'; inversion Hfn'; subst fn;
        (eexists; split; [reflexivity|]; split; [reflexivity|];
         split; [apply dict_get_set_same|]);
        rewrite length_app, repeat_length; reflexivity.
    - left. inversion Hfnup. split; [reflexivity|].
      apply String.eqb_neq in E. rewrite Hfnt in E. congruence. }
  destruct Hcases as [[-> Hnot]|(n & fn & Htyp & Hn & Hfn1 & Hfnlen)].
  - exists f. split; [assumption|]. intros Ha.
    rewrite (Hal Ha). destruct Ha as (Hftc & Hself & Honly).
    unfold len_at. rewrite Hrest; [reflexivity| |].
    + intro Hin. apply Hnot.
      destruct Hready as (nd' & d & Hd & ->).
      rewrite tagged_get by discriminate. apply Honly; [assumption|].
      rewrite <- tagged_cols with (nd := nd'). rewrite Hcols. assumption.
    + apply is_col_not_reserved; [assumption|simpl; tauto].
  - exists fn. split; [left; assumption|]. intros Ha.
    pose proof (Hal Ha) as Hflen. destruct Ha as (Hftc & Hself & Honly).
    destruct (collength_spec _ _ _ _ _ Hcol) as (Hc1 & _).
    destruct (Hc1 ftc n Hn) as [Hin (vf & Hvf & Hlen)].
    destruct (Hcolumns ftc Hin) as [(a & tc' & ta & Ha' & _) _].
    rewrite Ha' in Hvf. inversion Hvf; subst vf. simpl in Hlen.
    inversion Hlen; subst n.
    rewrite (Hgrown ftc a Hin Hself Ha').
    rewrite (len_at_ext cb cb1 ftc) by (apply Hcb1; auto). lia.
Qed.

Lemma pass2_loop_inv (o : sync_options) (p : pass1) (t_zero : Z)
    (fn_timecol : option (option string)) (keys_0 : list string)
    (datasets : list dict) :
  opt_file_number_type o = file_number_type ->
  In "data_cols" keys_0 ->
  (forall dt, In dt datasets -> ready dt) ->
  forall (cb cb' : dict) (l0 l0' : option nat) (i : nat),
    merge_inv cb -> fn_inv fn_timecol cb ->
    pass2_loop (pass2_step EC_cols_0 o true p t_zero fn_timecol keys_0)
               (cb, l0) i datasets = Ok (cb', l0') ->
    merge_inv cb' /\ fn_inv fn_timecol cb'.
Proof.
  intros Hfnt Hk0. induction datasets as [|dt rest IH];
    intros Hready cb cb' l0 l0' i Hinv Hfn H; simpl in H.
  - inversion H; subst. auto.
  - bind_inv H as st Hstep. destruct st as [cb1 l1].
    destruct (pass2_step_inv _ _ _ _ _ _ _ _ _ _ _ Hfnt Hk0
                (Hready dt (or_introl eq_refl)) Hinv Hfn Hstep) as [Hinv1 Hfn1].
    eapply IH; eauto. intros dt' Hin. apply Hready. right. assumption.
Qed.

(** *** The filling loop *)

Lemma timecol_facts (c tc : string) :
  is_col c -> timecol_in c = Ok (Some tc) ->
  is_col tc /\ timecol_in tc = Ok (Some tc).
Proof.
  intros (d & Hd & Hin) Htc.
  destruct (ok_columns d (inputs_ok d Hd) c Hin)
    as [(a & tc' & ta & _ & Htc' & Htin & Hself & _) _].
  rewrite Htc in Htc'. inversion Htc'; subst tc'.
  split; [exists d; auto|assumption].
Qed.

Lemma is_col_timecol (c : string) :
  is_col c -> exists tc, timecol_in c = Ok (Some tc).
Proof.
  intros (d & Hd & Hin).
  destruct (ok_columns d (inputs_ok d Hd) c Hin)
    as [(a & tc & ta & _ & Htc & _) _]. eauto.
Qed.

(** After the columns [pre]: the dataset is as between two datasets, with
    the same list of columns, and each of these columns is as long as its
    time column. *)
Definition padded (cb : dict) (ccols pre : list string)
    (st : dict * option nat) : Prop :=
  merge_inv (fst st) /\
  dict_get "data_cols" (fst st) = Some (VNames ccols) /\
  (forall x, ~ is_col x \/ timecol_in x = Ok (Some x) ->
     dict_get x (fst st) = dict_get x cb) /\
  (forall c, In c pre -> In c ccols) /\
  (forall c tc, In c pre -> timecol_in c = Ok (Some tc) ->
     len_at (fst st) c = len_at (fst st) tc).

Lemma pad_col_step (cb : dict) (ccols pre : list string) (c : string)
    (st st' : dict * option nat) :
  padded cb ccols pre st -> In c ccols ->
  pad_col EC_cols_0 st c = Ok st' ->
  padded cb ccols (pre ++ [c]) st'.
Proof.
  intros (Hinv & Hcols & Hother & Hpre & Hdone) Hc H.
  destruct st as [cur l0]. simpl in Hinv, Hcols, Hother, Hdone.
  assert (Hpre' : forall x, In x (pre ++ [c]) -> In x ccols).
  { intros x Hx. apply in_app_or in Hx.
    destruct Hx as [Hx|[<-|[]]]; auto. }
  pose proof Hinv as [(ccols' & Hcc & Harr & Habs & Hclosed) Hlens].
  rewrite Hcols in Hcc. inversion Hcc; subst ccols'. clear Hcc.
  destruct (Harr c Hc) as [Hcol [a Ha]].
  destruct (is_col_timecol c Hcol) as [tc Htc].
  destruct (timecol_facts c tc Hcol Htc) as [Htcol Hself].
  pose proof (Hclosed c tc Hc Htc) as Htin.
  destruct (Harr tc Htin) as [_ [ta Hta]].
  pose proof (Hlens c tc Hcol Htc) as Hle.
  unfold len_at in Hle. rewrite Ha, Hta in Hle.
  unfold pad_col, dict_item in H. rewrite Ha in H. simpl bind in H.
  rewrite Htc in H. simpl bind in H. rewrite Hta in H. simpl bind in H.
  destruct (List.length a <? List.length ta)%nat eqn:E.
  - apply Nat.ltb_lt in E. simpl in H. inversion H; subst st'. clear H.
    set (a' := a ++ repeat 0 (List.length ta - List.length a)).
    assert (Hlen' : List.length a' = List.length ta)
      by (unfold a'; rewrite length_app, repeat_length; lia).
    assert (Hne : c <> tc) by (intros ->; rewrite Ha in Hta;
                                inversion Hta; subst; lia).
    assert (Hself_other : forall x, timecol_in x = Ok (Some x) -> x <> c).
    { intros x Hx ->. rewrite Htc in Hx. inversion Hx. congruence. }
    assert (Hlen_c : len_at (dict_set c (VArr a') cur) c = List.length ta)
      by (unfold len_at; rewrite dict_get_set_same; assumption).
    assert (Hlen_o : forall x, x <> c ->
              len_at (dict_set c (VArr a') cur) x = len_at cur x)
      by (intros x Hx; unfold len_at; rewrite dict_get_set_other; auto).
    assert (Hlen_tc : len_at cur tc = List.length ta)
      by (unfold len_at; rewrite Hta; reflexivity).
    assert (Hdc : c <> "data_cols")
      by (apply is_col_not_reserved; [assumption|simpl; tauto]).
    unfold padded. simpl fst. split; [|split; [|split; [|split]]];
      [ | | | exact Hpre' | ].
    + split.
      * exists ccols. rewrite dict_get_set_other by congruence.
        split; [assumption|]. split; [|split; [|assumption]].
        -- intros x Hx. destruct (Harr x Hx) as [Hxc Hxa].
           split; [assumption|]. rewrite dict_get_set.
           destruct (String.eqb x c); eauto.
        -- intros x Hxc Hxn. rewrite dict_get_set_other; [auto|].
           intros ->. contradiction.
      * intros x tx Hxc Htx.
        destruct (timecol_facts x tx Hxc Htx) as [_ Htxs].
        rewrite (Hlen_o tx (Hself_other tx Htxs)).
        destruct (string_dec x c) as [->|Hxne].
        -- rewrite Htc in Htx. inversion Htx; subst tx. lia.
        -- rewrite (Hlen_o x Hxne). auto.
    + rewrite dict_get_set_other by congruence. assumption.
    + intros x Hx. rewrite dict_get_set_other; [auto|].
      destruct Hx as [Hx|Hx]; [intros ->; contradiction|].
      apply Hself_other. assumption.
    + intros x tx Hx Htx.
      assert (Hxcol : is_col x) by (apply (Harr x (Hpre' x Hx))).
      apply in_app_or in Hx.
      destruct (timecol_facts x tx Hxcol Htx) as [_ Htxs].
      rewrite (Hlen_o tx (Hself_other tx Htxs)).
      destruct (string_dec x c) as [->|Hxne].
      * rewrite Htc in Htx. inversion Htx; subst tx. lia.
      * rewrite (Hlen_o x Hxne).
        destruct Hx as [Hx|[Hx|[]]]; [auto|congruence].
  - apply Nat.ltb_ge in E. inversion H; subst st'. clear H.
    unfold padded. simpl fst.
    split; [assumption|]. split; [assumption|]. split; [assumption|].
    split; [exact Hpre'|].
    intros x tx Hx Htx. apply in_app_or in Hx.
    destruct Hx as [Hx|[<-|[]]]; [auto|].
    rewrite Htc in Htx. inversion Htx; subst tx.
    unfold len_at. rewrite Ha, Hta. lia.
Qed.

(** *** From the call to the combined dataset *)

Variable now : Z.
Variable user_continues : bool.
Variable timestamp_to_epoch_time : option value -> option value -> result Z.
Variable epoch_time_to_timestamp : Z -> result value.

Lemma pass1_loop_ready (n : nat) (todo : list dict) :
  forall (st p : pass1) (nd : nat) (done datasets : list dict),
    (forall d, In d todo -> In d inputs) ->
    (forall dt, In dt done -> ready dt) ->
    pass1_loop EC_cols_0 now timestamp_to_epoch_time n st nd done todo
    = Ok (p, datasets) ->
    forall dt, In dt datasets -> ready dt.
Proof.
  induction todo as [|d todo IH]; intros st p nd done datasets Hin Hdone H;
    simpl in H.
  - inversion H; subst. assumption.
  - bind_inv H as r Hstep. destruct r as [st1 d1]. simpl in H.
    apply pass1_step_spec in Hstep. destruct Hstep as [-> _].
    eapply IH; [| |exact H].
    + intros d' Hd'. apply Hin. right. assumption.
    + intros dt Hdt. apply in_app_or in Hdt. destruct Hdt as [Hdt|[<-|[]]].
      * auto.
      * exists nd, d. split; [apply Hin; left; reflexivity|reflexivity].
Qed.

Lemma first_with_data_In (hasdata : list bool) (datasets : list dict)
    (d : dict) :
  first_with_data hasdata datasets = Some d -> In d datasets.
Proof.
  revert datasets; induction hasdata as [|b hasdata IH];
    intros [|d' datasets] H; simpl in H; try discriminate.
  - destruct b; discriminate.
  - destruct b; [inversion H; left; reflexivity|].
    right. apply IH. assumption.
Qed.

Lemma sort_datasets_In (p : pass1) (datasets : list dict) (d : dict) :
  In d (sort_datasets p datasets) -> In d datasets.
Proof.
  unfold sort_datasets. intro H. apply in_flat_map in H.
  destruct H as (I & _ & H).
  destruct (nth_error datasets I) as [d'|] eqn:E; [|destruct H].
  destruct H as [<-|[]]. eapply nth_error_In; eauto.
Qed.

Lemma header_get (p : pass1) (t_zero : Z) (timestamp : value) (c : string) :
  ~ In c reserved -> dict_get c (combined_header p t_zero timestamp) = None.
Proof.
  intro Hres. apply dict_get_keys. intro Hin. apply Hres.
  cbn [combined_header map fst] in Hin.
  repeat (destruct Hin as [<-|Hin]; [simpl; tauto|]). destruct Hin.
Qed.

Lemma header_inv (p : pass1) (t_zero : Z) (timestamp : value) (cb : dict) :
  (forall x, x <> "file number" ->
     dict_get x cb = dict_get x (combined_header p t_zero timestamp)) ->
  merge_inv cb.
Proof.
  intro Hcb.
  assert (Habs : forall c, is_col c -> dict_get c cb = None).
  { intros c Hc. rewrite Hcb.
    - apply header_get. apply (is_col_name_ok c Hc).
    - apply is_col_not_reserved; [assumption|simpl; tauto]. }
  split.
  - exists []. rewrite Hcb by discriminate.
    split; [reflexivity|]. split; [intros c []|].
    split; [auto|intros c tc []].
  - intros c tc Hc Htc. unfold len_at. rewrite (Habs c Hc). lia.
Qed.

Lemma finish_spec (cb c : dict) (ccols : list string) :
  dict_get "data_cols" cb = Some (VNames ccols) ->
  finish_combined cb = Ok c ->
  (cols_of c = ccols \/
   (cols_of c = ccols ++ ["file number"] /\
    dict_get "file number" cb <> None)) /\
  (forall x, x <> "data_cols" -> x <> "t_str" ->
     dict_get x c = dict_get x cb).
Proof.
  intros Hcols H. unfold finish_combined, combined_cols, data_cols_of,
    dict_item in H. rewrite Hcols in H. simpl bind in H.
  inversion H; subst c. clear H.
  set (cb1 := if dict_mem "file number" cb &&
                 negb (PyStr.mem "file number" ccols)
              then dict_set "data_cols" (VNames (ccols ++ ["file number"])) cb
              else cb).
  assert (H1 : (cols_of cb1 = ccols \/
                (cols_of cb1 = ccols ++ ["file number"] /\
                 dict_get "file number" cb <> None)) /\
               (forall x, x <> "data_cols" ->
                  dict_get x cb1 = dict_get x cb)).
  { unfold cb1.
    destruct (dict_mem "file number" cb && negb (PyStr.mem "file number" ccols))
      eqn:E.
    - apply andb_prop in E. destruct E as [E _]. split.
      + right. unfold cols_of. rewrite dict_get_set_same.
        split; [reflexivity|]. unfold dict_mem in E.
        destruct (dict_get "file number" cb); [discriminate|discriminate].
      + intros x Hx. apply dict_get_set_other. assumption.
    - split; [left; unfold cols_of; rewrite Hcols; reflexivity|auto]. }
  destruct H1 as [Hc1 Hg1].
  assert (H2 : forall x, x <> "t_str" ->
                 dict_get x (if dict_mem "time/s" cb1
                             then dict_set "t_str" (VStr "time/s") cb1
                             else cb1) = dict_get x cb1).
  { intros x Hx. destruct (dict_mem "time/s" cb1); [|reflexivity].
    apply dict_get_set_other. assumption. }
  split.
  - unfold cols_of in *. rewrite H2 by discriminate. exact Hc1.
  - intros x Hx1 Hx2. rewrite H2 by assumption. auto.
Qed.


End AppendFacts.

(* ================================================================== *)
(** * The statements on concrete datasets *)

(** An EC dataset stamped at 100 with five samples, and one stamped at 102
    with three samples and no current. *)
Definition dataset_A : dict :=
  [("title", VStr "A"); ("data_type", VStr "EC"); ("tstamp", VNum 100);
   ("data_cols", VNames ["time/s"; "Ewe/V"; "I/mA"]);
   ("time/s", VArr [0; 1; 2; 3; 4]);
   ("Ewe/V", VArr [10; 11; 12; 13; 14]);
   ("I/mA", VArr [1; 1; 1; 1; 1])].

Definition dataset_B : dict :=
  [("title", VStr "B"); ("data_type", VStr "EC"); ("tstamp", VNum 102);
   ("data_cols", VNames ["time/s"; "Ewe/V"]);
   ("time/s", VArr [0; 1; 2]);
   ("Ewe/V", VArr [20; 21; 22])].

(** Datasets without an epoch, whose time axes begin before their zero. *)
Definition dataset_early_A : dict :=
  [("title", VStr "A"); ("data_type", VStr "EC"); ("tstamp", VNum 0);
   ("data_cols", VNames ["time/s"]); ("time/s", VArr [-10; -5; 0; 5])].

Definition dataset_early_B : dict :=
  [("title", VStr "B"); ("data_type", VStr "EC"); ("tstamp", VNum 0);
   ("data_cols", VNames ["time/s"]); ("time/s", VArr [-8; -4; 0; 3])].

(** A file that is empty after its header. *)
Definition dataset_header_only : dict :=
  [("title", VStr "E"); ("data_type", VStr "EC"); ("tstamp", VNum 100);
   ("data_cols", VNames ["time/s"]); ("time/s", VArr [])].

Definition no_date_parser (_ _ : option value) : result Z := Raise ValueError.

Definition plain_timestamp (_ : Z) : result value := Ok (VStr "00:00:00").

Definition default_options : sync_options :=
  mkOptions TZStart None "EC" false 60 None.

Definition reference_data : dict :=
  [("tstamp", VNum 130); ("time/s", VArr [10; 20; 30])].

Definition unit_line (_ _ : list Z) : Z * Z := (1, 0).

Lemma is_time_number_suffix_witness :
  "1" <> "" /\ PyStr.all_digits "1" = true /\
  PyStr.mem ("time/s" ++ "_" ++ "1")%string EC_cols_sample = false /\
  is_time EC_cols_sample "time/s" = Ok true /\
  is_time EC_cols_sample ("time/s" ++ "_" ++ "1")%string = Ok false.
Proof.
  split; [discriminate|]. split; [reflexivity|]. split; [reflexivity|].
  split; [reflexivity|].
  apply (is_time_number_suffix EC_cols_sample "time/s" "1");
    [discriminate | reflexivity | reflexivity].
Defined.


Lemma time_cal_no_point_witness :
  time_cal unit_line time_cal_demo (RefData reference_data)
           (Points [(PInt 7, PInt 2)]) (PTList "index" "index")
           "t" (Some "t") "time/s"
  = (time_cal_demo, Raise TypeError).
Proof.
  apply (time_cal_no_point unit_line time_cal_demo (RefData reference_data)
           (Points [(PInt 7, PInt 2)]) (PTList "index" "index")
           "t" (Some "t") "time/s" [(PInt 7, PInt 2)] 30);
    reflexivity.
Defined.

Lemma time_cal_registers_always_witness :
  In "t" ["t"; "y"] /\
  dict_get "data_cols"
    (fst (time_cal unit_line time_cal_demo RefAbsolute
                   (Points [(PFloat 0, PFloat 0)]) (PTList "time" "time")
                   "t" (Some "t") "time/s"))
  = Some (VNames (["t"; "y"] ++ ["t"])).
Proof.
  split; [left; reflexivity|].
  apply (time_cal_registers_always unit_line time_cal_demo _ RefAbsolute
           (Points [(PFloat 0, PFloat 0)]) (PTList "time" "time")
           "t" (Some "t") "time/s" ["t"; "y"]);
    reflexivity.
Defined.



Lemma synchronize_single_witness :
  synchronize EC_cols_sample 1000 true no_date_parser plain_timestamp
              [dataset_B] default_options
  = Ok (tagged 0 dataset_B).
Proof.
  assert (H : exists r,
             synchronize EC_cols_sample 1000 true no_date_parser
                         plain_timestamp [dataset_B] default_options = Ok r)
    by (eexists; vm_compute; reflexivity).
  destruct H as [r H]. rewrite H. f_equal.
  apply (synchronize_single EC_cols_sample 1000 true no_date_parser
           plain_timestamp dataset_B default_options r 102 102 104
           "time/s" ["Ewe/V"]); [reflexivity | reflexivity | reflexivity | exact H].
Defined.

(** C3, as it is stated, on a dataset with one data column that is empty
    after the header: the call returns a new empty combined dataset, not
    the dataset it was given. *)
Lemma synchronize_single_header_only :
  data_cols_of dataset_header_only = Ok ["time/s"] /\
  exists r,
    synchronize EC_cols_sample 1000 true no_date_parser plain_timestamp
                [dataset_header_only] default_options = Ok r /\
    dict_get "data_type" r = Some (VStr "combined") /\
    dict_get "data_cols" r = Some (VNames []) /\
    r <> tagged 0 dataset_header_only.
Proof.
  split; [reflexivity|]. eexists. split; [vm_compute; reflexivity|].
  split; [reflexivity|]. split; [reflexivity|]. discriminate.
Qed.

Definition dataset_window : dict :=
  [("title", VStr "a"); ("data_cols", VNames ["time/s"; "Ewe/V"]);
   ("time/s", VArr [0; 1; 2; 3; 4]); ("Ewe/V", VArr [10; 11; 12; 13; 14])].

Lemma cut_dataset_idempotent_witness :
  exists ds1,
    cut_dataset EC_cols_sample dataset_window (Some [0; 3]) TzNone = Ok ds1 /\
    dict_get "time/s" ds1 = Some (VArr [1; 2]) /\
    cut_dataset EC_cols_sample ds1 (Some [0; 3]) TzNone = Ok ds1.
Proof.
  eexists. split; [vm_compute; reflexivity|]. split; [reflexivity|].
  apply (cut_dataset_idempotent EC_cols_sample dataset_window _ [0; 3]
           ["time/s"; "Ewe/V"]).
  - reflexivity.
  - intros c tc [<-|[<-|[]]] H; vm_compute in H; inversion H; subst tc;
      (split; [simpl; auto | reflexivity]).
  - intros [H|[H|[]]]; discriminate.
  - reflexivity.
Defined.

Definition heap_window : Heap.heap :=
  [Heap.ODict [("title", Heap.HStr "a"); ("data_cols", Heap.HRef 1%nat);
               ("time/s", Heap.HRef 2%nat); ("Ewe/V", Heap.HRef 3%nat)];
   Heap.ONames ["time/s"; "Ewe/V"];
   Heap.OArr [0; 1; 2; 3; 4];
   Heap.OArr [10; 11; 12; 13; 14];
   Heap.ONums [0; 3]].

Lemma cut_dataset_frame_witness :
  exists h',
    Heap.cut_dataset EC_cols_sample 0%nat (Some 4%nat) (TzNum 1) heap_window
    = (h', Ok 5%nat) /\
    nth_error h' 7 = Some (Heap.OArr [0; 1]) /\
    (forall l, (l < 5)%nat -> nth_error h' l = nth_error heap_window l).
Proof.
  eexists. split; [vm_compute; reflexivity|]. split; [reflexivity|].
  apply (HeapFacts.cut_dataset_frame EC_cols_sample heap_window _ 0%nat
           (Some 4%nat) (TzNum 1) (Ok 5%nat)).
  vm_compute. reflexivity.
Defined.

(** The datasets A and B are datasets in the sense of the data model. *)
Lemma inputs_A_B_ok :
  forall d, In d [dataset_A; dataset_B] ->
    dataset_ok EC_cols_sample [dataset_A; dataset_B] d.
Proof.
  assert (Hcol : forall k,
             is_col [dataset_A; dataset_B] k ->
             k = "time/s" \/ k = "Ewe/V" \/ k = "I/mA").
  { intros k (d & [<-|[<-|[]]] & Hin); vm_compute in Hin; intuition congruence. }
  assert (Hname : forall k,
             k = "time/s" \/ k = "Ewe/V" \/ k = "I/mA" -> name_ok k).
  { intros k [->|[->| ->]]; (split; [|discriminate]);
      intro H; vm_compute in H;
      repeat (destruct H as [H|H]; [discriminate|]); destruct H. }
  intros d [<-|[<-|[]]]; constructor.
  - vm_compute. repeat constructor; simpl; intuition discriminate.
  - intros c Hc. vm_compute in Hc. split; [|apply Hname; intuition congruence].
    destruct Hc as [<-|[<-|[<-|[]]]];
      [ exists [0; 1; 2; 3; 4], "time/s", [0; 1; 2; 3; 4]
      | exists [10; 11; 12; 13; 14], "time/s", [0; 1; 2; 3; 4]
      | exists [1; 1; 1; 1; 1], "time/s", [0; 1; 2; 3; 4] ];
      vm_compute; intuition congruence.
  - intros k Hk Hc. apply Hcol in Hc. vm_compute.
    destruct Hc as [->|[->| ->]]; intuition congruence.
  - vm_compute. intuition discriminate.
  - vm_compute. repeat constructor; simpl; intuition discriminate.
  - intros c Hc. vm_compute in Hc. split; [|apply Hname; intuition congruence].
    destruct Hc as [<-|[<-|[]]];
      [ exists [0; 1; 2], "time/s", [0; 1; 2]
      | exists [20; 21; 22], "time/s", [0; 1; 2] ];
      vm_compute; intuition congruence.
  - intros k Hk Hc. apply Hcol in Hc. vm_compute in Hk |- *.
    destruct Hc as [->|[->| ->]]; [intuition congruence|intuition congruence|].
    repeat (destruct Hk as [Hk|Hk]; [discriminate|]). destruct Hk.
  - vm_compute. intuition discriminate.
Qed.

